(** * Privacy-popup Shopify app: webhook verification, subscription
      reconciliation and the settings gate

    A shallow embedding of the server-side TypeScript of the repository
    ([src/lib/shopify.ts], [src/lib/db.ts] and the route handlers), with
    the theorems that settle the claims C1..C10 of the specification.

    Conventions.
    - A JavaScript string is a [string]; where the source hands a string
      to [Buffer.from] or to [hmac.update(_, 'utf8')] the bytes of the
      [string] are the bytes of its UTF-8 encoding.
    - A byte and a 32-bit word are a [Z] with the wrap-around written out.
    - A call that may throw returns a [Completion]. *)

From Stdlib Require Import ZArith List String Ascii Bool Lia Arith DecimalString.
Import ListNotations.

Local Open Scope Z_scope.
Local Open Scope string_scope.
Local Open Scope list_scope.

(** ** JavaScript values that cross the handlers: parsed JSON bodies,
       audit details and response bodies

    [JNum n] is the number that [JSON.parse] makes of the integer literal
    [n]: the double nearest to [n], which is [n] itself up to 2^53.
    Numbers with a fraction are outside the model. *)

#[local] Set Warnings "-register-all".
Inductive JVal : Type :=
| JUndefined
| JNull
| JBool (b : bool)
| JNum (n : Z)
| JStr (s : string)
| JArr (items : list JVal)
| JObj (fields : list (string * JVal)).

(** ** Completions: a JavaScript call returns a value or throws *)

(** An issue of a [ZodError] as the handlers read it: its [path], its
    [message], and the issue as a response body carries it. *)
Record ZodIssue : Type := mkZodIssue
  { issue_path : list JVal;
    issue_message : string;
    issue_json : JVal }.

Inductive JsError : Type :=
| TypeError (msg : string)
| RangeError (msg : string)
| SyntaxError (msg : string)
| PrismaError (msg : string)
| ZodError (msg : string) (issues : list ZodIssue)
| ProviderError (msg : string).

Inductive Completion (A : Type) : Type :=
| Returned (a : A)
| Thrown (e : JsError).

Arguments Returned {A} a.
Arguments Thrown {A} e.

(** ** Node's [crypto] module, as far as [verifyWebhookSignature] uses it *)

Module Crypto.

Definition bytes := list Z.

Definition utf8 (s : string) : bytes :=
  map (fun c => Z.of_N (N_of_ascii c)) (list_ascii_of_string s).

(** *** SHA-256 (FIPS 180-4) on 32-bit words *)

Definition mask32 : Z := 0xFFFFFFFF.
Definition add32 (a b : Z) : Z := (a + b) mod 2 ^ 32.
Definition rotr (n x : Z) : Z :=
  Z.land (Z.lor (Z.shiftr x n) (Z.shiftl x (32 - n))) mask32.
Definition shr (n x : Z) : Z := Z.shiftr x n.
Definition not32 (x : Z) : Z := Z.lxor x mask32.

Definition Ch (x y z : Z) : Z := Z.lxor (Z.land x y) (Z.land (not32 x) z).
Definition Maj (x y z : Z) : Z :=
  Z.lxor (Z.lxor (Z.land x y) (Z.land x z)) (Z.land y z).
Definition Sigma0 (x : Z) : Z := Z.lxor (Z.lxor (rotr 2 x) (rotr 13 x)) (rotr 22 x).
Definition Sigma1 (x : Z) : Z := Z.lxor (Z.lxor (rotr 6 x) (rotr 11 x)) (rotr 25 x).
Definition sigma0 (x : Z) : Z := Z.lxor (Z.lxor (rotr 7 x) (rotr 18 x)) (shr 3 x).
Definition sigma1 (x : Z) : Z := Z.lxor (Z.lxor (rotr 17 x) (rotr 19 x)) (shr 10 x).

(** The constants of the standard, from their definition: the first 32
    bits of the fractional parts of the cube roots (round constants) and
    of the square roots (initial hash value) of the first primes. *)
Definition is_prime (n : nat) : bool :=
  forallb (fun d => negb (Nat.eqb (Nat.modulo n d) 0)) (seq 2 (n - 2)).

Definition primes : list Z := map Z.of_nat (filter is_prime (seq 2 310)).

(** The integer cube root, found bit by bit from the top. *)
Fixpoint cube_root_from (bits : nat) (n acc : Z) : Z :=
  match bits with
  | O => acc
  | S b =>
      let c := acc + 2 ^ Z.of_nat b in
      if Z.leb (c * c * c) n then cube_root_from b n c else cube_root_from b n acc
  end.

Definition K256 : list Z :=
  Eval vm_compute in
    map (fun p => cube_root_from 40 (p * 2 ^ 96) 0 mod 2 ^ 32) primes.

Record HashState : Type := mkHash
  { ha : Z; hb : Z; hc : Z; hd : Z; he : Z; hf : Z; hg : Z; hh : Z }.

Definition H0_words : list Z :=
  Eval vm_compute in map (fun p => Z.sqrt (p * 2 ^ 64) mod 2 ^ 32) (firstn 8 primes).

Definition H0 : HashState :=
  Eval cbv in
    match H0_words with
    | [a; b; c; d; e; f; g; h] => mkHash a b c d e f g h
    | _ => mkHash 0 0 0 0 0 0 0 0
    end.

Definition round (k w : Z) (s : HashState) : HashState :=
  let t1 := add32 (add32 (add32 (add32 (hh s) (Sigma1 (he s))) (Ch (he s) (hf s) (hg s))) k) w in
  let t2 := add32 (Sigma0 (ha s)) (Maj (ha s) (hb s) (hc s)) in
  mkHash (add32 t1 t2) (ha s) (hb s) (hc s) (add32 (hd s) t1) (he s) (hf s) (hg s).

(** [w] is the sliding window W[t..t+15] of the message schedule. *)
Fixpoint rounds (ks : list Z) (w : list Z) (s : HashState) : HashState :=
  match ks, w with
  | k :: ks', w0 :: wt =>
      let wnew := add32 (add32 (sigma1 (nth 13 wt 0)) (nth 8 wt 0))
                        (add32 (sigma0 (nth 0 wt 0)) w0) in
      rounds ks' (wt ++ [wnew]) (round k w0 s)
  | _, _ => s
  end.

Fixpoint words_of_bytes (l : bytes) : list Z :=
  match l with
  | b0 :: b1 :: b2 :: b3 :: r =>
      (Z.shiftl b0 24 + Z.shiftl b1 16 + Z.shiftl b2 8 + b3) :: words_of_bytes r
  | _ => []
  end.

Definition bytes_of_word (w : Z) : bytes :=
  [ Z.land (Z.shiftr w 24) 255; Z.land (Z.shiftr w 16) 255;
    Z.land (Z.shiftr w 8) 255; Z.land w 255 ].

Definition compress (block : bytes) (s : HashState) : HashState :=
  let r := rounds K256 (words_of_bytes block) s in
  mkHash (add32 (ha s) (ha r)) (add32 (hb s) (hb r)) (add32 (hc s) (hc r))
         (add32 (hd s) (hd r)) (add32 (he s) (he r)) (add32 (hf s) (hf r))
         (add32 (hg s) (hg r)) (add32 (hh s) (hh r)).

Fixpoint blocks (n : nat) (msg : bytes) (s : HashState) : HashState :=
  match n with
  | O => s
  | S n' => blocks n' (skipn 64 msg) (compress (firstn 64 msg) s)
  end.

Definition be64 (n : Z) : bytes :=
  map (fun i => Z.land (Z.shiftr n (8 * i)) 255) [7; 6; 5; 4; 3; 2; 1; 0].

Definition pad (msg : bytes) : bytes :=
  let len := Z.of_nat (List.length msg) in
  let zeros := Z.to_nat ((55 - len) mod 64) in
  msg ++ [0x80] ++ repeat 0 zeros ++ be64 (8 * len).

Definition digest_of (s : HashState) : bytes :=
  bytes_of_word (ha s) ++ bytes_of_word (hb s) ++ bytes_of_word (hc s) ++
  bytes_of_word (hd s) ++ bytes_of_word (he s) ++ bytes_of_word (hf s) ++
  bytes_of_word (hg s) ++ bytes_of_word (hh s).

Definition sha256 (msg : bytes) : bytes :=
  let p := pad msg in
  digest_of (blocks (Nat.div (List.length p) 64) p H0).

(** *** HMAC (RFC 2104) with SHA-256, block size 64 *)

Definition hmac_key_block (key : bytes) : bytes :=
  let k := if Nat.ltb 64 (List.length key) then sha256 key else key in
  k ++ repeat 0 (64 - List.length k)%nat.

Definition hmac_sha256 (key data : bytes) : bytes :=
  let kb := hmac_key_block key in
  let ipad := map (fun b => Z.lxor b 0x36) kb in
  let opad := map (fun b => Z.lxor b 0x5c) kb in
  sha256 (opad ++ sha256 (ipad ++ data)).

(** *** Base64 (RFC 4648, the standard alphabet, with padding) *)

Definition alphabet : string :=
  "ABCDEFGHIJKLMNOPQRSTUVWXYZabcdefghijklmnopqrstuvwxyz0123456789+/".

Definition b64char (n : Z) : ascii :=
  match String.get (Z.to_nat n) alphabet with
  | Some c => c
  | None => "="%char
  end.

Fixpoint base64 (l : bytes) : string :=
  match l with
  | [] => EmptyString
  | [a] =>
      String (b64char (Z.shiftr a 2))
        (String (b64char (Z.shiftl (Z.land a 3) 4)) "==")
  | [a; b] =>
      String (b64char (Z.shiftr a 2))
        (String (b64char (Z.lor (Z.shiftl (Z.land a 3) 4) (Z.shiftr b 4)))
           (String (b64char (Z.shiftl (Z.land b 15) 2)) "="))
  | a :: b :: c :: r =>
      String (b64char (Z.shiftr a 2))
        (String (b64char (Z.lor (Z.shiftl (Z.land a 3) 4) (Z.shiftr b 4)))
           (String (b64char (Z.lor (Z.shiftl (Z.land b 15) 2) (Z.shiftr c 6)))
              (String (b64char (Z.land c 63)) (base64 r))))
  end.

Definition hex_digit (n : Z) : ascii :=
  match String.get (Z.to_nat n) "0123456789abcdef" with
  | Some c => c
  | None => "?"%char
  end.

Fixpoint hex (l : bytes) : string :=
  match l with
  | [] => EmptyString
  | b :: r => String (hex_digit (Z.shiftr b 4)) (String (hex_digit (Z.land b 15)) (hex r))
  end.

(** *** [crypto.timingSafeEqual]: throws on buffers of different byte
    length, otherwise compares them. *)

Fixpoint bytes_eqb (a b : bytes) : bool :=
  match a, b with
  | [], [] => true
  | x :: a', y :: b' => Z.eqb x y && bytes_eqb a' b'
  | _, _ => false
  end.

Definition timingSafeEqual (a b : bytes) : Completion bool :=
  if Nat.eqb (List.length a) (List.length b)
  then Returned (bytes_eqb a b)
  else Thrown (RangeError "Input buffers must have the same byte length").

End Crypto.

(** ** [src/lib/shopify.ts]: [shopifyHelpers.verifyWebhookSignature]

    [secret] is [process.env.SHOPIFY_API_SECRET], read at each call;
    [crypto.createHmac] throws when the key is [undefined]. *)

Definition sign (key data : string) : string :=
  Crypto.base64 (Crypto.hmac_sha256 (Crypto.utf8 key) (Crypto.utf8 data)).

Definition verifyWebhookSignature
    (secret : option string) (data signature : string) : Completion bool :=
  match secret with
  | None => Thrown (TypeError "The key argument must be of type string")
  | Some key =>
      let hash := sign key data in
      Crypto.timingSafeEqual (Crypto.utf8 hash) (Crypto.utf8 signature)
  end.

(** ** Reading JavaScript values *)

Fixpoint assoc {A : Type} (k : string) (l : list (string * A)) : option A :=
  match l with
  | [] => None
  | (k', v) :: r => if String.eqb k k' then Some v else assoc k r
  end.

(** [JSON.parse] keeps the last of several equal keys. *)
Definition own_property (k : string) (fields : list (string * JVal)) : option JVal :=
  assoc k (rev fields).

(** [v.k] for the keys the handlers read ([id], [status], [domain], ...):
    none of them is a member of a prototype, so only an object's own
    properties answer; reading a property of [null] or [undefined]
    throws. *)
Definition get_prop (v : JVal) (k : string) : Completion JVal :=
  match v with
  | JUndefined | JNull => Thrown (TypeError "Cannot read properties of null or undefined")
  | JObj fields =>
      match own_property k fields with
      | Some x => Returned x
      | None => Returned JUndefined
      end
  | _ => Returned JUndefined
  end.

Definition truthy (v : JVal) : bool :=
  match v with
  | JUndefined | JNull => false
  | JBool b => b
  | JNum n => negb (Z.eqb n 0)
  | JStr s => negb (String.eqb s EmptyString)
  | JArr _ | JObj _ => true
  end.

(** [a || b] *)
Definition js_or (a b : JVal) : JVal := if truthy a then a else b.

Definition string_of_Z (n : Z) : string :=
  NilZero.string_of_int (Z.to_int n).

Fixpoint join (sep : string) (l : list string) : string :=
  match l with
  | [] => EmptyString
  | [x] => x
  | x :: r => (x ++ sep ++ join sep r)%string
  end.

(** *** [Number::toString]: the shortest decimal that reads back as the
        same double

    The double nearest to a non-negative integer, ties to the even
    significand of 53 bits. *)
Definition nearest_double (n : Z) : Z :=
  if Z.ltb n (2 ^ 53) then n
  else
    let e := Z.log2 n - 52 in
    let q := Z.shiftr n e in
    let r := n - Z.shiftl q e in
    let half := 2 ^ (e - 1) in
    let q' := if Z.ltb r half then q
              else if Z.ltb half r then q + 1
              else if Z.even q then q else q + 1 in
    Z.shiftl q' e.

(** The distance from the double [x] to the next one above; below 2^53
    it is at most 1 and no other integer reads back as [x], which the
    value 1 expresses as well. *)
Definition double_gap (x : Z) : Z :=
  if Z.ltb x (2 ^ 53) then 1 else 2 ^ (Z.log2 x - 52).

(** Whether the integer [v] reads back as the double [x]: it lies within
    half a gap of [x] (a quarter below a power of two, where the doubles
    underneath are twice as dense), the end points included when the
    significand of [x] is even.  Distances are taken four times. *)
Definition reads_back_as (x v : Z) : bool :=
  let g := double_gap x in
  let below := if Z.eqb x (2 ^ Z.log2 x) then g else 2 * g in
  let above := 2 * g in
  let d := 4 * (v - x) in
  if Z.even (x / g)
  then Z.leb (- below) d && Z.leb d above
  else Z.ltb (- below) d && Z.ltb d above.

(** The multiple of [p], [p / 10], ... with the fewest digits that reads
    back as [x], the nearest to [x] of two, the one with the even last
    digit at equal distance. *)
Fixpoint shortest_digits (fuel : nat) (p x : Z) : Z :=
  match fuel with
  | O => x
  | S f =>
      let a := x / p * p in
      let b := a + p in
      match reads_back_as x a, reads_back_as x b with
      | true, true =>
          if Z.ltb (x - a) (b - x) then a
          else if Z.ltb (b - x) (x - a) then b
          else if Z.even (a / p) then a else b
      | true, false => a
      | false, true => b
      | false, false => shortest_digits f (p / 10) x
      end
  end.

Definition decimal_digits (x : Z) : nat := String.length (string_of_Z x).

Fixpoint strip_zeros (fuel : nat) (v : Z) : Z :=
  match fuel with
  | O => v
  | S f => if Z.eqb (v mod 10) 0 then strip_zeros f (v / 10) else v
  end.

(** [d.ddde+n], the form of a number from 10^21 on. *)
Definition exponential (v : Z) : string :=
  let e := string_of_Z (Z.of_nat (decimal_digits v) - 1) in
  match string_of_Z (strip_zeros (decimal_digits v) v) with
  | String d EmptyString => String d EmptyString ++ "e+" ++ e
  | String d r => String d EmptyString ++ "." ++ r ++ "e+" ++ e
  | EmptyString => EmptyString
  end.

Definition print_double (x : Z) : string :=
  if Z.leb (2 ^ 1024) x then "Infinity"
  else
    let v := shortest_digits (decimal_digits x) (10 ^ (Z.of_nat (decimal_digits x) - 1)) x in
    if Z.ltb v (10 ^ 21) then string_of_Z v else exponential v.

(** [String(n)] for the number [JNum n]. *)
Definition Number_toString (n : Z) : string :=
  if Z.ltb n 0 then "-" ++ print_double (nearest_double (- n))
  else print_double (nearest_double n).

(** [String(v)], as a template literal and a property key apply it. *)
Fixpoint ToString (v : JVal) : string :=
  match v with
  | JUndefined => "undefined"
  | JNull => "null"
  | JBool true => "true"
  | JBool false => "false"
  | JNum n => Number_toString n
  | JStr s => s
  | JArr items =>
      join "," (map (fun x => match x with
                              | JUndefined | JNull => EmptyString
                              | _ => ToString x
                              end) items)
  | JObj _ => "[object Object]"
  end.

(** [items.join(sep)] *)
Definition array_join (sep : string) (items : list JVal) : string :=
  join sep (map (fun x => match x with
                          | JUndefined | JNull => EmptyString
                          | _ => ToString x
                          end) items).

(** [s.length]: the number of UTF-16 code units of the string that [s]
    encodes in UTF-8.  A byte below 128 or the first byte of a sequence
    of two or three is one unit, the first byte of a sequence of four (a
    code point beyond U+FFFF) is two, a continuation byte none. *)
Fixpoint js_length (s : string) : nat :=
  match s with
  | EmptyString => 0
  | String c r =>
      let b := N_of_ascii c in
      ((if N.ltb b 128 || N.leb 192 b && N.ltb b 240 then 1
        else if N.leb 240 b then 2 else 0) + js_length r)%nat
  end.

(** ** Requests and responses *)

Record Request : Type := mkRequest
  { req_body : string;
    req_headers : list (string * string);
    req_shop : option string;       (* url.searchParams.get('shop') *)
    req_now : Z }.                  (* what [new Date()] reads *)

Definition header (name : string) (r : Request) : option string :=
  assoc name (req_headers r).

Record Response : Type := mkResponse
  { res_status : Z;
    res_body : list (string * JVal) }.

(** [NextResponse.json(body)] and [NextResponse.json(body, { status })] *)
Definition json (body : list (string * JVal)) : Response := mkResponse 200 body.
Definition json_status (body : list (string * JVal)) (status : Z) : Response :=
  mkResponse status body.

(** [h || undefined] on a header *)
Definition nonempty (o : option string) : option string :=
  match o with
  | Some s => if String.eqb s EmptyString then None else Some s
  | None => None
  end.

Definition userAgent_of (r : Request) : option string :=
  nonempty (header "user-agent" r).

Definition ipAddress_of (r : Request) : option string :=
  match nonempty (header "x-forwarded-for" r) with
  | Some a => Some a
  | None =>
      match nonempty (header "x-real-ip" r) with
      | Some a => Some a
      | None => Some "unknown"
      end
  end.

(** ** The persistent store behind the Prisma client *)

Inductive SubscriptionStatus : Type :=
| PENDING | ACTIVE | CANCELLED | EXPIRED | FROZEN | PAUSED.

Definition status_eqb (a b : SubscriptionStatus) : bool :=
  match a, b with
  | PENDING, PENDING | ACTIVE, ACTIVE | CANCELLED, CANCELLED
  | EXPIRED, EXPIRED | FROZEN, FROZEN | PAUSED, PAUSED => true
  | _, _ => false
  end.

Definition status_name (s : SubscriptionStatus) : string :=
  match s with
  | PENDING => "PENDING" | ACTIVE => "ACTIVE" | CANCELLED => "CANCELLED"
  | EXPIRED => "EXPIRED" | FROZEN => "FROZEN" | PAUSED => "PAUSED"
  end.

(** Modelled from the spec: the Prisma schema, which declares the tables,
    is not among the sources.  The rows below follow the data model of
    the spec (Shop, Subscription, AuditLog, with Setting and Session as
    the purge names them) and carry the columns that [src/lib/db.ts] and
    the handlers read or write; a price is kept as its decimal text, a
    time as a number of milliseconds.  Foreign keys are not enforced by
    the model. *)
Record Shop : Type := mkShop
  { shop_id : string;
    shopifyDomain : string }.

Record Subscription : Type := mkSubscription
  { sub_id : string;
    sub_shopId : string;
    shopifySubscriptionId : string;
    sub_name : string;
    sub_status : SubscriptionStatus;
    sub_price : string;
    sub_currency : string;
    sub_interval : string;
    sub_trialEnd : option Z;
    sub_currentPeriodEnd : option Z;
    sub_test : bool;
    sub_createdAt : Z;
    sub_updatedAt : Z }.

Record PopupSettings : Type := mkPopupSettings
  { message : string;
    linkUrl : string;
    position : string;
    maxWidth : Z;
    padding : Z;
    zIndex : Z;
    dismissible : bool;
    bgColor : string;
    textColor : string;
    linkColor : string }.

Inductive SettingValue : Type :=
| PopupValue (s : PopupSettings)
| JsonValue (v : JVal).

Record Setting : Type := mkSetting
  { set_shopId : string;
    set_key : string;
    set_value : SettingValue;
    set_updatedAt : Z }.

Inductive Detail : Type :=
| DJson (v : JVal)
| DSettings (s : PopupSettings).

Record AuditLog : Type := mkAuditLog
  { log_shopId : string;
    action : string;
    resource : option string;
    resourceId : option string;
    details : list (string * Detail);
    userAgent : option string;
    ipAddress : option string }.

Record Session : Type := mkSession
  { sess_id : string;
    sess_shop : string }.

Record Tables : Type := mkTables
  { shops : list Shop;
    subscriptions : list Subscription;
    settings : list Setting;
    auditLogs : list AuditLog;
    sessions : list Session }.

(** One entry per call that reaches the Prisma client, in call order
    (what the client's query log shows). *)
Inductive Query : Type :=
| QShopFindUnique (domain : string)
| QShopDelete (id : string)
| QSubscriptionFindFirst (shopId : string)
| QSubscriptionFindUnique (shopifySubscriptionId : string)
| QSubscriptionCreate (shopifySubscriptionId : string)
| QSubscriptionUpdate (shopifySubscriptionId : string)
| QSubscriptionDeleteMany (shopId : string)
| QSettingUpsert (shopId key : string)
| QSettingDeleteMany (shopId : string)
| QAuditLogCreate (shopId action : string)
| QAuditLogDeleteMany (shopId : string)
| QSessionDeleteMany (shop : string).

(** The world a handler runs in: the tables, the id the store gives the
    next created row, the outcome scheduled for the coming client calls
    ([true]: the call is rejected, for instance a lost connection, and
    changes nothing; an exhausted schedule means no further rejection),
    and the query log. *)
Record World : Type := mkWorld
  { tables : Tables;
    next_id : nat;
    faults : list bool;
    queries : list Query }.

Definition with_tables (t : Tables) (w : World) : World :=
  mkWorld t (next_id w) (faults w) (queries w).

(** *** Handlers run in a state-and-exception monad over [World] *)

Definition M (A : Type) : Type := World -> Completion A * World.

Definition ret {A : Type} (a : A) : M A := fun w => (Returned a, w).
Definition throw {A : Type} (e : JsError) : M A := fun w => (Thrown e, w).
Definition bind {A B : Type} (m : M A) (k : A -> M B) : M B :=
  fun w =>
    match m w with
    | (Returned a, w') => k a w'
    | (Thrown e, w') => (Thrown e, w')
    end.
Definition try_catch {A : Type} (m : M A) (handler : JsError -> M A) : M A :=
  fun w =>
    match m w with
    | (Returned a, w') => (Returned a, w')
    | (Thrown e, w') => handler e w'
    end.
Definition lift {A : Type} (c : Completion A) : M A :=
  fun w => (c, w).
Definition get_tables : M Tables := fun w => (Returned (tables w), w).

Notation "x <- m ;; k" := (bind m (fun x => k))
  (at level 61, m at next level, right associativity).
Notation "m ;;; k" := (bind m (fun _ => k))
  (at level 61, right associativity).

(** Every call of the client is logged, then takes its scheduled outcome. *)
Definition client_call (q : Query) : M unit :=
  fun w =>
    let log := queries w ++ [q] in
    match faults w with
    | true :: fs =>
        (Thrown (PrismaError "Can't reach database server"),
         mkWorld (tables w) (next_id w) fs log)
    | false :: fs => (Returned tt, mkWorld (tables w) (next_id w) fs log)
    | [] => (Returned tt, mkWorld (tables w) (next_id w) [] log)
    end.

Definition fresh_id (prefix : string) : M string :=
  fun w =>
    (Returned (prefix ++ NilZero.string_of_uint (Nat.to_uint (next_id w)))%string,
     mkWorld (tables w) (S (next_id w)) (faults w) (queries w)).

(** *** The Prisma client: one definition per client method the
        sources call *)

Module prisma.

Definition set_shops (f : list Shop -> list Shop) (t : Tables) : Tables :=
  mkTables (f (shops t)) (subscriptions t) (settings t) (auditLogs t) (sessions t).
Definition set_subscriptions (f : list Subscription -> list Subscription) (t : Tables) : Tables :=
  mkTables (shops t) (f (subscriptions t)) (settings t) (auditLogs t) (sessions t).
Definition set_settings (f : list Setting -> list Setting) (t : Tables) : Tables :=
  mkTables (shops t) (subscriptions t) (f (settings t)) (auditLogs t) (sessions t).
Definition set_auditLogs (f : list AuditLog -> list AuditLog) (t : Tables) : Tables :=
  mkTables (shops t) (subscriptions t) (settings t) (f (auditLogs t)) (sessions t).
Definition set_sessions (f : list Session -> list Session) (t : Tables) : Tables :=
  mkTables (shops t) (subscriptions t) (settings t) (auditLogs t) (f (sessions t)).

Definition modify (f : Tables -> Tables) : M unit :=
  fun w => (Returned tt, with_tables (f (tables w)) w).

(** [shop.findUnique({ where: { shopifyDomain } })] *)
Definition shop_findUnique (domain : string) : M (option Shop) :=
  client_call (QShopFindUnique domain) ;;;
  t <- get_tables ;;
  ret (find (fun s => String.eqb (shopifyDomain s) domain) (shops t)).

(** [shop.delete({ where: { id } })]: rejects when no row has the id. *)
Definition shop_delete (id : string) : M unit :=
  client_call (QShopDelete id) ;;;
  t <- get_tables ;;
  if existsb (fun s => String.eqb (shop_id s) id) (shops t)
  then modify (set_shops (filter (fun s => negb (String.eqb (shop_id s) id))))
  else throw (PrismaError "Record to delete does not exist").

(** The row [orderBy: { createdAt: 'desc' }] puts first; among rows of
    equal [createdAt] the earlier row of the table. *)
Fixpoint latest (l : list Subscription) : option Subscription :=
  match l with
  | [] => None
  | s :: r =>
      match latest r with
      | None => Some s
      | Some t => if Z.ltb (sub_createdAt s) (sub_createdAt t) then Some t else Some s
      end
  end.

(** [subscription.findFirst({ where: { shopId, status: 'ACTIVE' },
    orderBy: { createdAt: 'desc' } })] *)
Definition subscription_findFirst_active (shopId : string) : M (option Subscription) :=
  client_call (QSubscriptionFindFirst shopId) ;;;
  t <- get_tables ;;
  ret (latest (filter (fun s => String.eqb (sub_shopId s) shopId
                                && status_eqb (sub_status s) ACTIVE)
                      (subscriptions t))).

(** [subscription.findUnique({ where: { shopifySubscriptionId } })] *)
Definition subscription_findUnique (sid : string) : M (option Subscription) :=
  client_call (QSubscriptionFindUnique sid) ;;;
  t <- get_tables ;;
  ret (find (fun s => String.eqb (shopifySubscriptionId s) sid) (subscriptions t)).

(** [subscription.create({ data })]: [shopifySubscriptionId] is a unique
    column (the sources address rows by it in [findUnique] and
    [update]), so a second row with the same value is rejected. *)
Definition subscription_create (row : Subscription) : M Subscription :=
  client_call (QSubscriptionCreate (shopifySubscriptionId row)) ;;;
  t <- get_tables ;;
  if existsb (fun s => String.eqb (shopifySubscriptionId s) (shopifySubscriptionId row))
             (subscriptions t)
  then throw (PrismaError "Unique constraint failed on shopifySubscriptionId")
  else modify (set_subscriptions (fun l => l ++ [row])) ;;; ret row.

Fixpoint update_where (sid : string) (f : Subscription -> Subscription)
    (l : list Subscription) : list Subscription :=
  match l with
  | [] => []
  | s :: r =>
      if String.eqb (shopifySubscriptionId s) sid
      then f s :: r
      else s :: update_where sid f r
  end.

(** [subscription.update({ where: { shopifySubscriptionId }, data })]:
    rejects when no row matches. *)
Definition subscription_update (sid : string) (f : Subscription -> Subscription)
    : M Subscription :=
  client_call (QSubscriptionUpdate sid) ;;;
  t <- get_tables ;;
  match find (fun s => String.eqb (shopifySubscriptionId s) sid) (subscriptions t) with
  | Some s => modify (set_subscriptions (update_where sid f)) ;;; ret (f s)
  | None => throw (PrismaError "Record to update not found")
  end.

Definition subscription_deleteMany (shopId : string) : M unit :=
  client_call (QSubscriptionDeleteMany shopId) ;;;
  modify (set_subscriptions (filter (fun s => negb (String.eqb (sub_shopId s) shopId)))).

Fixpoint upsert_setting (row : Setting) (l : list Setting) : list Setting :=
  match l with
  | [] => [row]
  | s :: r =>
      if String.eqb (set_shopId s) (set_shopId row) && String.eqb (set_key s) (set_key row)
      then row :: r
      else s :: upsert_setting row r
  end.

(** [setting.upsert({ where: { shopId_key }, update, create })] *)
Definition setting_upsert (row : Setting) : M unit :=
  client_call (QSettingUpsert (set_shopId row) (set_key row)) ;;;
  modify (set_settings (upsert_setting row)).

Definition setting_deleteMany (shopId : string) : M unit :=
  client_call (QSettingDeleteMany shopId) ;;;
  modify (set_settings (filter (fun s => negb (String.eqb (set_shopId s) shopId)))).

Definition auditLog_create (row : AuditLog) : M unit :=
  client_call (QAuditLogCreate (log_shopId row) (action row)) ;;;
  modify (set_auditLogs (fun l => l ++ [row])).

Definition auditLog_deleteMany (shopId : string) : M unit :=
  client_call (QAuditLogDeleteMany shopId) ;;;
  modify (set_auditLogs (filter (fun a => negb (String.eqb (log_shopId a) shopId)))).

Definition session_deleteMany (shop : string) : M unit :=
  client_call (QSessionDeleteMany shop) ;;;
  modify (set_sessions (filter (fun s => negb (String.eqb (sess_shop s) shop)))).

End prisma.

(** ** [src/lib/db.ts]: the members of the exported object [db] *)

(** A status as the reconciler computes it: a member of the enumeration,
    or a value that is none (see [statusMapping_get]). *)
Inductive StatusValue : Type :=
| StatusOf (s : SubscriptionStatus)
| Inherited (member : string).

Module db.

Definition findShopByDomain (domain : JVal) : M (option Shop) :=
  match domain with
  | JStr d => prisma.shop_findUnique d
  | _ => throw (PrismaError "Invalid value for argument shopifyDomain: expected String")
  end.

Definition getActiveSubscription (shopId : string) : M (option Subscription) :=
  prisma.subscription_findFirst_active shopId.

Definition createSubscription (row : Subscription) : M Subscription :=
  prisma.subscription_create row.

(** [data: { status, updatedAt: new Date() }]; the client validates
    [status] against the enumeration before it sends anything. *)
Definition updateSubscriptionStatus (now : Z) (sid : string) (status : StatusValue)
    : M Subscription :=
  match status with
  | StatusOf st =>
      prisma.subscription_update sid
        (fun s => mkSubscription (sub_id s) (sub_shopId s) (shopifySubscriptionId s)
                    (sub_name s) st (sub_price s) (sub_currency s) (sub_interval s)
                    (sub_trialEnd s) (sub_currentPeriodEnd s) (sub_test s)
                    (sub_createdAt s) now)
  | Inherited _ =>
      throw (PrismaError "Invalid value for argument status: expected SubscriptionStatus")
  end.

Definition updateShopSettings (now : Z) (shopId key : string) (value : SettingValue)
    : M unit :=
  prisma.setting_upsert (mkSetting shopId key value now).

Definition createAuditLog (row : AuditLog) : M unit :=
  prisma.auditLog_create row.

Definition deleteSessionsByShop (shop : string) : M unit :=
  prisma.session_deleteMany shop.

(** Four client calls in a row, no transaction around them. *)
Definition cleanupShopData (shopId : string) : M unit :=
  prisma.auditLog_deleteMany shopId ;;;
  prisma.setting_deleteMany shopId ;;;
  prisma.subscription_deleteMany shopId ;;;
  prisma.shop_delete shopId.

End db.

(** What a module that imports [{ db }] finds under the member name
    [prisma].  The object that [src/lib/db.ts] exports as [db] has the
    members above and no member [prisma] (the client is the separate
    export [prisma]); a test double may supply one. *)
Record DbObject : Type := mkDbObject
  { has_prisma_member : bool }.

Definition db_ts : DbObject := mkDbObject false.

(** [db.prisma.subscription]: a property read on [undefined] throws. *)
Definition db_prisma_subscription (d : DbObject) : M unit :=
  if has_prisma_member d
  then ret tt
  else throw (TypeError "Cannot read properties of undefined (reading 'subscription')").

(** ** The route handlers *)

(** What zod reports when a schema refuses a body.  Which bodies a
    schema accepts is written out below from the schema's definition;
    the issues of the [ZodError] that [parse] throws otherwise, and the
    error's message, are the library's. *)
Record ZodReports : Type := mkZodReports
  { popupSettingsSchema_issues : JVal -> list ZodIssue;
    subscribeSchema_issues : JVal -> list ZodIssue;
    ZodError_message : list ZodIssue -> string }.

(** A time as a response body carries it; [None] is the [null] of an
    empty column. *)
Definition json_of_time (t : option Z) : JVal :=
  match t with
  | Some ms => JNum ms
  | None => JNull
  end.

Section Handlers.

(** Functions of the JavaScript runtime that the handlers call:
    [JSON.parse], [new Date(v)] ([None] for an invalid date, which the
    client refuses to store) and the URL test behind zod's [.url()]. *)
Variable JSON_parse : string -> Completion JVal.
Variable Date_of : JVal -> option Z.
Variable URL_valid : string -> bool.
Variable zod : ZodReports.

(** [process.env.SHOPIFY_API_SECRET] *)
Variable SHOPIFY_API_SECRET : option string.

(** The common head of the four webhook routes: the signature header is
    read, a missing or empty one is answered with 401 before anything is
    hashed, then [verifyWebhookSignature] decides. *)
Definition verified (request : Request) (k : M Response) : M Response :=
  match nonempty (header "x-shopify-hmac-sha256" request) with
  | None => ret (json_status [("error", JStr "Missing webhook signature")] 401)
  | Some signature =>
      isValid <- lift (verifyWebhookSignature SHOPIFY_API_SECRET (req_body request) signature) ;;
      if negb isValid
      then ret (json_status [("error", JStr "Invalid webhook signature")] 401)
      else k
  end.

(** *** [app_subscriptions/update] webhook: the reconciler *)

Definition statusMapping : list (string * SubscriptionStatus) :=
  [ ("pending", PENDING); ("active", ACTIVE); ("cancelled", CANCELLED);
    ("expired", EXPIRED); ("frozen", FROZEN); ("paused", PAUSED);
    ("declined", CANCELLED) ].

(** [statusMapping] is an object literal, so its prototype is
    [Object.prototype] and a key that is no own property is looked up
    there.  These are that object's members; each holds a function or an
    object, all truthy. *)
Definition Object_prototype_members : list string :=
  [ "constructor"; "__defineGetter__"; "__defineSetter__"; "hasOwnProperty";
    "__lookupGetter__"; "__lookupSetter__"; "isPrototypeOf";
    "propertyIsEnumerable"; "toString"; "valueOf"; "__proto__"; "toLocaleString" ].

(** [statusMapping[key]]; [None] is [undefined]. *)
Definition statusMapping_get (key : string) : option StatusValue :=
  match assoc key statusMapping with
  | Some s => Some (StatusOf s)
  | None =>
      if existsb (String.eqb key) Object_prototype_members
      then Some (Inherited key)
      else None
  end.

(** [statusMapping[subscriptionData.status] || 'PENDING'] *)
Definition newStatus_of (status : JVal) : StatusValue :=
  match statusMapping_get (ToString status) with
  | Some v => v
  | None => StatusOf PENDING
  end.

Definition status_detail (v : StatusValue) : Detail :=
  match v with
  | StatusOf s => DJson (JStr (status_name s))
  | Inherited _ => DJson JUndefined
  end.

Definition is_status (v : StatusValue) (s : SubscriptionStatus) : bool :=
  match v with
  | StatusOf s' => status_eqb s' s
  | Inherited _ => false
  end.

Definition set_currentPeriodEnd (d now : Z) (s : Subscription) : Subscription :=
  mkSubscription (sub_id s) (sub_shopId s) (shopifySubscriptionId s) (sub_name s)
    (sub_status s) (sub_price s) (sub_currency s) (sub_interval s) (sub_trialEnd s)
    (Some d) (sub_test s) (sub_createdAt s) now.

(** [subscription.shop.shopifyDomain], with [shop] the row that
    [include: { shop: true }] joined. *)
Definition shop_domain_of (shop : option Shop) : M string :=
  match shop with
  | Some s => ret (shopifyDomain s)
  | None => throw (TypeError "Cannot read properties of null (reading 'shopifyDomain')")
  end.

(** [POST] of the [app_subscriptions/update] route.  The parameter [db]
    is the object the route's [import { db }] is bound to, asked only for
    its member [prisma]; the members [db.updateSubscriptionStatus] and
    [db.createAuditLog] are the ones of [src/lib/db.ts]. *)
Definition POST_app_subscriptions_update (db : DbObject) (request : Request) : M Response :=
  try_catch
    (verified request
       (subscriptionData <- lift (JSON_parse (req_body request)) ;;
        id <- lift (get_prop subscriptionData "id") ;;
        let shopifySubscriptionId := ("gid://shopify/AppSubscription/" ++ ToString id)%string in
        status <- lift (get_prop subscriptionData "status") ;;
        let newStatus := newStatus_of status in
        db_prisma_subscription db ;;;
        found <- prisma.subscription_findUnique shopifySubscriptionId ;;
        match found with
        | None => ret (json [("success", JBool true)])
        | Some subscription =>
            t <- get_tables ;;
            let shop := find (fun s => String.eqb (shop_id s) (sub_shopId subscription))
                             (shops t) in
            updatedSubscription <-
              db.updateSubscriptionStatus (req_now request) shopifySubscriptionId newStatus ;;
            billing_on <- lift (get_prop subscriptionData "billing_on") ;;
            (if truthy billing_on
             then
               db_prisma_subscription db ;;;
               match Date_of billing_on with
               | Some d =>
                   prisma.subscription_update shopifySubscriptionId
                     (set_currentPeriodEnd d (req_now request)) ;;; ret tt
               | None => throw (PrismaError "Invalid value for argument currentPeriodEnd")
               end
             else ret tt) ;;;
            wid <- lift (get_prop subscriptionData "id") ;;
            wname <- lift (get_prop subscriptionData "name") ;;
            wcreated <- lift (get_prop subscriptionData "created_at") ;;
            wupdated <- lift (get_prop subscriptionData "updated_at") ;;
            db.createAuditLog
              (mkAuditLog (sub_shopId subscription) "subscription_updated"
                 (Some "subscription") (Some (sub_id subscription))
                 [ ("shopifySubscriptionId", DJson (JStr shopifySubscriptionId));
                   ("oldStatus", DJson (JStr (status_name (sub_status subscription))));
                   ("newStatus", status_detail newStatus);
                   ("billingOn", DJson billing_on);
                   ("webhookData",
                    DJson (JObj [ ("id", wid); ("name", wname); ("status", status);
                                  ("created_at", wcreated); ("updated_at", wupdated) ])) ]
                 (userAgent_of request) (ipAddress_of request)) ;;;
            (if is_status newStatus ACTIVE && status_eqb (sub_status subscription) PENDING
             then
               db.createAuditLog
                 (mkAuditLog (sub_shopId subscription) "subscription_activated"
                    (Some "subscription") (Some (sub_id subscription))
                    [ ("shopifySubscriptionId", DJson (JStr shopifySubscriptionId));
                      ("activatedAt", DJson (JNum (req_now request)));
                      ("plan", DJson (JStr (sub_name subscription)));
                      ("price", DJson (JStr (sub_price subscription))) ]
                    None None) ;;;
               shop_domain_of shop ;;; ret tt
             else if is_status newStatus CANCELLED
             then
               db.createAuditLog
                 (mkAuditLog (sub_shopId subscription) "subscription_cancelled_by_shopify"
                    (Some "subscription") (Some (sub_id subscription))
                    [ ("shopifySubscriptionId", DJson (JStr shopifySubscriptionId));
                      ("cancelledAt", DJson (JNum (req_now request)));
                      ("reason", DJson (JStr "shopify_webhook")) ]
                    None None) ;;;
               shop_domain_of shop ;;; ret tt
             else ret tt) ;;;
            ret (json [ ("success", JBool true);
                        ("message", JStr "Subscription updated successfully");
                        ("subscription",
                         JObj [ ("id", JStr (sub_id updatedSubscription));
                                ("status", JStr (status_name (sub_status updatedSubscription)));
                                ("updatedAt", JNum (sub_updatedAt updatedSubscription)) ]) ])
        end))
    (fun _ => ret (json_status
                     [("error", JStr "Failed to process subscription update webhook")] 500)).

(** *** [app/uninstalled] webhook *)

Definition error_message (e : JsError) : string :=
  match e with
  | TypeError m | RangeError m | SyntaxError m
  | PrismaError m | ZodError m _ | ProviderError m => m
  end.

(** [POST] of [src/app/api/webhooks/app/uninstalled/route.ts] *)
Definition POST_app_uninstalled (request : Request) : M Response :=
  try_catch
    (verified request
       (webhookData <- lift (JSON_parse (req_body request)) ;;
        d1 <- lift (get_prop webhookData "myshopify_domain") ;;
        d2 <- lift (get_prop webhookData "domain") ;;
        let shopDomain := js_or d1 d2 in
        if negb (truthy shopDomain)
        then ret (json_status [("error", JStr "Missing shop domain in webhook")] 400)
        else
          found <- db.findShopByDomain shopDomain ;;
          match found with
          | None => ret (json [("success", JBool true)])
          | Some shop =>
              wid <- lift (get_prop webhookData "id") ;;
              db.createAuditLog
                (mkAuditLog (shop_id shop) "app_uninstalled" (Some "app") None
                   [ ("shopDomain", DJson shopDomain);
                     ("webhookId", DJson wid);
                     ("uninstalledAt", DJson (JNum (req_now request))) ]
                   (userAgent_of request) (ipAddress_of request)) ;;;
              try_catch
                (db.deleteSessionsByShop (ToString shopDomain) ;;;
                 db.cleanupShopData (shop_id shop))
                (fun cleanupError =>
                   try_catch
                     (db.createAuditLog
                        (mkAuditLog (shop_id shop) "cleanup_failed" (Some "app") None
                           [ ("shopDomain", DJson shopDomain);
                             ("error", DJson (JStr (error_message cleanupError))) ]
                           None None))
                     (fun _ => ret tt)) ;;;
              ret (json [ ("success", JBool true);
                          ("message", JStr "App uninstalled and data cleaned up") ])
          end))
    (fun _ => ret (json_status
                     [("error", JStr "Failed to process app uninstalled webhook")] 500)).

(** *** [api/settings]: the schema and the POST handler *)

Definition is_hex_digit (c : ascii) : bool :=
  let n := N_of_ascii c in
  ((48 <=? n) && (n <=? 57) || (65 <=? n) && (n <=? 70) || (97 <=? n) && (n <=? 102))%N.

(** [/^#[0-9A-Fa-f]{6}$/] *)
Definition is_hex_color (s : string) : bool :=
  match s with
  | String "#"%char r =>
      Nat.eqb (String.length r) 6 && forallb is_hex_digit (list_ascii_of_string r)
  | _ => false
  end.

(** [/^\//] *)
Definition starts_with_slash (s : string) : bool :=
  match s with
  | String "/"%char _ => true
  | _ => false
  end.

Definition field (body : JVal) (k : string) : JVal :=
  match body with
  | JObj fields => match own_property k fields with Some v => v | None => JUndefined end
  | _ => JUndefined
  end.

Definition z_string (ok : string -> bool) (v : JVal) : option string :=
  match v with
  | JStr s => if ok s then Some s else None
  | _ => None
  end.

Definition z_number (lo hi : Z) (v : JVal) : option Z :=
  match v with
  | JNum n => if Z.leb lo n && Z.leb n hi then Some n else None
  | _ => None
  end.

Definition z_boolean (v : JVal) : option bool :=
  match v with
  | JBool b => Some b
  | _ => None
  end.

Definition is_object (v : JVal) : bool :=
  match v with JObj _ => true | _ => false end.

(** The [ZodError] with the issues zod reports. *)
Definition ZodError_of (issues : list ZodIssue) : JsError :=
  ZodError (ZodError_message zod issues) issues.

(** [popupSettingsSchema.parse(body)]: the ten fields, each of its type
    and within its bounds; keys the schema does not name are dropped.
    [min(1)] and [max(1000)] bound the [length] of [message], which
    counts UTF-16 code units.  A number is an integer ([JNum]): a
    fractional width, padding or z-index is outside the model. *)
Definition popupSettingsSchema_parse (body : JVal) : Completion PopupSettings :=
  match
    is_object body,
    z_string (fun s => Nat.leb 1 (js_length s) && Nat.leb (js_length s) 1000)
             (field body "message"),
    z_string (fun s => URL_valid s || starts_with_slash s) (field body "linkUrl"),
    z_string (fun s => existsb (String.eqb s) ["top"; "bottom"; "left"; "right"])
             (field body "position"),
    z_number 200 800 (field body "maxWidth"),
    z_number 10 50 (field body "padding"),
    z_number 1 99999 (field body "zIndex"),
    z_boolean (field body "dismissible"),
    z_string is_hex_color (field body "bgColor"),
    z_string is_hex_color (field body "textColor"),
    z_string is_hex_color (field body "linkColor")
  with
  | true, Some m, Some u, Some p, Some w, Some pd, Some z, Some d, Some bg, Some tx, Some lk =>
      Returned (mkPopupSettings m u p w pd z d bg tx lk)
  | _, _, _, _, _, _, _, _, _, _, _ =>
      Thrown (ZodError_of (popupSettingsSchema_issues zod body))
  end.

(** [{ ...validatedSettings, bgColor: '#ffffff', textColor: '#333333',
    linkColor: '#007ace' }] *)
Definition restrict (s : PopupSettings) : PopupSettings :=
  mkPopupSettings (message s) (linkUrl s) (position s) (maxWidth s) (padding s)
    (zIndex s) (dismissible s) "#ffffff" "#333333" "#007ace".

Definition json_of_settings (s : PopupSettings) : JVal :=
  JObj [ ("message", JStr (message s)); ("linkUrl", JStr (linkUrl s));
         ("position", JStr (position s)); ("maxWidth", JNum (maxWidth s));
         ("padding", JNum (padding s)); ("zIndex", JNum (zIndex s));
         ("dismissible", JBool (dismissible s)); ("bgColor", JStr (bgColor s));
         ("textColor", JStr (textColor s)); ("linkColor", JStr (linkColor s)) ].

(** The head the admin routes share: the [shop] parameter, the offline
    session ([loadSession] is the answer of
    [shopify.config.sessionStorage.loadSession]) and the shop row. *)
Definition authenticated (loadSession : Completion (option Session))
    (request : Request) (k : string -> M Response) : M Response :=
  match nonempty (req_shop request) with
  | None => ret (json_status [("error", JStr "Missing shop parameter")] 400)
  | Some shop =>
      session <- lift loadSession ;;
      match session with
      | None => ret (json_status [("error", JStr "No active session found")] 401)
      | Some _ => k shop
      end
  end.

Definition with_shop (shop : string) (k : Shop -> M Response) : M Response :=
  shopRecord <- db.findShopByDomain (JStr shop) ;;
  match shopRecord with
  | None => ret (json_status [("error", JStr "Shop not found")] 404)
  | Some r => k r
  end.

(** [{ field: err.path.join('.'), message: err.message }] *)
Definition settings_detail (err : ZodIssue) : JVal :=
  JObj [ ("field", JStr (array_join "." (issue_path err)));
         ("message", JStr (issue_message err)) ].

Definition POST_settings (loadSession : Completion (option Session))
    (request : Request) : M Response :=
  try_catch
    (authenticated loadSession request (fun shop =>
     with_shop shop (fun shopRecord =>
       body <- lift (JSON_parse (req_body request)) ;;
       validatedSettings <- lift (popupSettingsSchema_parse body) ;;
       activeSubscription <- db.getActiveSubscription (shop_id shopRecord) ;;
       let hasActiveSubscription :=
         match activeSubscription with
         | Some s => status_eqb (sub_status s) ACTIVE
         | None => false
         end in
       if negb hasActiveSubscription
       then
         let restrictedSettings := restrict validatedSettings in
         db.updateShopSettings (req_now request) (shop_id shopRecord) "popup_settings"
           (PopupValue restrictedSettings) ;;;
         db.createAuditLog
           (mkAuditLog (shop_id shopRecord) "settings_updated" (Some "popup_settings") None
              [ ("updatedSettings", DSettings restrictedSettings);
                ("restrictedFeatures", DJson (JArr [JStr "custom_colors"]));
                ("subscriptionRequired", DJson (JBool true)) ]
              (userAgent_of request) (ipAddress_of request)) ;;;
         ret (json [ ("success", JBool true);
                     ("data", json_of_settings restrictedSettings);
                     ("warning",
                      JStr "Some advanced styling options require an active subscription");
                     ("restrictedFeatures", JArr [JStr "custom_colors"]) ])
       else
         db.updateShopSettings (req_now request) (shop_id shopRecord) "popup_settings"
           (PopupValue validatedSettings) ;;;
         db.createAuditLog
           (mkAuditLog (shop_id shopRecord) "settings_updated" (Some "popup_settings") None
              [ ("updatedSettings", DSettings validatedSettings);
                ("hasSubscription", DJson (JBool true)) ]
              (userAgent_of request) (ipAddress_of request)) ;;;
         ret (json [ ("success", JBool true);
                     ("data", json_of_settings validatedSettings);
                     ("message", JStr "Settings updated successfully") ]))))
    (fun error =>
       match error with
       | ZodError _ errors =>
           ret (json_status [ ("error", JStr "Invalid settings data");
                              ("details", JArr (map settings_detail errors)) ] 400)
       | _ => ret (json_status [("error", JStr "Failed to update settings")] 500)
       end).

(** *** [api/billing/cancel] and [api/billing/subscribe] *)

(** [userErrors.map((error) => error.message)] *)
Fixpoint messages_of (userErrors : list JVal) : Completion (list JVal) :=
  match userErrors with
  | [] => Returned []
  | e :: r =>
      match get_prop e "message" with
      | Thrown x => Thrown x
      | Returned m =>
          match messages_of r with
          | Thrown x => Thrown x
          | Returned ms => Returned (m :: ms)
          end
      end
  end.

(** What the provider answers to [appSubscriptionCancel]; [None] for
    [userErrors] is [null] or [undefined]. *)
Record CancelResult : Type := mkCancelResult
  { cancel_userErrors : option (list JVal) }.

(** [userErrors && userErrors.length > 0] *)
Definition has_userErrors (userErrors : option (list JVal)) : option (list JVal) :=
  match userErrors with
  | Some (e :: r) => Some (e :: r)
  | _ => None
  end.

Definition POST_billing_cancel (loadSession : Completion (option Session))
    (cancelAppSubscription : string -> Completion CancelResult)
    (request : Request) : M Response :=
  try_catch
    (authenticated loadSession request (fun shop =>
     with_shop shop (fun shopRecord =>
       active <- db.getActiveSubscription (shop_id shopRecord) ;;
       match active with
       | None => ret (json_status [("error", JStr "No active subscription found")] 404)
       | Some activeSubscription =>
           cancelResult <-
             lift (cancelAppSubscription (shopifySubscriptionId activeSubscription)) ;;
           match has_userErrors (cancel_userErrors cancelResult) with
           | Some userErrors =>
               ms <- lift (messages_of userErrors) ;;
               let errorMessage := array_join ", " ms in
               ret (json_status
                      [("error",
                        JStr ("Subscription cancellation failed: " ++ errorMessage)%string)]
                      400)
           | None =>
               updatedSubscription <-
                 db.updateSubscriptionStatus (req_now request)
                   (shopifySubscriptionId activeSubscription) (StatusOf CANCELLED) ;;
               db.createAuditLog
                 (mkAuditLog (shop_id shopRecord) "subscription_cancelled"
                    (Some "subscription") (Some (sub_id activeSubscription))
                    [ ("shopifySubscriptionId",
                       DJson (JStr (shopifySubscriptionId activeSubscription)));
                      ("reason", DJson (JStr "user_initiated")) ]
                    (userAgent_of request) (ipAddress_of request)) ;;;
               ret (json [ ("success", JBool true);
                           ("subscription",
                            JObj [ ("id", JStr (sub_id updatedSubscription));
                                   ("status",
                                    JStr (status_name (sub_status updatedSubscription)));
                                   ("cancelledAt",
                                    JNum (sub_updatedAt updatedSubscription)) ]) ])
           end
       end)))
    (fun _ => ret (json_status [("error", JStr "Failed to cancel subscription")] 500)).

Record Plan : Type := mkPlan
  { plan_name : string;
    plan_price : string;
    plan_currency : string;
    plan_interval : string;
    plan_trialDays : Z }.

Definition plans : list (string * Plan) :=
  [ ("basic", mkPlan "Privacy Popup Basic" "4.99" "USD" "EVERY_30_DAYS" 7);
    ("premium", mkPlan "Privacy Popup Premium" "9.99" "USD" "EVERY_30_DAYS" 7) ].

Definition plans_basic : Plan :=
  mkPlan "Privacy Popup Basic" "4.99" "USD" "EVERY_30_DAYS" 7.

(** [plans[planId] || plans.basic]; [plans] is an object literal too, so
    a [planId] that names a member of [Object.prototype] selects that
    member, which has none of [price], [currency], [interval]
    ([None] here). *)
Definition selectedPlan_of (planId : string) : option Plan :=
  match assoc planId plans with
  | Some p => Some p
  | None =>
      if existsb (String.eqb planId) Object_prototype_members
      then None
      else Some plans_basic
  end.

(** [subscribeSchema.parse(body)] *)
Definition subscribeSchema_parse (body : JVal) : Completion (string * bool) :=
  match
    is_object body,
    match field body "planId" with
    | JUndefined => Some "basic"
    | JStr s => Some s
    | _ => None
    end,
    match field body "test" with
    | JUndefined => Some false
    | JBool b => Some b
    | _ => None
    end
  with
  | true, Some planId, Some test => Returned (planId, test)
  | _, _, _ => Thrown (ZodError_of (subscribeSchema_issues zod body))
  end.

Record AppSubscription : Type := mkAppSubscription
  { as_id : string;
    as_name : string;
    as_trialDays : option Z }.

(** What the provider answers to [appSubscriptionCreate]. *)
Record CreateResult : Type := mkCreateResult
  { create_userErrors : option (list JVal);
    create_appSubscription : option AppSubscription;
    create_confirmationUrl : JVal }.

(** [trialDays ? new Date(Date.now() + trialDays * 24 * 60 * 60 * 1000) : undefined] *)
Definition trialEnd_of (now : Z) (trialDays : option Z) : option Z :=
  match trialDays with
  | Some d => if Z.eqb d 0 then None else Some (now + d * 24 * 60 * 60 * 1000)
  | None => None
  end.

Definition POST_billing_subscribe (loadSession : Completion (option Session))
    (createAppSubscription : option Plan -> bool -> Completion CreateResult)
    (request : Request) : M Response :=
  try_catch
    (authenticated loadSession request (fun shop =>
       body <- lift (JSON_parse (req_body request)) ;;
       parsed <- lift (subscribeSchema_parse body) ;;
       let planId := fst parsed in
       let test := snd parsed in
       with_shop shop (fun shopRecord =>
         active <- db.getActiveSubscription (shop_id shopRecord) ;;
         match active with
         | Some _ =>
             ret (json_status
                    [("error", JStr "Shop already has an active subscription")] 400)
         | None =>
             let selectedPlan := selectedPlan_of planId in
             subscriptionResult <- lift (createAppSubscription selectedPlan test) ;;
             match has_userErrors (create_userErrors subscriptionResult) with
             | Some userErrors =>
                 ms <- lift (messages_of userErrors) ;;
                 ret (json_status
                        [("error",
                          JStr ("Subscription creation failed: " ++ array_join ", " ms)%string)]
                        400)
             | None =>
                 match create_appSubscription subscriptionResult with
                 | None =>
                     ret (json_status [("error", JStr "Failed to create subscription")] 500)
                 | Some appSubscription =>
                     match selectedPlan with
                     | None => throw (PrismaError "Argument price is missing")
                     | Some plan =>
                         id <- fresh_id "sub_" ;;
                         subscription <-
                           db.createSubscription
                             (mkSubscription id (shop_id shopRecord) (as_id appSubscription)
                                (as_name appSubscription) PENDING (plan_price plan)
                                (plan_currency plan) (plan_interval plan)
                                (trialEnd_of (req_now request) (as_trialDays appSubscription))
                                None test (req_now request) (req_now request)) ;;
                         db.createAuditLog
                           (mkAuditLog (shop_id shopRecord) "subscription_created"
                              (Some "subscription") (Some (sub_id subscription))
                              [ ("planId", DJson (JStr planId));
                                ("price", DJson (JStr (plan_price plan)));
                                ("currency", DJson (JStr (plan_currency plan)));
                                ("trialDays", DJson (JNum (plan_trialDays plan)));
                                ("test", DJson (JBool test));
                                ("shopifySubscriptionId", DJson (JStr (as_id appSubscription))) ]
                              (userAgent_of request) (ipAddress_of request)) ;;;
                         ret (json [ ("success", JBool true);
                                     ("subscription",
                                      JObj [ ("id", JStr (sub_id subscription));
                                             ("name", JStr (sub_name subscription));
                                             ("status",
                                              JStr (status_name (sub_status subscription)));
                                             ("price", JStr (sub_price subscription));
                                             ("currency", JStr (sub_currency subscription));
                                             ("trialEnd",
                                              json_of_time (sub_trialEnd subscription)) ]);
                                     ("confirmationUrl",
                                      create_confirmationUrl subscriptionResult) ])
                     end
                 end
             end
         end)))
    (fun error =>
       match error with
       | ZodError _ errors =>
           ret (json_status [ ("error", JStr "Invalid request data");
                              ("details", JArr (map issue_json errors)) ] 400)
       | _ => ret (json_status [("error", JStr "Failed to create subscription")] 500)
       end).

End Handlers.

(** ** Vocabulary of the properties *)

(** The request carries a signature header that [verifyWebhookSignature]
    accepts for its body. *)
Definition authentic (secret : option string) (request : Request) : Prop :=
  exists signature,
    header "x-shopify-hmac-sha256" request = Some signature /\
    verifyWebhookSignature secret (req_body request) signature = Returned true.

(** [webhookData.myshopify_domain || webhookData.domain], when it is a
    non-empty string. *)
Definition shop_domain_in (webhookData : JVal) : option string :=
  match get_prop webhookData "myshopify_domain", get_prop webhookData "domain" with
  | Returned d1, Returned d2 =>
      match js_or d1 d2 with
      | JStr D => if String.eqb D EmptyString then None else Some D
      | _ => None
      end
  | _, _ => None
  end.

(** The five client calls of the purge as changes of the tables, in the
    order the uninstall handler issues them. *)
Definition purge_steps (domain shopId : string) : list (Tables -> Tables) :=
  [ prisma.set_sessions (filter (fun s => negb (String.eqb (sess_shop s) domain)));
    prisma.set_auditLogs (filter (fun a => negb (String.eqb (log_shopId a) shopId)));
    prisma.set_settings (filter (fun s => negb (String.eqb (set_shopId s) shopId)));
    prisma.set_subscriptions (filter (fun s => negb (String.eqb (sub_shopId s) shopId)));
    prisma.set_shops (filter (fun s => negb (String.eqb (shop_id s) shopId))) ].

Definition apply_steps (steps : list (Tables -> Tables)) (t : Tables) : Tables :=
  fold_left (fun t step => step t) steps t.

Definition add_log (row : AuditLog) (t : Tables) : Tables :=
  prisma.set_auditLogs (fun l => l ++ [row]) t.

(** The two audit entries of the uninstall handler. *)
Definition uninstalled_entry (request : Request) (webhookData : JVal)
    (domain shopId : string) : AuditLog :=
  mkAuditLog shopId "app_uninstalled" (Some "app") None
    [ ("shopDomain", DJson (JStr domain));
      ("webhookId",
       DJson (match get_prop webhookData "id" with Returned x => x | Thrown _ => JUndefined end));
      ("uninstalledAt", DJson (JNum (req_now request))) ]
    (userAgent_of request) (ipAddress_of request).

Definition cleanup_failed_entry (domain shopId : string) : AuditLog :=
  mkAuditLog shopId "cleanup_failed" (Some "app") None
    [ ("shopDomain", DJson (JStr domain));
      ("error", DJson (JStr "Can't reach database server")) ]
    None None.

Definition purge_queries (domain shopId : string) : list Query :=
  [ QSessionDeleteMany domain; QAuditLogDeleteMany shopId; QSettingDeleteMany shopId;
    QSubscriptionDeleteMany shopId; QShopDelete shopId ].


(** The answers the two webhook handlers end with. *)
Definition uninstalled_ok : Response :=
  json [ ("success", JBool true); ("message", JStr "App uninstalled and data cleaned up") ].

Definition failed_500 : Response :=
  json_status [("error", JStr "Failed to process subscription update webhook")] 500.

(** What the store says about statuses: the external id and the status
    of every subscription row, in table order. *)
Definition status_view (w : World) : list (string * SubscriptionStatus) :=
  map (fun s => (shopifySubscriptionId s, sub_status s)) (subscriptions (tables w)).

(** The status overwrite on that view: the first row with the id takes
    the status. *)
Fixpoint overwrite (sid : string) (st : SubscriptionStatus)
    (view : list (string * SubscriptionStatus)) : list (string * SubscriptionStatus) :=
  match view with
  | [] => []
  | (k, s) :: r => if String.eqb k sid then (k, st) :: r else (k, s) :: overwrite sid st r
  end.

(** The number of the shop's subscriptions in status ACTIVE. *)
Definition active_count (shopId : string) (w : World) : nat :=
  List.length (filter (fun s => String.eqb (sub_shopId s) shopId
                                && status_eqb (sub_status s) ACTIVE)
                      (subscriptions (tables w))).

(** The stored value of a shop's setting. *)
Definition stored_setting (shopId key : string) (w : World) : option SettingValue :=
  match find (fun s => String.eqb (set_shopId s) shopId && String.eqb (set_key s) key)
             (settings (tables w)) with
  | Some s => Some (set_value s)
  | None => None
  end.

(** The keys of the settings schema. *)
Definition settings_keys : list string :=
  [ "message"; "linkUrl"; "position"; "maxWidth"; "padding"; "zIndex"; "dismissible";
    "bgColor"; "textColor"; "linkColor" ].

(** The shop has a subscription in status ACTIVE. *)
Definition entitled (shopId : string) (w : World) : bool :=
  existsb (fun s => String.eqb (sub_shopId s) shopId && status_eqb (sub_status s) ACTIVE)
          (subscriptions (tables w)).


Section Operations.

Variable JSON_parse : string -> Completion JVal.
Variable Date_of : JVal -> option Z.
Variable zod : ZodReports.
Variable SHOPIFY_API_SECRET : option string.
Variable db : DbObject.




(** The subscription id and the mapped status that a verified delivery
    carries; [None] when the request does not get as far as the store. *)
Definition event_of (request : Request) : option (string * StatusValue) :=
  match nonempty (header "x-shopify-hmac-sha256" request) with
  | None => None
  | Some signature =>
      match verifyWebhookSignature SHOPIFY_API_SECRET (req_body request) signature with
      | Returned true =>
          match JSON_parse (req_body request) with
          | Returned v =>
              match get_prop v "id", get_prop v "status" with
              | Returned id, Returned status =>
                  if has_prisma_member db
                  then Some (("gid://shopify/AppSubscription/" ++ ToString id)%string,
                             newStatus_of status)
                  else None
              | _, _ => None
              end
          | Thrown _ => None
          end
      | _ => None
      end
  end.

(** The reconciler as a function on the status view. *)
Definition reconcile_view (request : Request)
    (view : list (string * SubscriptionStatus)) : list (string * SubscriptionStatus) :=
  match event_of request with
  | Some (sid, StatusOf st) => overwrite sid st view
  | _ => view
  end.

End Operations.

(** ** Concrete inputs

    Requests, worlds and a runtime on which the handlers are evaluated
    below.  [demo_parse] answers the JSON texts listed in [demo_texts] as
    [JSON.parse] does and rejects every other text. *)

Module Demo.

Definition dq : string := String (ascii_of_nat 34) EmptyString.
Definition quoted (s : string) : string := (dq ++ s ++ dq)%string.
Definition member (k v : string) : string := (quoted k ++ ":" ++ v)%string.

Definition secret : string := "shpss_0123456789abcdef".

Definition subscription_event (id : Z) (status : string) : string :=
  ("{" ++ member "id" (string_of_Z id) ++ "," ++ member "status" (quoted status) ++ "}")%string.

Definition subscription_event_json (id : Z) (status : string) : JVal :=
  JObj [ ("id", JNum id); ("status", JStr status) ].

Definition uninstall_event : string :=
  ("{" ++ member "id" "7" ++ ","
       ++ member "myshopify_domain" (quoted "demo.myshopify.com") ++ "}")%string.

Definition uninstall_event_json : JVal :=
  JObj [ ("id", JNum 7); ("myshopify_domain", JStr "demo.myshopify.com") ].

Definition settings_text : string :=
  ("{" ++ member "message" (quoted "We use cookies") ++ ","
       ++ member "linkUrl" (quoted "/pages/privacy-policy") ++ ","
       ++ member "position" (quoted "bottom") ++ ","
       ++ member "maxWidth" "400" ++ ","
       ++ member "padding" "20" ++ ","
       ++ member "zIndex" "9999" ++ ","
       ++ member "dismissible" "true" ++ ","
       ++ member "bgColor" (quoted "#ff0000") ++ ","
       ++ member "textColor" (quoted "#00ff00") ++ ","
       ++ member "linkColor" (quoted "#0000ff") ++ "}")%string.

Definition settings_json : JVal :=
  JObj [ ("message", JStr "We use cookies"); ("linkUrl", JStr "/pages/privacy-policy");
         ("position", JStr "bottom"); ("maxWidth", JNum 400); ("padding", JNum 20);
         ("zIndex", JNum 9999); ("dismissible", JBool true); ("bgColor", JStr "#ff0000");
         ("textColor", JStr "#00ff00"); ("linkColor", JStr "#0000ff") ].

Definition custom_settings : PopupSettings :=
  mkPopupSettings "We use cookies" "/pages/privacy-policy" "bottom" 400 20 9999 true
    "#ff0000" "#00ff00" "#0000ff".

(** The demo settings with another message. *)
Definition settings_with_message (m : string) : JVal :=
  JObj [ ("message", JStr m); ("linkUrl", JStr "/pages/privacy-policy");
         ("position", JStr "bottom"); ("maxWidth", JNum 400); ("padding", JNum 20);
         ("zIndex", JNum 9999); ("dismissible", JBool true); ("bgColor", JStr "#ff0000");
         ("textColor", JStr "#00ff00"); ("linkColor", JStr "#0000ff") ].

(** Strings beyond ASCII, by the bytes of their UTF-8 encoding: the euro
    sign U+20AC, e with an acute accent U+00E9, and U+1F36A. *)
Definition of_bytes (l : list nat) : string :=
  string_of_list_ascii (map ascii_of_nat l).

Definition euro : string := of_bytes [226; 130; 172]%nat.
Definition e_acute : string := of_bytes [195; 169]%nat.
Definition cookie : string := of_bytes [240; 159; 141; 170]%nat.

Fixpoint repeated (s : string) (n : nat) : string :=
  match n with
  | O => EmptyString
  | S k => (s ++ repeated s k)%string
  end.

Definition demo_texts : list (string * JVal) :=
  [ (subscription_event 42 "active", subscription_event_json 42 "active");
    (subscription_event 43 "active", subscription_event_json 43 "active");
    (subscription_event 42 "declined", subscription_event_json 42 "declined");
    (subscription_event 42 "unforeseen_status", subscription_event_json 42 "unforeseen_status");
    (subscription_event 42 "constructor", subscription_event_json 42 "constructor");
    (uninstall_event, uninstall_event_json);
    (settings_text, settings_json);
    ("{}", JObj []) ].

Definition demo_parse (text : string) : Completion JVal :=
  match assoc text demo_texts with
  | Some v => Returned v
  | None => Thrown (SyntaxError "Unexpected token in JSON")
  end.

(** [new Date(n)] for a number of milliseconds; the demo runtime
    reads no date strings. *)
Definition demo_date (v : JVal) : option Z :=
  match v with
  | JNum n => Some n
  | _ => None
  end.

Definition demo_url (s : string) : bool := false.

(** What zod reports for a key that the body lacks. *)
Definition required (k : string) : ZodIssue :=
  mkZodIssue [JStr k] "Required"
    (JObj [ ("code", JStr "invalid_type"); ("received", JStr "undefined");
            ("path", JArr [JStr k]); ("message", JStr "Required") ]).

(** What zod reports for a message of more than 1000 code units. *)
Definition too_long : ZodIssue :=
  mkZodIssue [JStr "message"] "String must contain at most 1000 character(s)"
    (JObj [ ("code", JStr "too_big"); ("maximum", JNum 1000); ("type", JStr "string");
            ("inclusive", JBool true); ("exact", JBool false);
            ("message", JStr "String must contain at most 1000 character(s)");
            ("path", JArr [JStr "message"]) ]).

(** What zod reports for a value of another type than the schema names. *)
Definition wrong_type (k expected received : string) : ZodIssue :=
  mkZodIssue [JStr k] ("Expected " ++ expected ++ ", received " ++ received)
    (JObj [ ("code", JStr "invalid_type"); ("expected", JStr expected);
            ("received", JStr received); ("path", JArr [JStr k]);
            ("message", JStr ("Expected " ++ expected ++ ", received " ++ received)) ]).

(** The demo runtime reports the missing keys of a settings body and a
    message that is too long, a plan that is a number and a test flag
    that is a string, and no more than that. *)
Definition demo_zod : ZodReports :=
  mkZodReports
    (fun body =>
       (match field body "message" with
        | JStr m => if Nat.ltb 1000 (js_length m) then [too_long] else []
        | _ => []
        end)
       ++ map required
              (filter (fun k => match field body k with JUndefined => true | _ => false end)
                      settings_keys))
    (fun body =>
       (match field body "planId" with
        | JNum _ => [wrong_type "planId" "string" "number"]
        | _ => []
        end)
       ++ (match field body "test" with
           | JStr _ => [wrong_type "test" "boolean" "string"]
           | _ => []
           end))
    (fun issues => join "; " (map issue_message issues)).

(** A webhook request for [body], signed with [key]. *)
Definition webhook (key body : string) (now : Z) : Request :=
  mkRequest body
    [ ("x-shopify-hmac-sha256", sign key body); ("user-agent", "Shopify-Captain-Hook") ]
    None now.

(** An admin request of the embedded app for the demo shop. *)
Definition admin (body : string) (now : Z) : Request :=
  mkRequest body [ ("user-agent", "Mozilla/5.0") ] (Some "demo.myshopify.com") now.

Definition shop : Shop := mkShop "shop_1" "demo.myshopify.com".

Definition session : Session := mkSession "offline_demo.myshopify.com" "demo.myshopify.com".

Definition subscription (status : SubscriptionStatus) : Subscription :=
  mkSubscription "sub_1" "shop_1" "gid://shopify/AppSubscription/42" "Privacy Popup Basic"
    status "4.99" "USD" "EVERY_30_DAYS" None None false 1000 1000.

Definition old_log : AuditLog :=
  mkAuditLog "shop_1" "settings_updated" (Some "popup_settings") None [] None None.

Definition old_setting : Setting :=
  mkSetting "shop_1" "popup_settings" (PopupValue custom_settings) 900.

(** The demo shop with one subscription in [status], one setting, one
    audit entry and its offline session; [schedule] is the fault
    schedule. *)
Definition world (status : SubscriptionStatus) (schedule : list bool) : World :=
  mkWorld (mkTables [shop] [subscription status] [old_setting] [old_log] [session])
          2 schedule [].

(** The demo shop freshly installed: no subscription yet. *)
Definition fresh_world : World :=
  mkWorld (mkTables [shop] [] [] [] [session]) 1 [] [].

Definition reconcile (db : DbObject) (id : Z) (status : string) (now : Z) : M Response :=
  POST_app_subscriptions_update demo_parse demo_date (Some secret) db
    (webhook secret (subscription_event id status) now).

Definition uninstall (now : Z) : M Response :=
  POST_app_uninstalled demo_parse (Some secret) (webhook secret uninstall_event now).

Definition save_settings (now : Z) : M Response :=
  POST_settings demo_parse demo_url demo_zod (Returned (Some session)) (admin settings_text now).

(** The provider grants every subscription request under the given id. *)
Definition grant (id : string) (plan : option Plan) (test : bool) : Completion CreateResult :=
  Returned (mkCreateResult (Some [])
              (Some (mkAppSubscription id "Privacy Popup Basic" (Some 7)))
              (JStr "https://demo.myshopify.com/admin/charges/confirm")).

Definition subscribe (id : string) (now : Z) : M Response :=
  POST_billing_subscribe demo_parse demo_zod (Returned (Some session)) (grant id) (admin "{}" now).

(** The provider's two answers to a cancellation. *)
Definition cancel_refused (id : string) : Completion CancelResult :=
  Returned (mkCancelResult
              (Some [ JObj [("field", JNull); ("message", JStr "Subscription already cancelled")];
                      JObj [("field", JNull); ("message", JStr "Try again later")] ])).

Definition cancel_done (id : string) : Completion CancelResult :=
  Returned (mkCancelResult (Some [])).

Definition cancel (provider : string -> Completion CancelResult) (now : Z) : M Response :=
  POST_billing_cancel (Returned (Some session)) provider (admin EmptyString now).


Definition actions (w : World) : list string :=
  map action (auditLogs (tables w)).

End Demo.

(** ** The settings reads, the theme routes and the cleanup job *)

(** A client call that [Query] has no entry for (the reads of a setting
    and the deletes of the cleanup job): it takes its scheduled outcome
    as every client call does; the query log keeps to the calls that
    [Query] lists. *)
Definition client_call_unlisted : M unit :=
  fun w =>
    match faults w with
    | true :: fs =>
        (Thrown (PrismaError "Can't reach database server"),
         mkWorld (tables w) (next_id w) fs (queries w))
    | false :: fs => (Returned tt, mkWorld (tables w) (next_id w) fs (queries w))
    | [] => (Returned tt, w)
    end.

(** [setting.findUnique({ where: { shopId_key: { shopId, key } } })] *)
Definition prisma_setting_findUnique (shopId key : string) : M (option Setting) :=
  client_call_unlisted ;;;
  t <- get_tables ;;
  ret (find (fun s => String.eqb (set_shopId s) shopId && String.eqb (set_key s) key)
            (settings t)).

(** [setting.findMany({ where: { shopId } })] *)
Definition prisma_setting_findMany (shopId : string) : M (list Setting) :=
  client_call_unlisted ;;;
  t <- get_tables ;;
  ret (filter (fun s => String.eqb (set_shopId s) shopId) (settings t)).

(** The JSON column [value] as the JavaScript value the client hands
    out. *)
Definition value_json (v : SettingValue) : JVal :=
  match v with
  | PopupValue s => json_of_settings s
  | JsonValue j => j
  end.

(** [db.getShopSettings(shopId, key?)] of [src/lib/db.ts].  [if (key)]
    sends the empty key to the branch without a key.  There the rows are
    folded into an object literal by [acc[setting.key] = setting.value];
    for the key [__proto__] that assignment reaches the accessor of
    [Object.prototype] and adds no property. *)
Definition db_getShopSettings (shopId : string) (key : option string) : M JVal :=
  match nonempty key with
  | Some k =>
      setting <- prisma_setting_findUnique shopId k ;;
      ret (match setting with
           | Some s => value_json (set_value s)
           | None => JUndefined
           end)
  | None =>
      rows <- prisma_setting_findMany shopId ;;
      ret (JObj (map (fun s => (set_key s, value_json (set_value s)))
                     (filter (fun s => negb (String.eqb (set_key s) "__proto__")) rows)))
  end.

(** The settings that [GET /api/settings] answers for a shop that has
    stored none. *)
Definition default_popup_settings : PopupSettings :=
  mkPopupSettings
    "We use cookies to enhance your browsing experience and analyze our traffic. By continuing to use our site, you consent to our use of cookies."
    "/pages/privacy-policy" "bottom" 400 20 9999 true "#ffffff" "#333333" "#007ace".

(** [GET] of [api/settings] *)
Definition GET_settings (loadSession : Completion (option Session))
    (request : Request) : M Response :=
  try_catch
    (authenticated loadSession request (fun shop =>
     with_shop shop (fun shopRecord =>
       popupSettings <- db_getShopSettings (shop_id shopRecord) (Some "popup_settings") ;;
       themeInfo <- db_getShopSettings (shop_id shopRecord) (Some "theme_info") ;;
       themeChangeNotification <-
         db_getShopSettings (shop_id shopRecord) (Some "theme_change_notification") ;;
       ret (json [ ("success", JBool true);
                   ("data",
                    JObj [ ("popupSettings",
                            js_or popupSettings (json_of_settings default_popup_settings));
                           ("themeInfo", themeInfo);
                           ("themeChangeNotification", themeChangeNotification) ]) ]))))
    (fun _ => ret (json_status [("error", JStr "Failed to get settings")] 500)).

(** The keys ["0"], ["1"], ... of an array or of a string. *)
Fixpoint indexed (i : nat) (items : list JVal) : list (string * JVal) :=
  match items with
  | [] => []
  | x :: r => (NilZero.string_of_uint (Nat.to_uint i), x) :: indexed (S i) r
  end.

(** [{ ...v }]: the own enumerable properties of [v].  In the object
    that a literal builds from them a later key takes precedence, as
    [own_property] reads it. *)
Definition spread (v : JVal) : list (string * JVal) :=
  match v with
  | JObj fields => fields
  | JArr items => indexed 0 items
  | JStr s => indexed 0 (map (fun c => JStr (String c EmptyString)) (list_ascii_of_string s))
  | _ => []
  end.

(** Whether [String(v)] throws on a parsed JSON value: an object's own
    property [toString] is no function and hides the inherited one, and
    an array converts its elements. *)
Fixpoint unprintable (v : JVal) : bool :=
  match v with
  | JObj fields => existsb (fun kv => String.eqb (fst kv) "toString") fields
  | JArr items => existsb unprintable items
  | _ => false
  end.

(** [`${v}`] *)
Definition template (v : JVal) : Completion string :=
  if unprintable v
  then Thrown (TypeError "Cannot convert object to primitive value")
  else Returned (ToString v).

(** [v.toString()]: [null] and [undefined] have no properties. *)
Definition toString_method (v : JVal) : Completion string :=
  match v with
  | JUndefined | JNull =>
      Thrown (TypeError "Cannot read properties of undefined (reading 'toString')")
  | _ =>
      if unprintable v
      then Thrown (TypeError "toString is not a function")
      else Returned (ToString v)
  end.

(** [role === 'main'] *)
Definition is_main (role : JVal) : bool :=
  match role with
  | JStr s => String.eqb s "main"
  | _ => false
  end.

(** [db.prisma.auditLog]: as [db_prisma_subscription]. *)
Definition db_prisma_auditLog (d : DbObject) : M unit :=
  if has_prisma_member d
  then ret tt
  else throw (TypeError "Cannot read properties of undefined (reading 'auditLog')").

Section ThemeAndCleanup.

Variable JSON_parse : string -> Completion JVal.
Variable SHOPIFY_API_SECRET : option string.

(** [new Date(ms).toISOString()] *)
Variable toISOString : Z -> string.

(** [process.env.CRON_SECRET] *)
Variable CRON_SECRET : option string.

(** Two columns that the sources filter on and the rows of the store
    above do not carry: [expires] of a session ([None] is [null], a
    session that does not expire) and [createdAt] of an audit entry,
    both in milliseconds. *)
Variable session_expires : Session -> option Z.
Variable log_createdAt : AuditLog -> Z.

(** [PATCH] of [api/settings]; [action] is
    [url.searchParams.get('action')]. *)
Definition PATCH_settings (loadSession : Completion (option Session))
    (action : option string) (request : Request) : M Response :=
  try_catch
    (match nonempty (req_shop request) with
     | None => ret (json_status [("error", JStr "Missing shop parameter")] 400)
     | Some shop =>
         if negb (match action with
                  | Some a => String.eqb a "acknowledge-theme-change"
                  | None => false
                  end)
         then ret (json_status [("error", JStr "Invalid action")] 400)
         else
           session <- lift loadSession ;;
           match session with
           | None => ret (json_status [("error", JStr "No active session found")] 401)
           | Some _ =>
               with_shop shop (fun shopRecord =>
                 currentNotification <-
                   db_getShopSettings (shop_id shopRecord) (Some "theme_change_notification") ;;
                 (if truthy currentNotification
                  then
                    db.updateShopSettings (req_now request) (shop_id shopRecord)
                      "theme_change_notification"
                      (JsonValue
                         (JObj (spread currentNotification
                                ++ [ ("acknowledged", JBool true);
                                     ("acknowledgedAt", JStr (toISOString (req_now request))) ])))
                  else ret tt) ;;;
                 ret (json [ ("success", JBool true);
                             ("message", JStr "Theme change notification acknowledged") ]))
           end
     end)
    (fun _ => ret (json_status [("error", JStr "Failed to update notification")] 500)).

(** [POST] of the [themes/publish] webhook route *)
Definition POST_themes_publish (request : Request) : M Response :=
  try_catch
    (verified SHOPIFY_API_SECRET request
       (themeData <- lift (JSON_parse (req_body request)) ;;
        match nonempty (header "x-shopify-shop-domain" request) with
        | None =>
            ret (json_status [("error", JStr "Missing shop domain in webhook headers")] 400)
        | Some shopDomain =>
            found <- db.findShopByDomain (JStr shopDomain) ;;
            match found with
            | None => ret (json [("success", JBool true)])
            | Some shop =>
                role <- lift (get_prop themeData "role") ;;
                (if is_main role
                 then
                   id <- lift (get_prop themeData "id") ;;
                   resourceId <- lift (toString_method id) ;;
                   name <- lift (get_prop themeData "name") ;;
                   created <- lift (get_prop themeData "created_at") ;;
                   updated <- lift (get_prop themeData "updated_at") ;;
                   db.createAuditLog
                     (mkAuditLog (shop_id shop) "theme_published" (Some "theme") (Some resourceId)
                        [ ("themeId", DJson id);
                          ("themeName", DJson name);
                          ("role", DJson role);
                          ("publishedAt", DJson (JStr (toISOString (req_now request))));
                          ("webhookData",
                           DJson (JObj [ ("id", id); ("name", name); ("role", role);
                                         ("created_at", created); ("updated_at", updated) ])) ]
                        (userAgent_of request) (ipAddress_of request)) ;;;
                   stored <- db_getShopSettings (shop_id shop) (Some "theme_info") ;;
                   let themeSettings := js_or stored (JObj []) in
                   db.updateShopSettings (req_now request) (shop_id shop) "theme_info"
                     (JsonValue
                        (JObj (spread themeSettings
                               ++ [ ("mainThemeId", id);
                                    ("mainThemeName", name);
                                    ("lastPublished", JStr (toISOString (req_now request))) ]))) ;;;
                   (* console.log(`... ${themeData.name} (ID: ${themeData.id})`) *)
                   lift (template name) ;;;
                   lift (template id) ;;;
                   try_catch
                     (db.updateShopSettings (req_now request) (shop_id shop)
                        "theme_change_notification"
                        (JsonValue
                           (JObj [ ("themeId", id);
                                   ("themeName", name);
                                   ("changedAt", JStr (toISOString (req_now request)));
                                   ("acknowledged", JBool false) ])))
                     (fun _ => ret tt)
                 else ret tt) ;;;
                ret (json [ ("success", JBool true);
                            ("message", JStr "Theme publish processed successfully") ])
            end
        end))
    (fun _ => ret (json_status
                     [("error", JStr "Failed to process theme publish webhook")] 500)).

(** [db.cleanupExpiredSessions()]: [session.deleteMany({ where: {
    expires: { lt: new Date() } } })]; the answer's [count] is the number
    of rows deleted. *)
Definition is_expired (now : Z) (s : Session) : bool :=
  match session_expires s with
  | Some e => Z.ltb e now
  | None => false
  end.

Definition db_cleanupExpiredSessions (now : Z) : M Z :=
  client_call_unlisted ;;;
  t <- get_tables ;;
  prisma.modify (prisma.set_sessions (filter (fun s => negb (is_expired now s)))) ;;;
  ret (Z.of_nat (List.length (filter (is_expired now) (sessions t)))).

(** [auditLog.deleteMany({ where: { createdAt: { lt } } })] *)
Definition prisma_auditLog_deleteMany_before (limit : Z) : M Z :=
  client_call_unlisted ;;;
  t <- get_tables ;;
  prisma.modify
    (prisma.set_auditLogs (filter (fun a => negb (Z.ltb (log_createdAt a) limit)))) ;;;
  ret (Z.of_nat (List.length (filter (fun a => Z.ltb (log_createdAt a) limit) (auditLogs t)))).

(** [setting.deleteMany({ where: { shop: null } })]: the settings whose
    [shopId] is the id of no shop row. *)
Definition is_orphaned (t : Tables) (s : Setting) : bool :=
  negb (existsb (fun r => String.eqb (shop_id r) (set_shopId s)) (shops t)).

Definition prisma_setting_deleteMany_orphaned : M Z :=
  client_call_unlisted ;;;
  t <- get_tables ;;
  prisma.modify (prisma.set_settings (filter (fun s => negb (is_orphaned t s)))) ;;;
  ret (Z.of_nat (List.length (filter (is_orphaned t) (settings t)))).

(** [`Bearer ${process.env.CRON_SECRET}`] *)
Definition bearer : string :=
  ("Bearer " ++ match CRON_SECRET with
                | Some s => s
                | None => "undefined"
                end)%string.

(** [GET] of [src/app/api/cron/cleanup/route.ts]; [db] as for the
    reconciler. *)
Definition GET_cron_cleanup (db : DbObject) (request : Request) : M Response :=
  try_catch
    (match header "authorization" request with
     | Some authHeader =>
         if String.eqb authHeader bearer
         then
           expiredSessions <- db_cleanupExpiredSessions (req_now request) ;;
           let ninetyDaysAgo := req_now request - 90 * 24 * 60 * 60 * 1000 in
           db_prisma_auditLog db ;;;
           oldAuditLogs <- prisma_auditLog_deleteMany_before ninetyDaysAgo ;;
           orphanedSettings <- prisma_setting_deleteMany_orphaned ;;
           ret (json [ ("success", JBool true);
                       ("message", JStr "Cleanup completed successfully");
                       ("results",
                        JObj [ ("expiredSessions", JNum expiredSessions);
                               ("oldAuditLogs", JNum oldAuditLogs);
                               ("orphanedSettings", JNum orphanedSettings) ]);
                       ("timestamp", JStr (toISOString (req_now request))) ])
         else ret (json_status [("error", JStr "Unauthorized")] 401)
     | None => ret (json_status [("error", JStr "Unauthorized")] 401)
     end)
    (fun error =>
       ret (json_status [ ("success", JBool false);
                          ("error", JStr (error_message error));
                          ("timestamp", JStr (toISOString (req_now request))) ] 500)).

End ThemeAndCleanup.

(** ** [src/lib/shopify.ts]: the check of the environment at module load *)

(** The four variables the module reads; [None] is [undefined]. *)
Record Env : Type := mkEnv
  { env_SHOPIFY_API_KEY : option string;
    env_SHOPIFY_API_SECRET : option string;
    env_SCOPES : option string;
    env_SHOPIFY_APP_URL : option string }.

Definition requiredEnvVars (env : Env) : list (string * option string) :=
  [ ("SHOPIFY_API_KEY", env_SHOPIFY_API_KEY env);
    ("SHOPIFY_API_SECRET", env_SHOPIFY_API_SECRET env);
    ("SCOPES", env_SCOPES env);
    ("SHOPIFY_APP_URL", env_SHOPIFY_APP_URL env) ].

(** [Object.entries(requiredEnvVars).filter(([, value]) => !value)
    .map(([key]) => key)] *)
Definition missingEnvVars (env : Env) : list string :=
  map fst (filter (fun entry => match nonempty (snd entry) with
                                | Some _ => false
                                | None => true
                                end)
                  (requiredEnvVars env)).

(** The [throw new Error(...)] that ends the load of the module when a
    variable is missing: [inl] carries the message. *)
Definition check_env (env : Env) : string + unit :=
  match missingEnvVars env with
  | [] => inr tt
  | missing =>
      inl ("Missing required environment variables: " ++ join ", " missing)%string
  end.

(** ** [GET] of [api/billing/cancel]: the billing portal *)

(** A subscription row as the response carries it. *)
Definition json_of_subscription (s : Subscription) : JVal :=
  JObj [ ("id", JStr (sub_id s)); ("shopId", JStr (sub_shopId s));
         ("shopifySubscriptionId", JStr (shopifySubscriptionId s));
         ("name", JStr (sub_name s)); ("status", JStr (status_name (sub_status s)));
         ("price", JStr (sub_price s)); ("currency", JStr (sub_currency s));
         ("interval", JStr (sub_interval s)); ("trialEnd", json_of_time (sub_trialEnd s));
         ("currentPeriodEnd", json_of_time (sub_currentPeriodEnd s));
         ("test", JBool (sub_test s)); ("createdAt", JNum (sub_createdAt s));
         ("updatedAt", JNum (sub_updatedAt s)) ].

(** The plans the portal lists, a price as its decimal text. *)
Definition availablePlans : JVal :=
  JArr [ JObj [ ("id", JStr "basic"); ("name", JStr "Privacy Popup Basic");
                ("price", JStr "4.99"); ("currency", JStr "USD");
                ("interval", JStr "monthly"); ("trialDays", JNum 7);
                ("features",
                 JArr [ JStr "Customizable privacy popup"; JStr "Multiple position options";
                        JStr "Basic styling options"; JStr "Cookie consent tracking" ]) ];
         JObj [ ("id", JStr "premium"); ("name", JStr "Privacy Popup Premium");
                ("price", JStr "9.99"); ("currency", JStr "USD");
                ("interval", JStr "monthly"); ("trialDays", JNum 7);
                ("features",
                 JArr [ JStr "All Basic features"; JStr "Advanced styling options";
                        JStr "Custom CSS support"; JStr "Analytics dashboard";
                        JStr "Priority support" ]) ] ].

(** [Math.max(0, Math.ceil((trialEnd.getTime() - Date.now()) /
    (1000 * 60 * 60 * 24)))]; the floating-point quotient has the ceiling
    of the exact one while the two times are less than 2^53 ms apart. *)
Definition daysRemaining (now trialEnd : Z) : Z :=
  Z.max 0 (- ((- (trialEnd - now)) / (1000 * 60 * 60 * 24))).

Definition trialInfo_of (now : Z) (active : option Subscription) : JVal :=
  match active with
  | Some s =>
      match sub_trialEnd s with
      | Some e => JObj [ ("trialEnd", JNum e); ("daysRemaining", JNum (daysRemaining now e)) ]
      | None => JNull
      end
  | None => JNull
  end.

(** [getAppSubscriptions] is the answer of
    [shopifyHelpers.getAppSubscriptions(session)]. *)
Definition GET_billing (loadSession : Completion (option Session))
    (getAppSubscriptions : Completion JVal) (request : Request) : M Response :=
  try_catch
    (authenticated loadSession request (fun shop =>
     with_shop shop (fun shopRecord =>
       subscriptions <- lift getAppSubscriptions ;;
       activeSubscription <- db.getActiveSubscription (shop_id shopRecord) ;;
       ret (json [ ("success", JBool true);
                   ("data",
                    JObj [ ("currentSubscription",
                            match activeSubscription with
                            | Some s => json_of_subscription s
                            | None => JNull
                            end);
                           ("shopifySubscriptions", subscriptions);
                           ("availablePlans", availablePlans);
                           ("hasActiveSubscription",
                            JBool (match activeSubscription with
                                   | Some _ => true
                                   | None => false
                                   end));
                           ("trialInfo", trialInfo_of (req_now request) activeSubscription) ]) ]))))
    (fun _ => ret (json_status [("error", JStr "Failed to load billing information")] 500)).

(** ** Further vocabulary *)

(** The answer of a handler that refuses a request: the status, the
    error text, and the world as it was. *)
Definition refused (status : Z) (error : string) (w : World) : Completion Response * World :=
  (Returned (json_status [("error", JStr error)] status), w).

(** The status of the response a handler returns. *)
Definition res_status_of (c : Completion Response) : option Z :=
  match c with
  | Returned r => Some (res_status r)
  | Thrown _ => None
  end.

(** From [w] to [w']: the shop rows and the sessions are the same, and
    the audit log has only grown at its end. *)
Definition kept_and_logged (w w' : World) : Prop :=
  shops (tables w') = shops (tables w)
  /\ sessions (tables w') = sessions (tables w)
  /\ exists more, auditLogs (tables w') = auditLogs (tables w) ++ more.

(** The row that [db.updateSubscriptionStatus(_, 'CANCELLED')] writes in
    place of [s]. *)
Definition cancelled (now : Z) (s : Subscription) : Subscription :=
  mkSubscription (sub_id s) (sub_shopId s) (shopifySubscriptionId s) (sub_name s) CANCELLED
    (sub_price s) (sub_currency s) (sub_interval s) (sub_trialEnd s) (sub_currentPeriodEnd s)
    (sub_test s) (sub_createdAt s) now.

(** The stored value of a shop's setting as [db.getShopSettings] hands
    it out. *)
Definition stored_json (shopId key : string) (w : World) : JVal :=
  match stored_setting shopId key w with
  | Some v => value_json v
  | None => JUndefined
  end.

Section ThemeVocabulary.

Variable toISOString : Z -> string.

(** What a processed [themes/publish] delivery writes: the audit entry
    and the two settings. *)
Definition theme_entry (request : Request) (v : JVal) (shopId rid : string) : AuditLog :=
  let get k := match get_prop v k with Returned x => x | Thrown _ => JUndefined end in
  mkAuditLog shopId "theme_published" (Some "theme") (Some rid)
    [ ("themeId", DJson (get "id"));
      ("themeName", DJson (get "name"));
      ("role", DJson (get "role"));
      ("publishedAt", DJson (JStr (toISOString (req_now request))));
      ("webhookData",
       DJson (JObj [ ("id", get "id"); ("name", get "name"); ("role", get "role");
                     ("created_at", get "created_at"); ("updated_at", get "updated_at") ])) ]
    (userAgent_of request) (ipAddress_of request).

Definition theme_info_after (request : Request) (id name stored : JVal) : JVal :=
  JObj (spread (js_or stored (JObj []))
        ++ [ ("mainThemeId", id); ("mainThemeName", name);
             ("lastPublished", JStr (toISOString (req_now request))) ]).

Definition notification_after (request : Request) (id name : JVal) : JVal :=
  JObj [ ("themeId", id); ("themeName", name);
         ("changedAt", JStr (toISOString (req_now request)));
         ("acknowledged", JBool false) ].

End ThemeVocabulary.

(** ** Further concrete inputs *)

Module Cases.

Definition theme_event : string :=
  ("{" ++ Demo.member "id" "77" ++ ","
       ++ Demo.member "name" (Demo.quoted "Dawn") ++ ","
       ++ Demo.member "role" (Demo.quoted "main") ++ "}")%string.

Definition theme_event_json : JVal :=
  JObj [ ("id", JNum 77); ("name", JStr "Dawn"); ("role", JStr "main") ].

Definition draft_event : string :=
  ("{" ++ Demo.member "id" "78" ++ ","
       ++ Demo.member "name" (Demo.quoted "Draft") ++ ","
       ++ Demo.member "role" (Demo.quoted "unpublished") ++ "}")%string.

Definition draft_event_json : JVal :=
  JObj [ ("id", JNum 78); ("name", JStr "Draft"); ("role", JStr "unpublished") ].

(** A theme whose id is beyond 2^53: the parsed number is the double
    nearest to the literal. *)
Definition large_theme_event : string :=
  ("{" ++ Demo.member "id" "12345678901234567890" ++ ","
       ++ Demo.member "name" (Demo.quoted "Dawn") ++ ","
       ++ Demo.member "role" (Demo.quoted "main") ++ "}")%string.

Definition large_theme_event_json : JVal :=
  JObj [ ("id", JNum (nearest_double 12345678901234567890)); ("name", JStr "Dawn");
         ("role", JStr "main") ].

Definition parse (text : string) : Completion JVal :=
  if String.eqb text theme_event then Returned theme_event_json
  else if String.eqb text draft_event then Returned draft_event_json
  else if String.eqb text large_theme_event then Returned large_theme_event_json
  else Demo.demo_parse text.

(** The demo runtime prints a time as its number of milliseconds. *)
Definition iso (ms : Z) : string := string_of_Z ms.

(** A signed [themes/publish] delivery for the demo shop. *)
Definition theme_webhook (body : string) (now : Z) : Request :=
  mkRequest body
    [ ("x-shopify-hmac-sha256", sign Demo.secret body);
      ("x-shopify-shop-domain", "demo.myshopify.com") ]
    None now.

(** A delivery without a signature header. *)
Definition unsigned (body : string) (now : Z) : Request :=
  mkRequest body [ ("user-agent", "curl/8.0") ] None now.

Definition empty_world : World := mkWorld (mkTables [] [] [] [] []) 0 [] [].

(** The provider refuses the subscription request. *)
Definition refuse (plan : option Plan) (test : bool) : Completion CreateResult :=
  Returned (mkCreateResult
              (Some [ JObj [("field", JNull); ("message", JStr "Shop is frozen")];
                      JObj [("field", JNull); ("message", JStr "Plan is not available")] ])
              None JNull).

(** An admin request without the [shop] parameter. *)
Definition no_shop (now : Z) : Request :=
  mkRequest EmptyString [ ("user-agent", "Mozilla/5.0") ] None now.

(** The request of a scheduler that was given no secret, and the two
    columns of the demo store: offline sessions do not expire, and the
    audit entries were created at time 0. *)
Definition cron_request (now : Z) : Request :=
  mkRequest EmptyString [ ("authorization", "Bearer undefined") ] None now.

Definition no_expiry (s : Session) : option Z := None.

Definition created_at (a : AuditLog) : Z := 0.

(** The demo shop with an ACTIVE subscription whose trial ends two and
    a half days after time 1000. *)
Definition trial_subscription : Subscription :=
  mkSubscription "sub_1" "shop_1" "gid://shopify/AppSubscription/42" "Privacy Popup Basic"
    ACTIVE "4.99" "USD" "EVERY_30_DAYS" (Some 216001000) None false 1000 1000.

Definition trial_world : World :=
  mkWorld (mkTables [Demo.shop] [trial_subscription] [] [] [Demo.session]) 2 [] [].

(** An environment without the key and with empty scopes. *)
Definition poor_env : Env :=
  mkEnv None (Some Demo.secret) (Some EmptyString) (Some "https://app.example").

End Cases.

(** ** A decoder for Base64, and the checks behind its correctness *)

Definition is_byte (b : Z) : Prop := 0 <= b < 256.

Definition b64index (c : ascii) : Z :=
  match String.index 0 (String c EmptyString) Crypto.alphabet with
  | Some i => Z.of_nat i
  | None => 64
  end.

Definition byte1 (s1 s2 : Z) : Z := Z.lor (Z.shiftl s1 2) (Z.shiftr s2 4).
Definition byte2 (s2 s3 : Z) : Z := Z.lor (Z.shiftl (Z.land s2 15) 4) (Z.shiftr s3 2).
Definition byte3 (s3 s4 : Z) : Z := Z.lor (Z.shiftl (Z.land s3 3) 6) s4.

Fixpoint base64_decode (s : string) : Crypto.bytes :=
  match s with
  | String c1 (String c2 (String c3 (String c4 r))) =>
      let s1 := b64index c1 in
      let s2 := b64index c2 in
      if Ascii.eqb c3 "="%char then [byte1 s1 s2]
      else
        let s3 := b64index c3 in
        if Ascii.eqb c4 "="%char then [byte1 s1 s2; byte2 s2 s3]
        else byte1 s1 s2 :: byte2 s2 s3 :: byte3 s3 (b64index c4) :: base64_decode r
  | _ => []
  end.

Definition below (k : nat) : list Z := map Z.of_nat (seq 0 k).

Definition sextet_ok (n : Z) : bool :=
  Z.eqb (b64index (Crypto.b64char n)) n && negb (Ascii.eqb (Crypto.b64char n) "="%char).

Definition in64 (n : Z) : bool := Z.leb 0 n && Z.ltb n 64.

Definition group1_ok (a : Z) : bool :=
  in64 (Z.shiftr a 2) && in64 (Z.shiftl (Z.land a 3) 4)
  && Z.eqb (byte1 (Z.shiftr a 2) (Z.shiftl (Z.land a 3) 4)) a
  && in64 (Z.shiftl (Z.land a 15) 2)
  && Z.eqb (Z.shiftr (Z.shiftl (Z.land a 15) 2) 2) (Z.land a 15)
  && Z.eqb (Z.lor (Z.shiftl (Z.shiftr a 4) 4) (Z.land a 15)) a
  && in64 (Z.land a 63).

Definition group2_ok (a b : Z) : bool :=
  let s2 := Z.lor (Z.shiftl (Z.land a 3) 4) (Z.shiftr b 4) in
  let s3 := Z.lor (Z.shiftl (Z.land a 15) 2) (Z.shiftr b 6) in
  in64 s2 && Z.eqb (byte1 (Z.shiftr a 2) s2) a && Z.eqb (Z.land s2 15) (Z.shiftr b 4)
  && in64 s3 && Z.eqb (Z.shiftr s3 2) (Z.land a 15) && Z.eqb (byte3 s3 (Z.land b 63)) b.

(** * Properties *)

(** ** The primitives agree with their published test vectors *)

Example sha256_abc :
  Crypto.hex (Crypto.sha256 (Crypto.utf8 "abc"))
  = "ba7816bf8f01cfea414140de5dae2223b00361a396177a9cb410ff61f20015ad".
Proof. vm_compute. reflexivity. Qed.

Example sha256_empty :
  Crypto.hex (Crypto.sha256 [])
  = "e3b0c44298fc1c149afbf4c8996fb92427ae41e4649b934ca495991b7852b855".
Proof. vm_compute. reflexivity. Qed.

Example sha256_two_blocks :
  Crypto.hex (Crypto.sha256 (Crypto.utf8 "abcdbcdecdefdefgefghfghighijhijkijkljklmklmnlmnomnopnopq"))
  = "248d6a61d20638b8e5c026930c3e6039a33ce45964ff2167f6ecedd419db06c1".
Proof. vm_compute. reflexivity. Qed.

Example hmac_rfc4231_case2 :
  Crypto.hex (Crypto.hmac_sha256 (Crypto.utf8 "Jefe") (Crypto.utf8 "what do ya want for nothing?"))
  = "5bdcc146bf60754e6a042426089575c75a003f089d2739839dec58b964ec3843".
Proof. vm_compute. reflexivity. Qed.

Example hmac_rfc4231_case6 :
  Crypto.hex (Crypto.hmac_sha256 (repeat 0xaa 131)
                (Crypto.utf8 "Test Using Larger Than Block-Size Key - Hash Key First"))
  = "60e431591ee0b67f0d8a26aacbf5b77f8e0bc6213728c5140546040f0ee37f54".
Proof. vm_compute. reflexivity. Qed.

Example base64_rfc4648 :
  map (fun s => Crypto.base64 (Crypto.utf8 s)) ["f"; "fo"; "foo"; "foob"; "fooba"; "foobar"]
  = ["Zg=="; "Zm8="; "Zm9v"; "Zm9vYg=="; "Zm9vYmE="; "Zm9vYmFy"].
Proof. vm_compute. reflexivity. Qed.

(** ** Numbers and strings as JavaScript prints and measures them *)

(** [String(n)] on integers of either sign, at and beyond 2^53, where
    only every second, fourth, ... integer is a double, at 10^21, where
    the exponent form begins, and at the largest double. *)
Example Number_toString_vectors :
  map Number_toString
      [ 0; 77; -42; 2 ^ 53 - 1; 2 ^ 53; 2 ^ 53 + 1; 12345678901234567890; 2 ^ 63; 2 ^ 64;
        10 ^ 21 - 1; 10 ^ 21; 10 ^ 23; 123456789012345678901234; 2 ^ 1024 - 2 ^ 970 - 1;
        2 ^ 1024 - 2 ^ 970 ]
  = [ "0"; "77"; "-42"; "9007199254740991"; "9007199254740992"; "9007199254740992";
      "12345678901234567000"; "9223372036854776000"; "18446744073709552000";
      "1e+21"; "1e+21"; "1e+23"; "1.2345678901234569e+23"; "1.7976931348623157e+308";
      "Infinity" ].
Proof. vm_compute. reflexivity. Qed.

(** Below 2^53 a number prints as the integer it is. *)
Lemma reads_back_small (x v : Z) :
  0 <= x < 2 ^ 53 -> reads_back_as x v = true -> v = x.
Proof.
  intros Hx. unfold reads_back_as, double_gap.
  destruct (Z.ltb_spec x (2 ^ 53)) as [_|?]; [|lia].
  destruct (Z.eqb x (2 ^ Z.log2 x)); destruct (Z.even (x / 1)); intros H;
    apply andb_prop in H; destruct H as [Ha Hb];
    try apply Z.leb_le in Ha; try apply Z.leb_le in Hb;
    try apply Z.ltb_lt in Ha; try apply Z.ltb_lt in Hb; lia.
Qed.

Lemma shortest_digits_small (fuel : nat) (p x : Z) :
  0 <= x < 2 ^ 53 -> shortest_digits fuel p x = x.
Proof.
  intros Hx. revert p. induction fuel as [|fuel IH]; intros p; cbn [shortest_digits];
    [reflexivity|].
  cbv zeta.
  destruct (reads_back_as x (x / p * p)) eqn:Ea;
    destruct (reads_back_as x (x / p * p + p)) eqn:Eb;
    try (apply (reads_back_small x _ Hx) in Ea);
    try (apply (reads_back_small x _ Hx) in Eb).
  - repeat match goal with |- context [if ?c then _ else _] => destruct c end; assumption.
  - exact Ea.
  - exact Eb.
  - apply IH.
Qed.

Lemma Number_toString_small (n : Z) :
  0 <= n < 2 ^ 53 -> Number_toString n = string_of_Z n.
Proof.
  intros Hn. unfold Number_toString, nearest_double, print_double.
  destruct (Z.ltb_spec n 0) as [?|_]; [lia|].
  destruct (Z.ltb_spec n (2 ^ 53)) as [_|?]; [|lia].
  assert (2 ^ 53 < 2 ^ 1024) by (apply Z.pow_lt_mono_r; lia).
  destruct (Z.leb_spec (2 ^ 1024) n) as [?|_]; [lia|].
  rewrite shortest_digits_small by exact Hn.
  assert (2 ^ 53 < 10 ^ 21) by reflexivity.
  destruct (Z.ltb_spec n (10 ^ 21)) as [_|?]; [reflexivity | lia].
Qed.

(** [s.length] counts UTF-16 code units, not bytes: one for the euro
    sign (three bytes) and for e with an acute accent (two bytes), two
    for a code point beyond U+FFFF (four bytes). *)
Example js_length_vectors :
  map js_length ["cookies"; Demo.euro; Demo.e_acute; Demo.cookie] = [7; 1; 1; 2]%nat
  /\ map String.length ["cookies"; Demo.euro; Demo.e_acute; Demo.cookie] = [7; 3; 2; 4]%nat.
Proof. split; reflexivity. Qed.

(** The schema measures the message as JavaScript does: 334 euro signs
    are 1002 bytes and pass [max(1000)], 1001 letters do not. *)
Example schema_counts_code_units :
  String.length (Demo.repeated Demo.euro 334) = 1002%nat
  /\ popupSettingsSchema_parse Demo.demo_url Demo.demo_zod
       (Demo.settings_with_message (Demo.repeated Demo.euro 334))
     = Returned (mkPopupSettings (Demo.repeated Demo.euro 334) "/pages/privacy-policy"
                   "bottom" 400 20 9999 true "#ff0000" "#00ff00" "#0000ff")
  /\ popupSettingsSchema_parse Demo.demo_url Demo.demo_zod
       (Demo.settings_with_message (Demo.repeated "a" 1001))
     = Thrown (ZodError_of Demo.demo_zod [Demo.too_long]).
Proof. repeat split; vm_compute; reflexivity. Qed.

(** ** Webhook verification *)

Lemma utf8_length (s : string) : List.length (Crypto.utf8 s) = String.length s.
Proof.
  unfold Crypto.utf8. rewrite length_map.
  induction s as [|c s IH]; simpl; [reflexivity | now rewrite IH].
Qed.

Lemma byte_of_ascii_eqb (c d : ascii) :
  Z.eqb (Z.of_N (N_of_ascii c)) (Z.of_N (N_of_ascii d)) = Ascii.eqb c d.
Proof.
  destruct (Ascii.eqb_spec c d) as [->|Hne].
  - apply Z.eqb_refl.
  - apply Z.eqb_neq. intros H. apply Hne.
    apply N2Z.inj in H.
    rewrite <- (ascii_N_embedding c), <- (ascii_N_embedding d). now rewrite H.
Qed.

Lemma bytes_eqb_utf8 (a b : string) :
  Crypto.bytes_eqb (Crypto.utf8 a) (Crypto.utf8 b) = String.eqb a b.
Proof.
  revert b. induction a as [|c a IH]; intros [|d b]; simpl; try reflexivity.
  fold (Crypto.utf8 a). fold (Crypto.utf8 b).
  rewrite byte_of_ascii_eqb, IH. reflexivity.
Qed.

Lemma sha256_length (m : Crypto.bytes) : List.length (Crypto.sha256 m) = 32%nat.
Proof. reflexivity. Qed.

Lemma hmac_sha256_length (k d : Crypto.bytes) :
  List.length (Crypto.hmac_sha256 k d) = 32%nat.
Proof. unfold Crypto.hmac_sha256. apply sha256_length. Qed.

Lemma base64_length_eq :
  forall l l' : Crypto.bytes,
    List.length l = List.length l' ->
    String.length (Crypto.base64 l) = String.length (Crypto.base64 l').
Proof.
  fix IH 1.
  intros [|a [|b [|c r]]] [|a' [|b' [|c' r']]] H; simpl in H;
    try discriminate; try reflexivity.
  simpl. do 4 f_equal. apply IH. congruence.
Qed.

Lemma sign_length (K P : string) : String.length (sign K P) = 44%nat.
Proof.
  unfold sign.
  rewrite (base64_length_eq _ (repeat 0 32)).
  - reflexivity.
  - rewrite hmac_sha256_length. reflexivity.
Qed.

(** What [verifyWebhookSignature] does on every input, with the secret
    set: a signature whose byte length is not that of the encoded MAC
    (44) makes [timingSafeEqual] throw; one of that length is compared
    with the encoded MAC. *)
Lemma verifyWebhookSignature_spec (K P signature : string) :
  verifyWebhookSignature (Some K) P signature =
  if Nat.eqb (String.length signature) 44
  then Returned (String.eqb (sign K P) signature)
  else Thrown (RangeError "Input buffers must have the same byte length").
Proof.
  unfold verifyWebhookSignature, Crypto.timingSafeEqual.
  rewrite !utf8_length, sign_length, bytes_eqb_utf8.
  rewrite (Nat.eqb_sym 44). reflexivity.
Qed.

(** *** Base64 is injective on byte strings: it has a decoder *)

Lemma below_forall (P : Z -> bool) (k : nat) :
  forallb P (below k) = true -> forall n, 0 <= n < Z.of_nat k -> P n = true.
Proof.
  intros H n Hn. rewrite forallb_forall in H. apply H.
  unfold below. apply in_map_iff. exists (Z.to_nat n). split.
  - lia.
  - apply in_seq. lia.
Qed.

Lemma below_forall2 (P : Z -> Z -> bool) (k : nat) :
  forallb (fun a => forallb (P a) (below k)) (below k) = true ->
  forall a b, 0 <= a < Z.of_nat k -> 0 <= b < Z.of_nat k -> P a b = true.
Proof.
  intros H a b Ha Hb.
  apply (below_forall (P a) k); [|exact Hb].
  apply (below_forall (fun a => forallb (P a) (below k)) k H a Ha).
Qed.

Lemma sextet_char (n : Z) : 0 <= n < 64 -> sextet_ok n = true.
Proof. apply (below_forall sextet_ok 64). vm_compute. reflexivity. Qed.

Lemma group1 (a : Z) : is_byte a -> group1_ok a = true.
Proof. apply (below_forall group1_ok 256). vm_compute. reflexivity. Qed.

Lemma group2 (a b : Z) : is_byte a -> is_byte b -> group2_ok a b = true.
Proof. apply (below_forall2 group2_ok 256). vm_compute. reflexivity. Qed.

Ltac split_checks H :=
  repeat match type of H with
         | (_ && _)%bool = true =>
             let H' := fresh "C" in
             apply andb_prop in H; destruct H as [H H']
         end;
  repeat match goal with
         | C : Z.eqb _ _ = true |- _ => apply Z.eqb_eq in C
         | C : in64 _ = true |- _ =>
             unfold in64 in C; apply andb_prop in C;
             let C1 := fresh "R" in
             let C2 := fresh "R" in
             destruct C as [C1 C2]; apply Z.leb_le in C1; apply Z.ltb_lt in C2
         | C : negb _ = true |- _ => apply negb_true_iff in C
         end.

Lemma sextet_index (n : Z) : 0 <= n < 64 -> b64index (Crypto.b64char n) = n.
Proof. intros H. pose proof (sextet_char n H) as S. unfold sextet_ok in S. split_checks S. exact S. Qed.

Lemma sextet_not_pad (n : Z) : 0 <= n < 64 -> Ascii.eqb (Crypto.b64char n) "="%char = false.
Proof. intros H. pose proof (sextet_char n H) as S. unfold sextet_ok in S. split_checks S. exact C. Qed.

Lemma base64_decode_encode :
  forall l : Crypto.bytes, Forall is_byte l -> base64_decode (Crypto.base64 l) = l.
Proof.
  fix IH 1.
  intros [|a [|b [|c r]]] Hl.
  - reflexivity.
  - inversion_clear Hl as [|? ? Ha _].
    pose proof (group1 a Ha) as G. unfold group1_ok in G. split_checks G.
    cbn [Crypto.base64 base64_decode].
    rewrite !sextet_index by lia. cbn. f_equal. assumption.
  - inversion_clear Hl as [|? ? Ha Hl']. inversion_clear Hl' as [|? ? Hb _].
    pose proof (group1 a Ha) as G0. unfold group1_ok in G0. split_checks G0.
    pose proof (group1 b Hb) as G1. unfold group1_ok in G1. split_checks G1.
    pose proof (group2 a b Ha Hb) as G2. unfold group2_ok in G2. cbv zeta in G2. split_checks G2.
    cbn [Crypto.base64 base64_decode].
    rewrite (sextet_not_pad (Z.shiftl (Z.land b 15) 2)) by lia.
    rewrite !sextet_index by lia. cbn [Ascii.eqb Bool.eqb andb].
    unfold byte2. f_equal; [assumption|]. f_equal. congruence.
  - inversion_clear Hl as [|? ? Ha Hl']. inversion_clear Hl' as [|? ? Hb Hl''].
    inversion_clear Hl'' as [|? ? Hc Hr].
    pose proof (group1 a Ha) as G0. unfold group1_ok in G0. split_checks G0.
    pose proof (group1 b Hb) as G1. unfold group1_ok in G1. split_checks G1.
    pose proof (group1 c Hc) as G1c. unfold group1_ok in G1c. split_checks G1c.
    pose proof (group2 a b Ha Hb) as G2. unfold group2_ok in G2. cbv zeta in G2. split_checks G2.
    pose proof (group2 b c Hb Hc) as G3. unfold group2_ok in G3. cbv zeta in G3. split_checks G3.
    cbn [Crypto.base64 base64_decode].
    rewrite (sextet_not_pad (Z.lor (Z.shiftl (Z.land b 15) 2) (Z.shiftr c 6))) by lia.
    rewrite (sextet_not_pad (Z.land c 63)) by lia.
    rewrite !sextet_index by lia.
    rewrite (IH r Hr).
    unfold byte2. f_equal; [assumption|]. f_equal; [congruence|]. f_equal. assumption.
Qed.

Lemma base64_inj (l l' : Crypto.bytes) :
  Forall is_byte l -> Forall is_byte l' ->
  Crypto.base64 l = Crypto.base64 l' -> l = l'.
Proof.
  intros Hl Hl' E.
  rewrite <- (base64_decode_encode l Hl), <- (base64_decode_encode l' Hl'). now rewrite E.
Qed.

Lemma land_255_byte (x : Z) : is_byte (Z.land x 255).
Proof.
  unfold is_byte. change 255 with (Z.ones 8). rewrite Z.land_ones by lia.
  apply Z.mod_pos_bound. reflexivity.
Qed.

Lemma sha256_bytes (m : Crypto.bytes) : Forall is_byte (Crypto.sha256 m).
Proof.
  unfold Crypto.sha256, Crypto.digest_of, Crypto.bytes_of_word. cbn [app].
  repeat (constructor; [apply land_255_byte|]). constructor.
Qed.

Lemma hmac_sha256_bytes (k d : Crypto.bytes) : Forall is_byte (Crypto.hmac_sha256 k d).
Proof. unfold Crypto.hmac_sha256. apply sha256_bytes. Qed.

Lemma bytes_eqb_eq (a b : Crypto.bytes) : Crypto.bytes_eqb a b = true <-> a = b.
Proof.
  revert b. induction a as [|x a IH]; intros [|y b]; simpl; split; intros H;
    try reflexivity; try discriminate.
  - apply andb_prop in H. destruct H as [H1 H2].
    apply Z.eqb_eq in H1. apply IH in H2. congruence.
  - injection H as -> ->. rewrite Z.eqb_refl. simpl. now apply IH.
Qed.

Lemma sign_eqb (K K' P : string) :
  String.eqb (sign K P) (sign K' P) =
  Crypto.bytes_eqb (Crypto.hmac_sha256 (Crypto.utf8 K) (Crypto.utf8 P))
                   (Crypto.hmac_sha256 (Crypto.utf8 K') (Crypto.utf8 P)).
Proof.
  destruct (String.eqb_spec (sign K P) (sign K' P)) as [E|N].
  - symmetry. apply bytes_eqb_eq.
    apply base64_inj; auto using hmac_sha256_bytes.
  - symmetry. apply not_true_is_false. intros H. apply N.
    apply bytes_eqb_eq in H. unfold sign. now rewrite H.
Qed.

Lemma verify_own_mac (K P : string) :
  verifyWebhookSignature (Some K) P (sign K P) = Returned true.
Proof. now rewrite verifyWebhookSignature_spec, sign_length, String.eqb_refl. Qed.

(** C1 (as amended).  With the secret [K] configured, the encoded
    HMAC-SHA256 of a payload under [K] verifies; the encoded HMAC of the
    same payload under any other key [K'] never throws and verifies
    exactly when the two MACs are the same 32 bytes, so it is rejected
    whenever the MACs differ. *)
Theorem verify_own_mac_and_foreign_mac (K K' P : string) :
  verifyWebhookSignature (Some K) P (sign K P) = Returned true /\
  verifyWebhookSignature (Some K) P (sign K' P) =
    Returned (Crypto.bytes_eqb (Crypto.hmac_sha256 (Crypto.utf8 K) (Crypto.utf8 P))
                               (Crypto.hmac_sha256 (Crypto.utf8 K') (Crypto.utf8 P))).
Proof.
  rewrite !verifyWebhookSignature_spec, !sign_length, String.eqb_refl, sign_eqb.
  split; reflexivity.
Qed.

(** C1, counterexample.  HMAC pads a short key with zero bytes to the
    block size, so the secret [k] and the different secret [k] followed
    by a zero byte give the same MAC: a signature computed under the
    second verifies under the first. *)
Lemma different_secret_same_mac :
  let K := "k" in
  let K' := String "k"%char (String "000"%char EmptyString) in
  let P := Demo.uninstall_event in
  K' <> K /\ verifyWebhookSignature (Some K) P (sign K' P) = Returned true.
Proof.
  cbv zeta. split.
  - discriminate.
  - vm_compute. reflexivity.
Qed.

(** The zero padding at work on every payload, not only the one above. *)
Lemma hmac_key_zero_padding (key data : Crypto.bytes) :
  (List.length key < 64)%nat ->
  Crypto.hmac_sha256 (key ++ [0]) data = Crypto.hmac_sha256 key data.
Proof.
  intros H. unfold Crypto.hmac_sha256, Crypto.hmac_key_block.
  cbv zeta.
  replace (key ++ [0]) with (key ++ repeat 0 1) by reflexivity.
  rewrite length_app, repeat_length.
  destruct (Nat.ltb_spec 64 (List.length key + 1)) as [?|_]; [lia|].
  destruct (Nat.ltb_spec 64 (List.length key)) as [?|_]; [lia|].
  rewrite length_app, repeat_length, <- app_assoc, <- repeat_app.
  replace (1 + (64 - (List.length key + 1)))%nat with (64 - List.length key)%nat by lia.
  reflexivity.
Qed.

(** ** Running a handler *)

Arguments verifyWebhookSignature : simpl never.
Arguments sign : simpl never.
Arguments messages_of : simpl never.
Arguments array_join : simpl never.

Ltac run_step :=
  match goal with
  | |- context [match ?x with _ => _ end] =>
      lazymatch x with
      | context [match _ with _ => _ end] => fail
      | _ => destruct x eqn:?
      end
  end.

Ltac unfold_store :=
  unfold db.findShopByDomain, db.getActiveSubscription, db.createSubscription,
    db.updateSubscriptionStatus, db.updateShopSettings, db.createAuditLog,
    db.deleteSessionsByShop, db.cleanupShopData,
    prisma.shop_findUnique, prisma.shop_delete, prisma.subscription_findFirst_active,
    prisma.subscription_findUnique, prisma.subscription_create, prisma.subscription_update,
    prisma.subscription_deleteMany, prisma.setting_upsert, prisma.setting_deleteMany,
    prisma.auditLog_create, prisma.auditLog_deleteMany, prisma.session_deleteMany,
    prisma.modify, client_call, fresh_id, get_tables, with_tables,
    try_catch, bind, ret, throw, lift.

Lemma authentic_signature (secret : option string) (request : Request) :
  authentic secret request ->
  exists signature,
    nonempty (header "x-shopify-hmac-sha256" request) = Some signature /\
    verifyWebhookSignature secret (req_body request) signature = Returned true.
Proof.
  intros (signature & Hh & Hv). exists signature. split; [|exact Hv].
  rewrite Hh. unfold nonempty.
  destruct (String.eqb_spec signature EmptyString) as [->|_]; [|reflexivity].
  destruct secret as [K|]; [|discriminate].
  rewrite verifyWebhookSignature_spec in Hv. discriminate.
Qed.

Lemma verified_authentic (secret : option string) (request : Request)
    (k : M Response) (w : World) :
  authentic secret request -> verified secret request k w = k w.
Proof.
  intros H. destruct (authentic_signature _ _ H) as (signature & Hn & Hv).
  unfold verified. rewrite Hn. unfold bind, lift. rewrite Hv. reflexivity.
Qed.

Lemma find_shop_exists (D : string) (l : list Shop) (shop : Shop) :
  find (fun s => String.eqb (shopifyDomain s) D) l = Some shop ->
  existsb (fun s => String.eqb (shop_id s) (shop_id shop)) l = true.
Proof.
  intros H. apply find_some in H. destruct H as [Hin _].
  apply existsb_exists. exists shop. split; [exact Hin | apply String.eqb_refl].
Qed.

Lemma filter_out_none {A : Type} (p : A -> bool) (l : list A) (x : A) :
  In x (filter (fun y => negb (p y)) l) -> p x = false.
Proof. intros H. apply filter_In in H. destruct H as [_ H]. now apply negb_true_iff. Qed.

Section HandlerProperties.

Variable JSON_parse : string -> Completion JVal.
Variable Date_of : JVal -> option Z.
Variable URL_valid : string -> bool.
Variable zod : ZodReports.
Variable SHOPIFY_API_SECRET : option string.

Local Abbreviation reconciler := (POST_app_subscriptions_update JSON_parse Date_of SHOPIFY_API_SECRET).
Local Abbreviation uninstall := (POST_app_uninstalled JSON_parse SHOPIFY_API_SECRET).


(** On a verified delivery whose body parses to a value with readable
    [id] and [status], that reconciler answers 500 and leaves the world
    as it found it. *)
Lemma reconciler_db_ts_answers_500 (request : Request) (w : World) (v id status : JVal) :
  authentic SHOPIFY_API_SECRET request ->
  JSON_parse (req_body request) = Returned v ->
  get_prop v "id" = Returned id ->
  get_prop v "status" = Returned status ->
  reconciler db_ts request w = (Returned failed_500, w).
Proof.
  intros Ha Hp Hid Hst.
  unfold POST_app_subscriptions_update, try_catch.
  rewrite verified_authentic by exact Ha.
  unfold bind, lift. rewrite Hp, Hid, Hst. reflexivity.
Qed.

Lemma shop_domain_in_inv (v : JVal) (D : string) :
  shop_domain_in v = Some D ->
  exists d1 d2,
    get_prop v "myshopify_domain" = Returned d1 /\
    get_prop v "domain" = Returned d2 /\
    js_or d1 d2 = JStr D /\ truthy (JStr D) = true.
Proof.
  unfold shop_domain_in. intros H.
  destruct (get_prop v "myshopify_domain") as [d1|]; [|discriminate].
  destruct (get_prop v "domain") as [d2|]; [|discriminate].
  destruct (js_or d1 d2) eqn:E; try discriminate.
  destruct (String.eqb s EmptyString) eqn:E'; [discriminate|].
  injection H as ->. exists d1, d2. repeat split; try assumption.
  simpl. now rewrite E'.
Qed.

Ltac enter_uninstall Ha Hp H1 H2 Hor Ht Hf Hid :=
  unfold POST_app_uninstalled, try_catch;
  rewrite verified_authentic by exact Ha;
  unfold_store; rewrite Hp, H1, H2; cbv zeta; rewrite Hor, Ht;
  cbn; rewrite Hf; cbn; rewrite Hid; cbn.

Lemma get_prop_total (v : JVal) (k k' : string) (x : JVal) :
  get_prop v k = Returned x -> exists y, get_prop v k' = Returned y.
Proof.
  destruct v; try discriminate; cbn; eauto.
  destruct (own_property k' fields); eauto.
Qed.

Lemma uninstall_run_ok (request : Request) (w : World) (v : JVal) (D : string) (shop : Shop) :
  authentic SHOPIFY_API_SECRET request ->
  JSON_parse (req_body request) = Returned v ->
  shop_domain_in v = Some D ->
  find (fun s => String.eqb (shopifyDomain s) D) (shops (tables w)) = Some shop ->
  faults w = [] ->
  uninstall request w
  = (Returned uninstalled_ok,
     mkWorld (apply_steps (purge_steps D (shop_id shop))
                (add_log (uninstalled_entry request v D (shop_id shop)) (tables w)))
             (next_id w) []
             (queries w ++ QShopFindUnique D :: QAuditLogCreate (shop_id shop) "app_uninstalled"
                        :: purge_queries D (shop_id shop))).
Proof.
  intros Ha Hp Hd Hf Hq.
  destruct (shop_domain_in_inv v D Hd) as (d1 & d2 & H1 & H2 & Hor & Ht).
  pose proof (find_shop_exists _ _ _ Hf) as Hex.
  destruct (get_prop_total v _ "id" _ H1) as (wid & Hid).
  destruct w as [t n f q]. cbn [tables faults queries next_id] in *. subst f.
  enter_uninstall Ha Hp H1 H2 Hor Ht Hf Hid.
  rewrite Hex. cbn. unfold uninstalled_entry. rewrite Hid.
  rewrite <- !app_assoc. reflexivity.
Qed.

Lemma uninstall_run_failed (request : Request) (w : World) (v : JVal) (D : string)
    (shop : Shop) (k : nat) (rest : list bool) :
  authentic SHOPIFY_API_SECRET request ->
  JSON_parse (req_body request) = Returned v ->
  shop_domain_in v = Some D ->
  find (fun s => String.eqb (shopifyDomain s) D) (shops (tables w)) = Some shop ->
  (k <= 4)%nat ->
  faults w = false :: false :: repeat false k ++ true :: false :: rest ->
  uninstall request w
  = (Returned uninstalled_ok,
     mkWorld (add_log (cleanup_failed_entry D (shop_id shop))
                (apply_steps (firstn k (purge_steps D (shop_id shop)))
                   (add_log (uninstalled_entry request v D (shop_id shop)) (tables w))))
             (next_id w) rest
             (queries w ++ QShopFindUnique D :: QAuditLogCreate (shop_id shop) "app_uninstalled"
                        :: firstn (S k) (purge_queries D (shop_id shop))
                        ++ [QAuditLogCreate (shop_id shop) "cleanup_failed"])).
Proof.
  intros Ha Hp Hd Hf Hk Hq.
  destruct (shop_domain_in_inv v D Hd) as (d1 & d2 & H1 & H2 & Hor & Ht).
  pose proof (find_shop_exists _ _ _ Hf) as Hex.
  destruct (get_prop_total v _ "id" _ H1) as (wid & Hid).
  destruct w as [t n f q]. cbn [tables faults queries next_id] in *. subst f.
  do 5 (destruct k as [|k]; [
    enter_uninstall Ha Hp H1 H2 Hor Ht Hf Hid;
    unfold uninstalled_entry; rewrite Hid; rewrite <- !app_assoc; reflexivity |]).
  lia.
Qed.


Lemma uninstall_run_failed_unlogged (request : Request) (w : World) (v : JVal) (D : string)
    (shop : Shop) (k : nat) (rest : list bool) :
  authentic SHOPIFY_API_SECRET request ->
  JSON_parse (req_body request) = Returned v ->
  shop_domain_in v = Some D ->
  find (fun s => String.eqb (shopifyDomain s) D) (shops (tables w)) = Some shop ->
  (k <= 4)%nat ->
  faults w = false :: false :: repeat false k ++ true :: true :: rest ->
  uninstall request w
  = (Returned uninstalled_ok,
     mkWorld (apply_steps (firstn k (purge_steps D (shop_id shop)))
                (add_log (uninstalled_entry request v D (shop_id shop)) (tables w)))
             (next_id w) rest
             (queries w ++ QShopFindUnique D :: QAuditLogCreate (shop_id shop) "app_uninstalled"
                        :: firstn (S k) (purge_queries D (shop_id shop))
                        ++ [QAuditLogCreate (shop_id shop) "cleanup_failed"])).
Proof.
  intros Ha Hp Hd Hf Hk Hq.
  destruct (shop_domain_in_inv v D Hd) as (d1 & d2 & H1 & H2 & Hor & Ht).
  destruct (get_prop_total v _ "id" _ H1) as (wid & Hid).
  destruct w as [t n f q]. cbn [tables faults queries next_id] in *. subst f.
  do 5 (destruct k as [|k]; [
    enter_uninstall Ha Hp H1 H2 Hor Ht Hf Hid;
    unfold uninstalled_entry; rewrite Hid; rewrite <- !app_assoc; reflexivity |]).
  lia.
Qed.

(** C3 (as amended).  For a verified uninstall delivery whose shop is
    found: when every store call succeeds the handler answers success,
    no Subscription, Setting or AuditLog row of the shop remains, and the
    query log shows the [app_uninstalled] entry written before the five
    purge calls; when the purge call number [k] is rejected the handler
    still answers success, the [k] deletes before it stay in effect
    while the later tables keep their rows, and a [cleanup_failed] entry
    is appended provided that write succeeds (otherwise nothing is
    appended). *)
Theorem uninstall_logs_then_purges (request : Request) (w : World)
    (v : JVal) (D : string) (shop : Shop) :
  authentic SHOPIFY_API_SECRET request ->
  JSON_parse (req_body request) = Returned v ->
  shop_domain_in v = Some D ->
  find (fun s => String.eqb (shopifyDomain s) D) (shops (tables w)) = Some shop ->
  (faults w = [] ->
     fst (uninstall request w) = Returned uninstalled_ok
     /\ (forall x, In x (subscriptions (tables (snd (uninstall request w)))) ->
                   sub_shopId x <> shop_id shop)
     /\ (forall x, In x (settings (tables (snd (uninstall request w)))) ->
                   set_shopId x <> shop_id shop)
     /\ (forall x, In x (auditLogs (tables (snd (uninstall request w)))) ->
                   log_shopId x <> shop_id shop)
     /\ queries (snd (uninstall request w))
        = queries w ++ QShopFindUnique D :: QAuditLogCreate (shop_id shop) "app_uninstalled"
                    :: purge_queries D (shop_id shop))
  /\
  (forall (k : nat) (rest : list bool),
     (k <= 4)%nat ->
     faults w = false :: false :: repeat false k ++ true :: false :: rest ->
     fst (uninstall request w) = Returned uninstalled_ok
     /\ tables (snd (uninstall request w))
        = add_log (cleanup_failed_entry D (shop_id shop))
            (apply_steps (firstn k (purge_steps D (shop_id shop)))
               (add_log (uninstalled_entry request v D (shop_id shop)) (tables w))))
  /\
  (forall (k : nat) (rest : list bool),
     (k <= 4)%nat ->
     faults w = false :: false :: repeat false k ++ true :: true :: rest ->
     fst (uninstall request w) = Returned uninstalled_ok
     /\ tables (snd (uninstall request w))
        = apply_steps (firstn k (purge_steps D (shop_id shop)))
            (add_log (uninstalled_entry request v D (shop_id shop)) (tables w))).
Proof.
  intros Ha Hp Hd Hf. split; [|split].
  - intros Hq. rewrite (uninstall_run_ok request w v D shop Ha Hp Hd Hf Hq).
    cbn [fst snd tables queries].
    split; [reflexivity|].
    split; [|split; [|split; [|reflexivity]]]; intros x Hx E;
      cbn in Hx; apply filter_out_none in Hx; rewrite E, String.eqb_refl in Hx;
      discriminate.
  - intros k rest Hk Hq.
    rewrite (uninstall_run_failed request w v D shop k rest Ha Hp Hd Hf Hk Hq).
    split; reflexivity.
  - intros k rest Hk Hq.
    rewrite (uninstall_run_failed_unlogged request w v D shop k rest Ha Hp Hd Hf Hk Hq).
    split; reflexivity.
Qed.

(** C2, the code at the failing input.  A signature whose length is not
    that of the encoded MAC makes [verifyWebhookSignature] throw where
    the claim has it return false, and the handler then answers 500 from
    its catch-all instead of the 401 of a rejected signature. *)
Theorem signature_of_other_length_throws (K P : string) (now : Z) (w : World) :
  verifyWebhookSignature (Some K) P "forged"
    = Thrown (RangeError "Input buffers must have the same byte length")
  /\ fst (POST_app_uninstalled JSON_parse (Some K)
            (mkRequest P [("x-shopify-hmac-sha256", "forged")] None now) w)
     = Returned (json_status
                   [("error", JStr "Failed to process app uninstalled webhook")] 500).
Proof.
  assert (verifyWebhookSignature (Some K) P "forged"
          = Thrown (RangeError "Input buffers must have the same byte length")) as E.
  { rewrite verifyWebhookSignature_spec. reflexivity. }
  split; [exact E|].
  unfold POST_app_uninstalled, try_catch, verified, bind, lift, ret.
  cbn [header req_headers assoc String.eqb Ascii.eqb Bool.eqb nonempty req_body].
  rewrite E. reflexivity.
Qed.

(** *** The reconciler on the status view *)

Lemma overwrite_absent (sid : string) (st : SubscriptionStatus) (l : list Subscription) :
  find (fun s => String.eqb (shopifySubscriptionId s) sid) l = None ->
  overwrite sid st (map (fun s => (shopifySubscriptionId s, sub_status s)) l)
  = map (fun s => (shopifySubscriptionId s, sub_status s)) l.
Proof.
  induction l as [|s l IH]; cbn; [reflexivity|].
  destruct (String.eqb (shopifySubscriptionId s) sid); [discriminate|].
  intros H. now rewrite IH.
Qed.

Lemma view_update_where (sid : string) (f : Subscription -> Subscription)
    (st : SubscriptionStatus) (l : list Subscription) :
  (forall s, shopifySubscriptionId (f s) = shopifySubscriptionId s /\ sub_status (f s) = st) ->
  map (fun s => (shopifySubscriptionId s, sub_status s)) (prisma.update_where sid f l)
  = overwrite sid st (map (fun s => (shopifySubscriptionId s, sub_status s)) l).
Proof.
  intros Hf. induction l as [|s l IH]; cbn; [reflexivity|].
  destruct (String.eqb (shopifySubscriptionId s) sid); cbn.
  - destruct (Hf s) as [-> ->]. reflexivity.
  - now rewrite IH.
Qed.

Lemma view_update_where_same (sid : string) (f : Subscription -> Subscription)
    (l : list Subscription) :
  (forall s, shopifySubscriptionId (f s) = shopifySubscriptionId s
             /\ sub_status (f s) = sub_status s) ->
  map (fun s => (shopifySubscriptionId s, sub_status s)) (prisma.update_where sid f l)
  = map (fun s => (shopifySubscriptionId s, sub_status s)) l.
Proof.
  intros Hf. induction l as [|s l IH]; cbn; [reflexivity|].
  destruct (String.eqb (shopifySubscriptionId s) sid); cbn.
  - destruct (Hf s) as [-> ->]. reflexivity.
  - now rewrite IH.
Qed.

Lemma overwrite_idempotent (sid : string) (st : SubscriptionStatus)
    (view : list (string * SubscriptionStatus)) :
  overwrite sid st (overwrite sid st view) = overwrite sid st view.
Proof.
  induction view as [|[k s] view IH]; cbn; [reflexivity|].
  destruct (String.eqb k sid) eqn:E; cbn; rewrite E; [reflexivity | now rewrite IH].
Qed.

Lemma reconciler_on_view (d : DbObject) (request : Request) (w : World) :
  faults w = [] ->
  status_view (snd (reconciler d request w))
  = reconcile_view JSON_parse SHOPIFY_API_SECRET d request (status_view w)
  /\ faults (snd (reconciler d request w)) = [].
Proof.
  destruct w as [t n f q]. cbn [faults]. intros ->.
  unfold reconcile_view, event_of, POST_app_subscriptions_update, verified,
    db_prisma_subscription, shop_domain_of, status_view.
  unfold_store.
  destruct (nonempty (header "x-shopify-hmac-sha256" request)) as [signature|];
    [|cbn; split; reflexivity].
  destruct (verifyWebhookSignature SHOPIFY_API_SECRET (req_body request) signature)
    as [[|]|]; try (cbn; split; reflexivity).
  destruct (JSON_parse (req_body request)) as [v|]; [|cbn; split; reflexivity].
  destruct (get_prop v "id") as [id|]; [|cbn; split; reflexivity].
  destruct (get_prop v "status") as [status|]; [|cbn; split; reflexivity].
  destruct (has_prisma_member d); [|cbn; split; reflexivity].
  remember ("gid://shopify/AppSubscription/" ++ ToString id)%string as sid eqn:Hsid.
  clear Hsid. cbn.
  destruct (find _ (subscriptions t)) as [subscription|] eqn:Hfind.
  2:{ cbn. split; [|reflexivity].
      destruct (newStatus_of status); [|reflexivity].
      symmetry. now apply overwrite_absent. }
  destruct (newStatus_of status) as [st|member]; [|cbn; split; reflexivity].
  cbn. rewrite Hfind. cbn.
  assert (Hview : forall f : Subscription -> Subscription,
             (forall s, shopifySubscriptionId (f s) = shopifySubscriptionId s
                        /\ sub_status (f s) = sub_status s) ->
             forall u : Subscription -> Subscription,
             (forall s, shopifySubscriptionId (u s) = shopifySubscriptionId s
                        /\ sub_status (u s) = st) ->
             map (fun s => (shopifySubscriptionId s, sub_status s))
                 (prisma.update_where sid f (prisma.update_where sid u (subscriptions t)))
             = overwrite sid st
                 (map (fun s => (shopifySubscriptionId s, sub_status s)) (subscriptions t))).
  { intros f Hf u Hu. rewrite view_update_where_same by exact Hf.
    now apply view_update_where. }
  repeat (run_step; cbn);
    (split; [|reflexivity]);
    first [ apply view_update_where; intros; split; reflexivity
          | apply Hview; intros; split; reflexivity ].
Qed.


Lemma event_of_same_delivery (d : DbObject) (r1 r2 : Request) :
  req_body r1 = req_body r2 -> req_headers r1 = req_headers r2 ->
  event_of JSON_parse SHOPIFY_API_SECRET d r1 = event_of JSON_parse SHOPIFY_API_SECRET d r2.
Proof. intros Hb Hh. unfold event_of, header. now rewrite Hb, Hh. Qed.

(** C5.  Whatever object stands behind [db], delivering the same event
    (same body, same headers) a second time leaves every subscription's
    status as the first delivery left it. *)
Theorem reconciler_status_idempotent (d : DbObject) (r1 r2 : Request) (w : World) :
  req_body r1 = req_body r2 -> req_headers r1 = req_headers r2 -> faults w = [] ->
  status_view (snd (reconciler d r2 (snd (reconciler d r1 w))))
  = status_view (snd (reconciler d r1 w)).
Proof.
  intros Hb Hh Hw.
  destruct (reconciler_on_view d r1 w Hw) as [E1 F1].
  destruct (reconciler_on_view d r2 _ F1) as [E2 _].
  rewrite E2, E1. unfold reconcile_view.
  rewrite <- (event_of_same_delivery d r1 r2 Hb Hh).
  destruct (event_of JSON_parse SHOPIFY_API_SECRET d r1) as [[sid [st|m]]|]; try reflexivity.
  apply overwrite_idempotent.
Qed.

(** *** Reading and writing rows *)

Lemma latest_in (l : list Subscription) (x : Subscription) :
  prisma.latest l = Some x -> In x l.
Proof.
  revert x. induction l as [|s l IH]; cbn; [discriminate|].
  intros x. destruct (prisma.latest l) as [t|].
  - destruct (Z.ltb (sub_createdAt s) (sub_createdAt t)); intros [= <-]; auto.
  - intros [= <-]. auto.
Qed.

Lemma latest_none (l : list Subscription) : prisma.latest l = None -> l = [].
Proof.
  destruct l as [|s l]; cbn; [reflexivity|].
  destruct (prisma.latest l) as [t|]; [|discriminate].
  destruct (Z.ltb (sub_createdAt s) (sub_createdAt t)); discriminate.
Qed.

Lemma existsb_filter_nil {A : Type} (p : A -> bool) (l : list A) :
  existsb p l = false <-> filter p l = [].
Proof.
  induction l as [|a l IH]; cbn; [tauto|].
  destruct (p a); cbn; [split; discriminate | exact IH].
Qed.

Lemma find_present {A : Type} (p : A -> bool) (l : list A) (x : A) :
  In x l -> p x = true -> exists y, find p l = Some y.
Proof.
  intros Hin Hp. destruct (find p l) as [y|] eqn:E; [eauto|].
  pose proof (find_none _ _ E x Hin) as H. congruence.
Qed.

Lemma find_update_where (sid : string) (f : Subscription -> Subscription)
    (l : list Subscription) (y : Subscription) :
  (forall s, shopifySubscriptionId (f s) = shopifySubscriptionId s) ->
  find (fun s => String.eqb (shopifySubscriptionId s) sid) l = Some y ->
  find (fun s => String.eqb (shopifySubscriptionId s) sid) (prisma.update_where sid f l)
  = Some (f y).
Proof.
  intros Hf. induction l as [|s l IH]; cbn; [discriminate|].
  destruct (String.eqb (shopifySubscriptionId s) sid) eqn:E; cbn.
  - intros [= <-]. now rewrite Hf, E.
  - rewrite E. exact IH.
Qed.

Lemma find_upsert_setting (row : Setting) (l : list Setting) :
  find (fun s => String.eqb (set_shopId s) (set_shopId row)
                 && String.eqb (set_key s) (set_key row))
       (prisma.upsert_setting row l) = Some row.
Proof.
  induction l as [|s l IH]; cbn.
  - now rewrite !String.eqb_refl.
  - destruct (String.eqb (set_shopId s) (set_shopId row)
              && String.eqb (set_key s) (set_key row)) eqn:E; cbn.
    + now rewrite !String.eqb_refl.
    + now rewrite E.
Qed.


Local Abbreviation save := (POST_settings JSON_parse URL_valid zod).

Lemma entitled_latest (shopId : string) (w : World) :
  entitled shopId w = true ->
  exists x,
    prisma.latest (filter (fun s => String.eqb (sub_shopId s) shopId
                                    && status_eqb (sub_status s) ACTIVE)
                          (subscriptions (tables w))) = Some x
    /\ sub_status x = ACTIVE.
Proof.
  unfold entitled. intros H.
  destruct (prisma.latest _) as [x|] eqn:E.
  - exists x. split; [reflexivity|].
    apply latest_in, filter_In in E. destruct E as [_ E].
    apply andb_prop in E. destruct E as [_ E]. now destruct (sub_status x).
  - apply latest_none, existsb_filter_nil in E. congruence.
Qed.

Lemma not_entitled_latest (shopId : string) (w : World) :
  entitled shopId w = false ->
  prisma.latest (filter (fun s => String.eqb (sub_shopId s) shopId
                                  && status_eqb (sub_status s) ACTIVE)
                        (subscriptions (tables w))) = None.
Proof.
  unfold entitled. intros H. apply existsb_filter_nil in H. now rewrite H.
Qed.

Lemma z_string_inv (ok : string -> bool) (v : JVal) (x : string) :
  z_string ok v = Some x -> v = JStr x.
Proof.
  destruct v; cbn; try discriminate. destruct (ok s); [|discriminate]. now intros [= ->].
Qed.

Lemma z_number_inv (lo hi : Z) (v : JVal) (x : Z) :
  z_number lo hi v = Some x -> v = JNum x.
Proof.
  destruct v; cbn; try discriminate.
  destruct (Z.leb lo n && Z.leb n hi); [|discriminate]. now intros [= ->].
Qed.

Lemma z_boolean_inv (v : JVal) (x : bool) : z_boolean v = Some x -> v = JBool x.
Proof. destruct v; cbn; try discriminate. now intros [= ->]. Qed.

(** What the schema returns is what the payload holds under the ten
    keys. *)
Lemma schema_returns_fields (body : JVal) (s : PopupSettings) :
  popupSettingsSchema_parse URL_valid zod body = Returned s ->
  map (field body) settings_keys = map (field (json_of_settings s)) settings_keys.
Proof.
  unfold popupSettingsSchema_parse.
  destruct (is_object body); [|discriminate].
  destruct (z_string _ (field body "message")) as [m|] eqn:E1; [|discriminate].
  destruct (z_string _ (field body "linkUrl")) as [u|] eqn:E2; [|discriminate].
  destruct (z_string _ (field body "position")) as [p|] eqn:E3; [|discriminate].
  destruct (z_number _ _ (field body "maxWidth")) as [mw|] eqn:E4; [|discriminate].
  destruct (z_number _ _ (field body "padding")) as [pd|] eqn:E5; [|discriminate].
  destruct (z_number _ _ (field body "zIndex")) as [z|] eqn:E6; [|discriminate].
  destruct (z_boolean (field body "dismissible")) as [d|] eqn:E7; [|discriminate].
  destruct (z_string _ (field body "bgColor")) as [bg|] eqn:E8; [|discriminate].
  destruct (z_string _ (field body "textColor")) as [tx|] eqn:E9; [|discriminate].
  destruct (z_string _ (field body "linkColor")) as [lk|] eqn:E10; [|discriminate].
  intros [= <-].
  apply z_string_inv in E1, E2, E3, E8, E9, E10.
  apply z_number_inv in E4, E5, E6. apply z_boolean_inv in E7.
  cbn [map settings_keys]. rewrite E1, E2, E3, E4, E5, E6, E7, E8, E9, E10.
  reflexivity.
Qed.

(** C8.  For a schema-valid payload [s] on an authenticated request of
    a known shop: with a subscription of the shop in status ACTIVE the
    handler stores [s] itself and answers with it; otherwise (no
    subscription, or none in status ACTIVE) it stores [s] with the three
    colours replaced by the defaults and every other field as sent,
    answers success and lists [custom_colors] as restricted.  [s] holds
    the payload's own values under the ten keys of the schema. *)
Theorem settings_gate (loadSession : Completion (option Session)) (request : Request)
    (w : World) (shop : string) (session : Session) (shopRecord : Shop)
    (body : JVal) (s : PopupSettings) :
  nonempty (req_shop request) = Some shop ->
  loadSession = Returned (Some session) ->
  find (fun r => String.eqb (shopifyDomain r) shop) (shops (tables w)) = Some shopRecord ->
  JSON_parse (req_body request) = Returned body ->
  popupSettingsSchema_parse URL_valid zod body = Returned s ->
  faults w = [] ->
  map (field body) settings_keys = map (field (json_of_settings s)) settings_keys
  /\
  (entitled (shop_id shopRecord) w = true ->
     fst (save loadSession request w)
       = Returned (json [ ("success", JBool true);
                          ("data", json_of_settings s);
                          ("message", JStr "Settings updated successfully") ])
     /\ stored_setting (shop_id shopRecord) "popup_settings" (snd (save loadSession request w))
        = Some (PopupValue s))
  /\
  (entitled (shop_id shopRecord) w = false ->
     fst (save loadSession request w)
       = Returned (json [ ("success", JBool true);
                          ("data", json_of_settings (restrict s));
                          ("warning",
                           JStr "Some advanced styling options require an active subscription");
                          ("restrictedFeatures", JArr [JStr "custom_colors"]) ])
     /\ stored_setting (shop_id shopRecord) "popup_settings" (snd (save loadSession request w))
        = Some (PopupValue
                  (mkPopupSettings (message s) (linkUrl s) (position s) (maxWidth s)
                     (padding s) (zIndex s) (dismissible s)
                     "#ffffff" "#333333" "#007ace"))).
Proof.
  intros Hshop Hsess Hfind Hparse Hschema Hq.
  split; [now apply schema_returns_fields|].
  destruct w as [t n f q]. cbn [tables faults] in *. subst f loadSession.
  split; intros He.
  - destruct (entitled_latest _ _ He) as (x & Hl & Hx). cbn [tables] in Hl.
    unfold POST_settings, authenticated, with_shop, stored_setting. rewrite Hshop.
    unfold_store. cbn. rewrite Hfind. cbn. rewrite Hparse. cbn. rewrite Hschema. cbn.
    rewrite Hl. cbn. rewrite Hx. cbn.
    split; [reflexivity|].
    rewrite (find_upsert_setting
               (mkSetting (shop_id shopRecord) "popup_settings" (PopupValue s) (req_now request))).
    reflexivity.
  - pose proof (not_entitled_latest _ _ He) as Hl. cbn [tables] in Hl.
    unfold POST_settings, authenticated, with_shop, stored_setting. rewrite Hshop.
    unfold_store. cbn. rewrite Hfind. cbn. rewrite Hparse. cbn. rewrite Hschema. cbn.
    rewrite Hl. cbn.
    split; [reflexivity|].
    rewrite (find_upsert_setting
               (mkSetting (shop_id shopRecord) "popup_settings" (PopupValue (restrict s))
                          (req_now request))).
    reflexivity.
Qed.


Local Abbreviation cancel := (POST_billing_cancel).

(** The messages of [userErrors] whose [message] is a string, and their
    [join]: the texts in order, [sep] between two of them. *)
Lemma messages_of_texts (userErrors : list JVal) (texts : list string) :
  Forall2 (fun err text => get_prop err "message" = Returned (JStr text)) userErrors texts ->
  messages_of userErrors = Returned (map JStr texts).
Proof.
  induction 1 as [|err text userErrors texts Hm _ IH]; [reflexivity|].
  change (messages_of (err :: userErrors))
    with (match get_prop err "message" with
          | Thrown x => Thrown x
          | Returned m =>
              match messages_of userErrors with
              | Thrown x => Thrown x
              | Returned ms => Returned (m :: ms)
              end
          end).
  rewrite Hm, IH. reflexivity.
Qed.

Lemma array_join_texts (sep : string) (texts : list string) :
  array_join sep (map JStr texts) = String.concat sep texts.
Proof.
  unfold array_join. rewrite map_map. cbn [ToString].
  induction texts as [|x [|y r] IH]; [reflexivity | reflexivity |].
  cbn [map join String.concat] in *. now rewrite IH.
Qed.

(** C7.  On a cancel request that reaches the provider (shop
    parameter, session, shop row and an ACTIVE subscription present):
    when the provider answers with [userErrors] no table changes and the
    answer is a 400 whose error is the provider's messages joined by a
    comma and a space (for messages that are strings: the first, then
    [", "] and the next, and so on); when the provider call throws
    nothing changes either; when the provider reports no error the
    subscription's status becomes CANCELLED and one
    [subscription_cancelled] entry with reason [user_initiated] is
    appended. *)
Theorem cancel_only_on_provider_success
    (loadSession : Completion (option Session))
    (cancelAppSubscription : string -> Completion CancelResult)
    (request : Request) (w : World) (shop : string) (session : Session)
    (shopRecord : Shop) (active : Subscription) :
  nonempty (req_shop request) = Some shop ->
  loadSession = Returned (Some session) ->
  find (fun r => String.eqb (shopifyDomain r) shop) (shops (tables w)) = Some shopRecord ->
  prisma.latest (filter (fun s => String.eqb (sub_shopId s) (shop_id shopRecord)
                                  && status_eqb (sub_status s) ACTIVE)
                        (subscriptions (tables w))) = Some active ->
  faults w = [] ->
  (forall (e : JVal) (errors : list JVal),
     cancelAppSubscription (shopifySubscriptionId active)
       = Returned (mkCancelResult (Some (e :: errors))) ->
     tables (snd (cancel loadSession cancelAppSubscription request w)) = tables w
     /\ (forall ms : list JVal,
          messages_of (e :: errors) = Returned ms ->
          fst (cancel loadSession cancelAppSubscription request w)
          = Returned (json_status
                        [("error",
                          JStr ("Subscription cancellation failed: "
                                ++ array_join ", " ms)%string)]
                        400))
     /\ (forall texts : list string,
          Forall2 (fun err text => get_prop err "message" = Returned (JStr text))
                  (e :: errors) texts ->
          fst (cancel loadSession cancelAppSubscription request w)
          = Returned (json_status
                        [("error",
                          JStr ("Subscription cancellation failed: "
                                ++ String.concat ", " texts)%string)]
                        400)))
  /\
  (forall (e : JsError),
     cancelAppSubscription (shopifySubscriptionId active) = Thrown e ->
     fst (cancel loadSession cancelAppSubscription request w)
       = Returned (json_status [("error", JStr "Failed to cancel subscription")] 500)
     /\ tables (snd (cancel loadSession cancelAppSubscription request w)) = tables w)
  /\
  (forall (result : CancelResult),
     cancelAppSubscription (shopifySubscriptionId active) = Returned result ->
     has_userErrors (cancel_userErrors result) = None ->
     exists (response : Response) (updated : Subscription) (entry : AuditLog),
       fst (cancel loadSession cancelAppSubscription request w) = Returned response
       /\ res_status response = 200
       /\ status_view (snd (cancel loadSession cancelAppSubscription request w))
          = overwrite (shopifySubscriptionId active) CANCELLED (status_view w)
       /\ find (fun s => String.eqb (shopifySubscriptionId s) (shopifySubscriptionId active))
               (subscriptions (tables (snd (cancel loadSession cancelAppSubscription request w))))
          = Some updated
       /\ sub_status updated = CANCELLED
       /\ auditLogs (tables (snd (cancel loadSession cancelAppSubscription request w)))
          = auditLogs (tables w) ++ [entry]
       /\ action entry = "subscription_cancelled"
       /\ log_shopId entry = shop_id shopRecord
       /\ assoc "reason" (details entry) = Some (DJson (JStr "user_initiated"))).
Proof.
  intros Hshop Hsess Hfind Hactive Hq.
  destruct w as [t n f q]. cbn [tables faults] in *. subst f loadSession.
  assert (exists y, find (fun s => String.eqb (shopifySubscriptionId s)
                                     (shopifySubscriptionId active))
                         (subscriptions t) = Some y) as (y & Hy).
  { apply find_present with (x := active).
    - apply latest_in in Hactive. apply filter_In in Hactive. exact (proj1 Hactive).
    - apply String.eqb_refl. }
  split; [|split].
  - intros e errors Hres.
    unfold POST_billing_cancel, authenticated, with_shop. rewrite Hshop.
    unfold_store. cbn. rewrite Hfind. cbn. rewrite Hactive. cbn. rewrite Hres. cbn.
    split; [|split].
    + destruct (messages_of (e :: errors)); reflexivity.
    + intros ms Hms. rewrite Hms. reflexivity.
    + intros texts Htexts. rewrite (messages_of_texts _ _ Htexts).
      rewrite array_join_texts. reflexivity.
  - intros e Hres.
    unfold POST_billing_cancel, authenticated, with_shop. rewrite Hshop.
    unfold_store. cbn. rewrite Hfind. cbn. rewrite Hactive. cbn. rewrite Hres.
    split; reflexivity.
  - intros result Hres Hnone.
    unfold POST_billing_cancel, authenticated, with_shop, status_view. rewrite Hshop.
    unfold_store. cbn. rewrite Hfind. cbn. rewrite Hactive. cbn. rewrite Hres. cbn.
    rewrite Hnone. cbn. rewrite Hy. cbn.
    do 3 eexists. split; [reflexivity|]. split; [reflexivity|].
    split; [apply view_update_where; intros; split; reflexivity|].
    split; [apply find_update_where; [reflexivity | exact Hy]|].
    repeat split; reflexivity.
Qed.

(** *** Subscriptions are created PENDING; a delivery rewrites one row *)










End HandlerProperties.

(** ** The code on concrete deliveries *)

(** The status mapping on the strings that are no own key and no member
    of [Object.prototype]: the fallback. *)
Lemma newStatus_of_unlisted (key : string) :
  assoc key (statusMapping) = None ->
  existsb (String.eqb key) Object_prototype_members = false ->
  newStatus_of (JStr key) = StatusOf PENDING.
Proof.
  intros Hown Hproto. unfold newStatus_of, statusMapping_get. cbn [ToString].
  now rewrite Hown, Hproto.
Qed.

(** C4, the code at the failing inputs.  The table sends [declined] to
    CANCELLED and [unforeseen_status] to PENDING, but the string
    [constructor], which is outside the table, is answered by the
    table's prototype with a value that is no status; and a verified
    [declined] delivery for a PENDING subscription ends in the 500 of the
    catch-all with the store untouched, so no cancellation entry is
    written. *)
Theorem declined_event_and_inherited_key :
  newStatus_of (JStr "declined") = StatusOf CANCELLED
  /\ newStatus_of (JStr "unforeseen_status") = StatusOf PENDING
  /\ newStatus_of (JStr "constructor") = Inherited "constructor"
  /\ Demo.reconcile db_ts 42 "declined" 5000 (Demo.world PENDING [])
     = (Returned failed_500, Demo.world PENDING []).
Proof. repeat split; vm_compute; reflexivity. Qed.

(** With a [db] object that does have the member [prisma], the same
    delivery cancels the subscription and writes the provider-driven
    cancellation entry after the generic one. *)
Lemma declined_with_prisma_member :
  status_view (snd (Demo.reconcile (mkDbObject true) 42 "declined" 5000 (Demo.world PENDING [])))
  = [("gid://shopify/AppSubscription/42", CANCELLED)]
  /\ Demo.actions (snd (Demo.reconcile (mkDbObject true) 42 "declined" 5000
                          (Demo.world PENDING [])))
     = ["settings_updated"; "subscription_updated"; "subscription_cancelled_by_shopify"].
Proof. split; vm_compute; reflexivity. Qed.

(** C6, the code at the failing input.  A verified delivery that maps to
    ACTIVE for a PENDING subscription is answered with 500 and leaves the
    store as it was: no audit entry is written and the status stays
    PENDING. *)
Theorem activation_event_writes_no_entry :
  Demo.reconcile db_ts 42 "active" 5000 (Demo.world PENDING [])
  = (Returned failed_500, Demo.world PENDING []).
Proof. vm_compute. reflexivity. Qed.

(** With a [db] object that has the member [prisma], the same delivery
    activates the subscription and appends exactly the two entries, the
    generic one first. *)
Lemma activation_with_prisma_member :
  status_view (snd (Demo.reconcile (mkDbObject true) 42 "active" 5000 (Demo.world PENDING [])))
  = [("gid://shopify/AppSubscription/42", ACTIVE)]
  /\ Demo.actions (snd (Demo.reconcile (mkDbObject true) 42 "active" 5000
                          (Demo.world PENDING [])))
     = ["settings_updated"; "subscription_updated"; "subscription_activated"].
Proof. split; vm_compute; reflexivity. Qed.

(** C10, the code at the failing input.  A verified delivery with an
    unrecognized status for an ACTIVE subscription is answered with 500
    and changes nothing: the status stays ACTIVE and the shop's next
    settings write still stores its custom colours. *)
Theorem unrecognized_status_keeps_active :
  Demo.reconcile db_ts 42 "unforeseen_status" 5000 (Demo.world ACTIVE [])
  = (Returned failed_500, Demo.world ACTIVE [])
  /\ stored_setting "shop_1" "popup_settings"
       (snd (Demo.save_settings 6000
               (snd (Demo.reconcile db_ts 42 "unforeseen_status" 5000 (Demo.world ACTIVE [])))))
     = Some (PopupValue Demo.custom_settings).
Proof. split; vm_compute; reflexivity. Qed.

(** With a [db] object that has the member [prisma], the overwrite takes
    place without a look at the stored status, and the next settings
    write is restricted. *)
Lemma unrecognized_status_with_prisma_member :
  status_view (snd (Demo.reconcile (mkDbObject true) 42 "unforeseen_status" 5000
                      (Demo.world ACTIVE [])))
  = [("gid://shopify/AppSubscription/42", PENDING)]
  /\ stored_setting "shop_1" "popup_settings"
       (snd (Demo.save_settings 6000
               (snd (Demo.reconcile (mkDbObject true) 42 "unforeseen_status" 5000
                       (Demo.world ACTIVE [])))))
     = Some (PopupValue (restrict Demo.custom_settings)).
Proof. split; vm_compute; reflexivity. Qed.

(** C3, counterexample.  The last purge call ([shop.delete]) is
    rejected: the handler answers success and logs [cleanup_failed], the
    shop row is still there, but the rows that were there before are
    not: the earlier audit entry (and [app_uninstalled] itself), the
    subscription and the setting have been deleted by the calls before
    the failing one. *)
Lemma purge_failure_loses_earlier_rows :
  fst (Demo.uninstall 5000 (Demo.world ACTIVE [false; false; false; false; false; false; true]))
  = Returned uninstalled_ok
  /\ tables (snd (Demo.uninstall 5000
                    (Demo.world ACTIVE [false; false; false; false; false; false; true])))
     = mkTables [Demo.shop] [] [] [cleanup_failed_entry "demo.myshopify.com" "shop_1"] []
  /\ ~ In Demo.old_log
          (auditLogs (tables (snd (Demo.uninstall 5000
             (Demo.world ACTIVE [false; false; false; false; false; false; true]))))).
Proof.
  vm_compute. repeat split; try reflexivity.
  intros [H|[]]. discriminate.
Qed.



(** ** The theorems at concrete inputs *)

Lemma demo_authentic (body : string) (now : Z) :
  authentic (Some Demo.secret) (Demo.webhook Demo.secret body now).
Proof.
  exists (sign Demo.secret body). split; [reflexivity|].
  apply verify_own_mac.
Defined.

(** C3 at a concrete input: the demo shop is uninstalled with every
    store call succeeding. *)
Lemma uninstall_logs_then_purges_witness :
  authentic (Some Demo.secret) (Demo.webhook Demo.secret Demo.uninstall_event 5000)
  /\ Demo.demo_parse (req_body (Demo.webhook Demo.secret Demo.uninstall_event 5000))
     = Returned Demo.uninstall_event_json
  /\ shop_domain_in Demo.uninstall_event_json = Some "demo.myshopify.com"
  /\ find (fun s => String.eqb (shopifyDomain s) "demo.myshopify.com")
          (shops (tables (Demo.world ACTIVE []))) = Some Demo.shop
  /\ fst (Demo.uninstall 5000 (Demo.world ACTIVE [])) = Returned uninstalled_ok.
Proof.
  assert (Demo.demo_parse (req_body (Demo.webhook Demo.secret Demo.uninstall_event 5000))
          = Returned Demo.uninstall_event_json) as Hp by (vm_compute; reflexivity).
  assert (shop_domain_in Demo.uninstall_event_json = Some "demo.myshopify.com") as Hd
    by reflexivity.
  assert (find (fun s => String.eqb (shopifyDomain s) "demo.myshopify.com")
               (shops (tables (Demo.world ACTIVE []))) = Some Demo.shop) as Hf
    by reflexivity.
  split; [apply demo_authentic|].
  split; [exact Hp|]. split; [exact Hd|]. split; [exact Hf|].
  exact (proj1 (proj1 (uninstall_logs_then_purges Demo.demo_parse (Some Demo.secret)
                         (Demo.webhook Demo.secret Demo.uninstall_event 5000)
                         (Demo.world ACTIVE []) Demo.uninstall_event_json
                         "demo.myshopify.com" Demo.shop
                         (demo_authentic _ _) Hp Hd Hf) eq_refl)).
Defined.

(** C5 at a concrete input: the activation event delivered twice to a
    reconciler whose [db] object has the member [prisma]. *)
Lemma reconciler_status_idempotent_witness :
  req_body (Demo.webhook Demo.secret (Demo.subscription_event 42 "active") 3000)
  = req_body (Demo.webhook Demo.secret (Demo.subscription_event 42 "active") 4000)
  /\ req_headers (Demo.webhook Demo.secret (Demo.subscription_event 42 "active") 3000)
     = req_headers (Demo.webhook Demo.secret (Demo.subscription_event 42 "active") 4000)
  /\ faults (Demo.world PENDING []) = []
  /\ status_view
       (snd (Demo.reconcile (mkDbObject true) 42 "active" 4000
               (snd (Demo.reconcile (mkDbObject true) 42 "active" 3000 (Demo.world PENDING [])))))
     = status_view
         (snd (Demo.reconcile (mkDbObject true) 42 "active" 3000 (Demo.world PENDING []))).
Proof.
  split; [reflexivity|]. split; [reflexivity|]. split; [reflexivity|].
  apply (reconciler_status_idempotent Demo.demo_parse Demo.demo_date (Some Demo.secret));
    reflexivity.
Defined.

(** C7 at a concrete input: the provider refuses the cancellation with
    two [userErrors]; the answer carries the two messages with a comma
    and a space between them. *)
Lemma cancel_only_on_provider_success_witness :
  nonempty (req_shop (Demo.admin EmptyString 7000)) = Some "demo.myshopify.com"
  /\ find (fun r => String.eqb (shopifyDomain r) "demo.myshopify.com")
          (shops (tables (Demo.world ACTIVE []))) = Some Demo.shop
  /\ prisma.latest (filter (fun s => String.eqb (sub_shopId s) (shop_id Demo.shop)
                                     && status_eqb (sub_status s) ACTIVE)
                           (subscriptions (tables (Demo.world ACTIVE []))))
     = Some (Demo.subscription ACTIVE)
  /\ faults (Demo.world ACTIVE []) = []
  /\ tables (snd (Demo.cancel Demo.cancel_refused 7000 (Demo.world ACTIVE [])))
     = tables (Demo.world ACTIVE [])
  /\ fst (Demo.cancel Demo.cancel_refused 7000 (Demo.world ACTIVE []))
     = Returned
         (json_status
            [("error",
              JStr "Subscription cancellation failed: Subscription already cancelled, Try again later")]
            400).
Proof.
  split; [reflexivity|]. split; [reflexivity|]. split; [reflexivity|].
  split; [reflexivity|].
  pose proof (proj1 (cancel_only_on_provider_success
                       (Returned (Some Demo.session)) Demo.cancel_refused
                       (Demo.admin EmptyString 7000) (Demo.world ACTIVE [])
                       "demo.myshopify.com" Demo.session Demo.shop (Demo.subscription ACTIVE)
                       eq_refl eq_refl eq_refl eq_refl eq_refl)
                    _ _ eq_refl) as H.
  assert (Forall2 (fun err text => get_prop err "message" = Returned (JStr text))
                  [ JObj [("field", JNull); ("message", JStr "Subscription already cancelled")];
                    JObj [("field", JNull); ("message", JStr "Try again later")] ]
                  ["Subscription already cancelled"; "Try again later"]) as Hm
    by (repeat constructor).
  split; [exact (proj1 H) | exact (proj2 (proj2 H) _ Hm)].
Defined.

(** C8 at a concrete input: custom colours sent by the demo shop while
    its subscription is still PENDING. *)
Lemma settings_gate_witness :
  nonempty (req_shop (Demo.admin Demo.settings_text 6000)) = Some "demo.myshopify.com"
  /\ find (fun r => String.eqb (shopifyDomain r) "demo.myshopify.com")
          (shops (tables (Demo.world PENDING []))) = Some Demo.shop
  /\ Demo.demo_parse (req_body (Demo.admin Demo.settings_text 6000)) = Returned Demo.settings_json
  /\ popupSettingsSchema_parse Demo.demo_url Demo.demo_zod Demo.settings_json = Returned Demo.custom_settings
  /\ faults (Demo.world PENDING []) = []
  /\ stored_setting "shop_1" "popup_settings"
       (snd (Demo.save_settings 6000 (Demo.world PENDING [])))
     = Some (PopupValue (mkPopupSettings "We use cookies" "/pages/privacy-policy" "bottom"
                           400 20 9999 true "#ffffff" "#333333" "#007ace")).
Proof.
  assert (Demo.demo_parse (req_body (Demo.admin Demo.settings_text 6000))
          = Returned Demo.settings_json) as Hp by (vm_compute; reflexivity).
  assert (popupSettingsSchema_parse Demo.demo_url Demo.demo_zod Demo.settings_json
          = Returned Demo.custom_settings) as Hs by (vm_compute; reflexivity).
  split; [reflexivity|]. split; [reflexivity|]. split; [exact Hp|].
  split; [exact Hs|]. split; [reflexivity|].
  exact (proj2 (proj2 (proj2 (settings_gate Demo.demo_parse Demo.demo_url Demo.demo_zod
                         (Returned (Some Demo.session)) (Demo.admin Demo.settings_text 6000)
                         (Demo.world PENDING []) "demo.myshopify.com" Demo.session Demo.shop
                         Demo.settings_json Demo.custom_settings
                         eq_refl eq_refl eq_refl Hp Hs eq_refl))
                      eq_refl)).
Defined.

(** * More of the code

    Properties of the handlers and helpers beyond the claims: what the
    webhook routes do with deliveries they do not accept, what the admin
    routes leave untouched, how reads follow writes, and how the routes
    behave when the store rejects a call. *)

Ltac run_all :=
  repeat (run_step; cbn [fst snd tables shops subscriptions settings auditLogs sessions
                         prisma.set_shops prisma.set_subscriptions prisma.set_settings
                         prisma.set_auditLogs prisma.set_sessions
                         next_id faults queries]).

(** ** Lists, rows and settings *)

Lemma nonempty_some (o : option string) (s : string) :
  nonempty o = Some s -> o = Some s.
Proof.
  destruct o as [x|]; cbn; [|discriminate].
  destruct (String.eqb x EmptyString); [discriminate|]. intros [= ->]. reflexivity.
Qed.

Lemma filter_filter_same {A : Type} (p : A -> bool) (l : list A) :
  filter p (filter p l) = filter p l.
Proof.
  induction l as [|a l IH]; cbn; [reflexivity|].
  destruct (p a) eqn:E; cbn; [rewrite E; now f_equal | exact IH].
Qed.

Lemma filter_app_out {A : Type} (p : A -> bool) (l : list A) (x : A) :
  p x = false -> filter p (l ++ [x]) = filter p l.
Proof. intros H. rewrite filter_app. cbn. rewrite H. apply app_nil_r. Qed.

Lemma existsb_app_one {A : Type} (p : A -> bool) (l : list A) (x : A) :
  existsb p (l ++ [x]) = existsb p l || p x.
Proof. rewrite existsb_app. cbn. now rewrite orb_false_r. Qed.

(** [shopifyDomain] is a unique column: once the row found under a
    domain is deleted by its id, the domain finds nothing. *)
Lemma find_after_delete (D : string) (l : list Shop) (shop : Shop) :
  NoDup (map shopifyDomain l) ->
  find (fun s => String.eqb (shopifyDomain s) D) l = Some shop ->
  find (fun s => String.eqb (shopifyDomain s) D)
       (filter (fun s => negb (String.eqb (shop_id s) (shop_id shop))) l) = None.
Proof.
  induction l as [|s l IH]; cbn; [discriminate|].
  intros Hnd Hf. inversion Hnd as [|? ? Hnotin Hnd']; subst.
  destruct (String.eqb_spec (shopifyDomain s) D) as [E|N].
  - injection Hf as ->. rewrite String.eqb_refl. cbn.
    destruct (find _ (filter _ l)) as [y|] eqn:Ey; [|reflexivity].
    apply find_some in Ey. destruct Ey as [Hin Hy].
    apply filter_In in Hin. destruct Hin as [Hin _].
    apply String.eqb_eq in Hy. exfalso. apply Hnotin.
    rewrite E, <- Hy. now apply in_map.
  - destruct (negb (String.eqb (shop_id s) (shop_id shop))); cbn.
    + destruct (String.eqb_spec (shopifyDomain s) D); [contradiction|]. now apply IH.
    + now apply IH.
Qed.

Lemma update_where_ids (sid : string) (f : Subscription -> Subscription)
    (l : list Subscription) :
  (forall s, sub_id (f s) = sub_id s) ->
  map sub_id (prisma.update_where sid f l) = map sub_id l.
Proof.
  intros Hf. induction l as [|s l IH]; cbn; [reflexivity|].
  destruct (String.eqb (shopifySubscriptionId s) sid); cbn; [now rewrite Hf | now rewrite IH].
Qed.

(** When the shop's only ACTIVE subscription is cancelled, none is
    left. *)
Lemma update_where_last_active (shopId sid : string) (now : Z) (l : list Subscription)
    (active : Subscription) :
  NoDup (map shopifySubscriptionId l) ->
  filter (fun s => String.eqb (sub_shopId s) shopId && status_eqb (sub_status s) ACTIVE) l
    = [active] ->
  sid = shopifySubscriptionId active ->
  existsb (fun s => String.eqb (sub_shopId s) shopId && status_eqb (sub_status s) ACTIVE)
          (prisma.update_where sid (cancelled now) l) = false.
Proof.
  intros Hnd Hf ->. induction l as [|s l IH]; [discriminate|].
  inversion Hnd as [|? ? Hnotin Hnd']; subst.
  assert (In active (s :: l)) as Hin.
  { assert (In active (filter (fun s => String.eqb (sub_shopId s) shopId
                                        && status_eqb (sub_status s) ACTIVE) (s :: l))) as H
      by (rewrite Hf; now left).
    apply filter_In in H. exact (proj1 H). }
  cbn [prisma.update_where].
  destruct (String.eqb_spec (shopifySubscriptionId s) (shopifySubscriptionId active)) as [E|N].
  - assert (s = active) as ->.
    { destruct Hin as [H|H]; [exact H|]. exfalso. apply Hnotin. rewrite E. now apply in_map. }
    cbn in Hf.
    assert (String.eqb (sub_shopId active) shopId && status_eqb (sub_status active) ACTIVE = true)
      as Hp.
    { assert (In active (filter (fun s => String.eqb (sub_shopId s) shopId
                                          && status_eqb (sub_status s) ACTIVE) (active :: l))) as H
        by (cbn; rewrite Hf; now left).
      apply filter_In in H. exact (proj2 H). }
    rewrite Hp in Hf. injection Hf as Hf.
    cbn. rewrite andb_false_r. cbn. now apply existsb_filter_nil.
  - cbn in Hf. cbn.
    destruct (String.eqb (sub_shopId s) shopId && status_eqb (sub_status s) ACTIVE) eqn:Hp.
    + injection Hf as -> _. now elim N.
    + cbn. apply IH; [exact Hnd' | exact Hf].
Qed.

Lemma latest_singleton (l : list Subscription) (x : Subscription) :
  prisma.latest l = Some x -> List.length l = 1%nat -> l = [x].
Proof.
  destruct l as [|s [|s' l]]; cbn; try discriminate.
  now intros [= ->] _.
Qed.

Lemma find_upsert_setting_other (row : Setting) (l : list Setting) (shopId key : string) :
  String.eqb (set_shopId row) shopId && String.eqb (set_key row) key = false ->
  find (fun s => String.eqb (set_shopId s) shopId && String.eqb (set_key s) key)
       (prisma.upsert_setting row l)
  = find (fun s => String.eqb (set_shopId s) shopId && String.eqb (set_key s) key) l.
Proof.
  intros Hrow. induction l as [|s l IH]; cbn.
  - now rewrite Hrow.
  - destruct (String.eqb (set_shopId s) (set_shopId row)
              && String.eqb (set_key s) (set_key row)) eqn:E; cbn.
    + apply andb_prop in E. destruct E as [E1 E2].
      apply String.eqb_eq in E1, E2. rewrite E1, E2, Hrow. reflexivity.
    + now rewrite IH.
Qed.

Lemma stored_json_upsert (shopId key : string) (value : SettingValue) (now : Z)
    (t : Tables) (n : nat) (f : list bool) (q : list Query) :
  stored_json shopId key
    (mkWorld (prisma.set_settings (prisma.upsert_setting (mkSetting shopId key value now)) t)
             n f q)
  = value_json value.
Proof.
  unfold stored_json, stored_setting. cbn [tables settings prisma.set_settings].
  now rewrite (find_upsert_setting (mkSetting shopId key value now)).
Qed.

Lemma stored_json_upsert_other (shopId key key' : string) (value : SettingValue) (now : Z)
    (t : Tables) (n n' : nat) (f f' : list bool) (q q' : list Query) :
  String.eqb key key' = false ->
  stored_json shopId key'
    (mkWorld (prisma.set_settings (prisma.upsert_setting (mkSetting shopId key value now)) t)
             n f q)
  = stored_json shopId key' (mkWorld t n' f' q').
Proof.
  intros H. unfold stored_json, stored_setting. cbn [tables settings prisma.set_settings].
  rewrite find_upsert_setting_other; [reflexivity|].
  cbn. rewrite H. apply andb_false_r.
Qed.

(** Keys appended to an object leave the other keys as they read. *)
Lemma own_property_app (k : string) (fields extra : list (string * JVal)) :
  assoc k extra = None ->
  own_property k (fields ++ extra) = own_property k fields.
Proof.
  unfold own_property. intros H. rewrite rev_app_distr.
  assert (assoc k (rev extra) = None) as Hr.
  { clear -H. induction extra as [|[k' v] r IH]; [reflexivity|].
    cbn in H. destruct (String.eqb k k') eqn:E; [discriminate|].
    cbn. specialize (IH H).
    revert IH. generalize (rev r). intros l. induction l as [|[k'' v''] l IHl]; cbn.
    - now rewrite E.
    - destruct (String.eqb k k''); [discriminate|]. exact IHl. }
  revert Hr. generalize (rev extra). intros l. induction l as [|[k' v] l IH]; cbn.
  - reflexivity.
  - destruct (String.eqb k k'); [discriminate|]. exact IH.
Qed.

Lemma toString_printable (v : JVal) (s : string) :
  toString_method v = Returned s -> template v = Returned s.
Proof.
  unfold toString_method, template.
  destruct v; try discriminate; destruct (unprintable _); try discriminate; auto.
Qed.

Lemma z_string_ok (ok : string -> bool) (v : JVal) (x : string) :
  z_string ok v = Some x -> ok x = true.
Proof.
  destruct v; cbn; try discriminate. destruct (ok s) eqn:E; [|discriminate].
  now intros [= <-].
Qed.

Lemma z_number_ok (lo hi : Z) (v : JVal) (x : Z) :
  z_number lo hi v = Some x -> lo <= x <= hi.
Proof.
  destruct v; cbn; try discriminate.
  destruct (Z.leb_spec lo n); destruct (Z.leb_spec n hi); cbn; try discriminate.
  intros [= <-]. lia.
Qed.

Lemma z_string_intro (ok : string -> bool) (x : string) :
  ok x = true -> z_string ok (JStr x) = Some x.
Proof. intros H. cbn. now rewrite H. Qed.

Lemma z_number_intro (lo hi x : Z) : lo <= x <= hi -> z_number lo hi (JNum x) = Some x.
Proof.
  intros H. cbn.
  destruct (Z.leb_spec lo x); destruct (Z.leb_spec x hi); cbn; try reflexivity; lia.
Qed.

Lemma daysRemaining_bounds (now e : Z) :
  0 <= daysRemaining now e
  /\ (e <= now -> daysRemaining now e = 0)
  /\ (now < e ->
      (daysRemaining now e - 1) * 86400000 < e - now <= daysRemaining now e * 86400000).
Proof.
  unfold daysRemaining.
  replace (1000 * 60 * 60 * 24) with 86400000 by reflexivity.
  pose proof (Z.div_mod (- (e - now)) 86400000 ltac:(lia)) as Hdm.
  pose proof (Z.mod_pos_bound (- (e - now)) 86400000 ltac:(lia)) as Hb.
  split; [lia|]. split; intros H.
  - assert (0 <= - (e - now) / 86400000) by (apply Z.div_pos; lia). lia.
  - assert (- (e - now) / 86400000 < 0) by (apply Z.div_lt_upper_bound; lia).
    rewrite Z.max_r by lia. lia.
Qed.

(** ** The webhook routes *)

Section WebhookProperties.

Variable JSON_parse : string -> Completion JVal.
Variable Date_of : JVal -> option Z.
Variable SHOPIFY_API_SECRET : option string.
Variable toISOString : Z -> string.

Local Abbreviation reconciler := (POST_app_subscriptions_update JSON_parse Date_of SHOPIFY_API_SECRET).
Local Abbreviation uninstall := (POST_app_uninstalled JSON_parse SHOPIFY_API_SECRET).
Local Abbreviation publish := (POST_themes_publish JSON_parse SHOPIFY_API_SECRET toISOString).
Local Abbreviation patch := (PATCH_settings toISOString).

(** X1.  A delivery that is not authentic (no signature header, an
    empty one, or a signature that [verifyWebhookSignature] does not
    accept for the body) never reaches the store: the uninstall and the
    subscription webhook each leave the world as it was, query log
    included, and answer 401 or 500. *)
Theorem unverified_delivery_changes_nothing (db : DbObject) (request : Request) (w : World) :
  ~ authentic SHOPIFY_API_SECRET request ->
  (snd (uninstall request w) = w
   /\ exists r, fst (uninstall request w) = Returned r
                /\ (res_status r = 401 \/ res_status r = 500))
  /\
  (snd (reconciler db request w) = w
   /\ exists r, fst (reconciler db request w) = Returned r
                /\ (res_status r = 401 \/ res_status r = 500)).
Proof.
  intros Hna.
  unfold POST_app_uninstalled, POST_app_subscriptions_update, try_catch, verified, bind, lift,
    ret.
  destruct (nonempty (header "x-shopify-hmac-sha256" request)) as [signature|] eqn:Hh.
  - destruct (verifyWebhookSignature SHOPIFY_API_SECRET (req_body request) signature)
      as [[|]|e] eqn:Hv.
    + exfalso. apply Hna. exists signature. split; [now apply nonempty_some | exact Hv].
    + cbn. repeat split; try reflexivity; eexists; (split; [reflexivity | left; reflexivity]).
    + cbn. repeat split; try reflexivity; eexists; (split; [reflexivity | right; reflexivity]).
  - cbn. repeat split; try reflexivity; eexists; (split; [reflexivity | left; reflexivity]).
Qed.

(** X2.  The answers of the head that the webhook routes share, on the
    uninstall and the subscription route: without a signature header
    (or with an empty one) 401 [Missing webhook signature]; with a
    signature of the MAC's length that is not the MAC of the body 401
    [Invalid webhook signature]; and with the secret unset every signed
    delivery ends in the 500 of the route's catch-all, because
    [createHmac] throws.  The world is unchanged in each case. *)
Theorem webhook_head_rejections (db : DbObject) (request : Request) (w : World) :
  (nonempty (header "x-shopify-hmac-sha256" request) = None ->
     uninstall request w = refused 401 "Missing webhook signature" w
     /\ reconciler db request w = refused 401 "Missing webhook signature" w)
  /\
  (forall K signature,
     SHOPIFY_API_SECRET = Some K ->
     header "x-shopify-hmac-sha256" request = Some signature ->
     String.length signature = 44%nat ->
     signature <> sign K (req_body request) ->
     uninstall request w = refused 401 "Invalid webhook signature" w
     /\ reconciler db request w = refused 401 "Invalid webhook signature" w)
  /\
  (forall signature,
     SHOPIFY_API_SECRET = None ->
     nonempty (header "x-shopify-hmac-sha256" request) = Some signature ->
     uninstall request w = refused 500 "Failed to process app uninstalled webhook" w
     /\ reconciler db request w
        = refused 500 "Failed to process subscription update webhook" w).
Proof.
  unfold refused, POST_app_uninstalled, POST_app_subscriptions_update, try_catch, verified,
    bind, lift, ret.
  split; [|split].
  - intros ->. split; reflexivity.
  - intros K signature HK Hh Hlen Hne. rewrite Hh. unfold nonempty.
    destruct (String.eqb_spec signature EmptyString) as [->|_]; [discriminate|].
    rewrite HK, verifyWebhookSignature_spec, Hlen. cbn.
    destruct (String.eqb_spec (sign K (req_body request)) signature) as [E|_];
      [now elim Hne|].
    split; reflexivity.
  - intros signature HK ->. rewrite HK. cbn. split; reflexivity.
Qed.

(** *** [app/uninstalled] *)

Lemma uninstall_run_unknown (request : Request) (w : World) (v : JVal) (D : string) :
  authentic SHOPIFY_API_SECRET request ->
  JSON_parse (req_body request) = Returned v ->
  shop_domain_in v = Some D ->
  find (fun s => String.eqb (shopifyDomain s) D) (shops (tables w)) = None ->
  faults w = [] ->
  uninstall request w
  = (Returned (json [("success", JBool true)]),
     mkWorld (tables w) (next_id w) [] (queries w ++ [QShopFindUnique D])).
Proof.
  intros Ha Hp Hd Hf Hq.
  destruct (shop_domain_in_inv v D Hd) as (d1 & d2 & H1 & H2 & Hor & Ht).
  destruct w as [t n f q]. cbn [tables faults queries next_id] in *. subst f.
  unfold POST_app_uninstalled, try_catch.
  rewrite verified_authentic by exact Ha.
  unfold_store. rewrite Hp, H1, H2. cbv zeta. rewrite Hor, Ht.
  cbn. rewrite Hf. reflexivity.
Qed.

(** X3.  A verified uninstall delivery with nothing to purge.  When the
    body names no shop domain ([myshopify_domain || domain] is falsy)
    the answer is 400 and the store is not asked; when it names a domain
    that no shop row has, the answer is [{ success: true }], the only
    call is the lookup of the shop, and no table changes. *)
Theorem uninstall_nothing_to_purge (request : Request) (w : World) (v : JVal) :
  authentic SHOPIFY_API_SECRET request ->
  JSON_parse (req_body request) = Returned v ->
  (forall d1 d2,
     get_prop v "myshopify_domain" = Returned d1 ->
     get_prop v "domain" = Returned d2 ->
     truthy (js_or d1 d2) = false ->
     uninstall request w = refused 400 "Missing shop domain in webhook" w)
  /\
  (forall D,
     shop_domain_in v = Some D ->
     find (fun s => String.eqb (shopifyDomain s) D) (shops (tables w)) = None ->
     faults w = [] ->
     fst (uninstall request w) = Returned (json [("success", JBool true)])
     /\ tables (snd (uninstall request w)) = tables w
     /\ queries (snd (uninstall request w)) = queries w ++ [QShopFindUnique D]).
Proof.
  intros Ha Hp. split.
  - intros d1 d2 H1 H2 Ht.
    unfold refused, POST_app_uninstalled, try_catch.
    rewrite verified_authentic by exact Ha.
    unfold bind, lift, ret. rewrite Hp, H1, H2. cbv zeta. rewrite Ht. reflexivity.
  - intros D Hd Hf Hq. rewrite (uninstall_run_unknown request w v D Ha Hp Hd Hf Hq).
    repeat split; reflexivity.
Qed.

(** X4.  The uninstall webhook may be delivered again.  After a run in
    which every store call succeeded, the same delivery finds no shop
    under the domain (domains being unique among the shop rows), is
    answered [{ success: true }] and changes no table. *)
Theorem uninstall_redelivery_acknowledged (request : Request) (w : World)
    (v : JVal) (D : string) (shop : Shop) :
  authentic SHOPIFY_API_SECRET request ->
  JSON_parse (req_body request) = Returned v ->
  shop_domain_in v = Some D ->
  find (fun s => String.eqb (shopifyDomain s) D) (shops (tables w)) = Some shop ->
  NoDup (map shopifyDomain (shops (tables w))) ->
  faults w = [] ->
  fst (uninstall request (snd (uninstall request w)))
    = Returned (json [("success", JBool true)])
  /\ tables (snd (uninstall request (snd (uninstall request w))))
     = tables (snd (uninstall request w)).
Proof.
  intros Ha Hp Hd Hf Hnd Hq.
  rewrite (uninstall_run_ok JSON_parse SHOPIFY_API_SECRET request w v D shop Ha Hp Hd Hf Hq).
  cbn [snd].
  rewrite (uninstall_run_unknown request _ v D Ha Hp Hd).
  - split; reflexivity.
  - cbn. now apply find_after_delete.
  - reflexivity.
Qed.

(** X5.  The purge never runs without its audit entry.  When the store
    rejects the lookup of the shop, or the write of the
    [app_uninstalled] entry, the handler answers 500 and no table has
    changed: no session, setting, subscription or shop row is deleted. *)
Theorem uninstall_needs_its_audit_entry (request : Request) (w : World)
    (v : JVal) (D : string) (shop : Shop) (rest : list bool) :
  authentic SHOPIFY_API_SECRET request ->
  JSON_parse (req_body request) = Returned v ->
  shop_domain_in v = Some D ->
  find (fun s => String.eqb (shopifyDomain s) D) (shops (tables w)) = Some shop ->
  faults w = true :: rest \/ faults w = false :: true :: rest ->
  fst (uninstall request w)
    = Returned (json_status [("error", JStr "Failed to process app uninstalled webhook")] 500)
  /\ tables (snd (uninstall request w)) = tables w.
Proof.
  intros Ha Hp Hd Hf Hq.
  destruct (shop_domain_in_inv v D Hd) as (d1 & d2 & H1 & H2 & Hor & Ht).
  destruct (get_prop_total v _ "id" _ H1) as (wid & Hid).
  destruct w as [t n f q]. cbn [tables faults queries next_id] in *.
  unfold POST_app_uninstalled, try_catch.
  rewrite verified_authentic by exact Ha.
  unfold_store. rewrite Hp, H1, H2. cbv zeta. rewrite Hor, Ht.
  destruct Hq as [-> | ->]; cbn.
  - split; reflexivity.
  - rewrite Hf. cbn. rewrite Hid. cbn. split; reflexivity.
Qed.

(** X6.  The purge is confined to the shop that uninstalled.  Whatever
    calls the store rejects, the rows of every other shop are after the
    handler what they were before it: the shop rows with another id, the
    subscriptions, settings and audit entries with another [shopId], and
    the sessions of another domain. *)
Theorem uninstall_spares_other_shops (request : Request) (w : World)
    (v : JVal) (D : string) (shop : Shop) :
  authentic SHOPIFY_API_SECRET request ->
  JSON_parse (req_body request) = Returned v ->
  shop_domain_in v = Some D ->
  find (fun s => String.eqb (shopifyDomain s) D) (shops (tables w)) = Some shop ->
  filter (fun s => negb (String.eqb (shop_id s) (shop_id shop)))
         (shops (tables (snd (uninstall request w))))
    = filter (fun s => negb (String.eqb (shop_id s) (shop_id shop))) (shops (tables w))
  /\ filter (fun s => negb (String.eqb (sub_shopId s) (shop_id shop)))
            (subscriptions (tables (snd (uninstall request w))))
     = filter (fun s => negb (String.eqb (sub_shopId s) (shop_id shop)))
              (subscriptions (tables w))
  /\ filter (fun s => negb (String.eqb (set_shopId s) (shop_id shop)))
            (settings (tables (snd (uninstall request w))))
     = filter (fun s => negb (String.eqb (set_shopId s) (shop_id shop))) (settings (tables w))
  /\ filter (fun a => negb (String.eqb (log_shopId a) (shop_id shop)))
            (auditLogs (tables (snd (uninstall request w))))
     = filter (fun a => negb (String.eqb (log_shopId a) (shop_id shop))) (auditLogs (tables w))
  /\ filter (fun s => negb (String.eqb (sess_shop s) D))
            (sessions (tables (snd (uninstall request w))))
     = filter (fun s => negb (String.eqb (sess_shop s) D)) (sessions (tables w)).
Proof.
  intros Ha Hp Hd Hf.
  destruct (shop_domain_in_inv v D Hd) as (d1 & d2 & H1 & H2 & Hor & Ht).
  destruct (get_prop_total v _ "id" _ H1) as (wid & Hid).
  destruct w as [t n f q]. cbn [tables faults queries next_id] in *.
  unfold POST_app_uninstalled, try_catch.
  rewrite verified_authentic by exact Ha.
  unfold_store. rewrite Hp, H1, H2. cbv zeta. rewrite Hor, Ht.
  cbn.
  run_all; try discriminate.
  all: repeat match goal with
       | H : Some _ = Some _ |- _ => injection H as H; subst
       end.
  all: repeat (rewrite filter_filter_same
               || rewrite filter_app_out by (cbn; now rewrite String.eqb_refl)).
  all: repeat split; reflexivity.
Qed.

(** *** [themes/publish] and the acknowledgement of its notification *)

Lemma publish_run_ok (request : Request) (w : World) (v : JVal) (D : string) (shop : Shop)
    (id name : JVal) (rid : string) :
  authentic SHOPIFY_API_SECRET request ->
  JSON_parse (req_body request) = Returned v ->
  nonempty (header "x-shopify-shop-domain" request) = Some D ->
  find (fun s => String.eqb (shopifyDomain s) D) (shops (tables w)) = Some shop ->
  get_prop v "role" = Returned (JStr "main") ->
  get_prop v "id" = Returned id ->
  toString_method id = Returned rid ->
  get_prop v "name" = Returned name ->
  unprintable name = false ->
  faults w = [] ->
  publish request w
  = (Returned (json [ ("success", JBool true);
                      ("message", JStr "Theme publish processed successfully") ]),
     mkWorld
       (prisma.set_settings
          (prisma.upsert_setting
             (mkSetting (shop_id shop) "theme_change_notification"
                (JsonValue (notification_after toISOString request id name)) (req_now request)))
          (prisma.set_settings
             (prisma.upsert_setting
                (mkSetting (shop_id shop) "theme_info"
                   (JsonValue (theme_info_after toISOString request id name
                                 (stored_json (shop_id shop) "theme_info" w)))
                   (req_now request)))
             (add_log (theme_entry toISOString request v (shop_id shop) rid) (tables w))))
       (next_id w) []
       (queries w ++ [ QShopFindUnique D; QAuditLogCreate (shop_id shop) "theme_published";
                       QSettingUpsert (shop_id shop) "theme_info";
                       QSettingUpsert (shop_id shop) "theme_change_notification" ])).
Proof.
  intros Ha Hp Hd Hf Hrole Hid Hrid Hname Hprint Hq.
  pose proof (toString_printable id rid Hrid) as Htid.
  destruct (get_prop_total v _ "created_at" _ Hrole) as (created & Hc).
  destruct (get_prop_total v _ "updated_at" _ Hrole) as (updated & Hu).
  destruct w as [t n f q]. cbn [tables faults queries next_id] in *. subst f.
  unfold POST_themes_publish, try_catch.
  rewrite verified_authentic by exact Ha.
  unfold db_getShopSettings, prisma_setting_findUnique, client_call_unlisted.
  unfold_store. rewrite Hp. cbn. rewrite Hd. cbn. rewrite Hf. cbn.
  rewrite Hrole. cbn. rewrite Hid. cbn. rewrite Hrid. cbn. rewrite Hname. cbn.
  rewrite Hc. cbn. rewrite Hu. cbn.
  unfold template at 1. rewrite Hprint. cbn. rewrite Htid. cbn.
  unfold theme_entry, theme_info_after, notification_after, stored_json, stored_setting, add_log.
  rewrite Hrole, Hid, Hname, Hc, Hu. cbn.
  rewrite <- !app_assoc.
  destruct (find _ (settings t)); reflexivity.
Qed.

Lemma publish_run_unnotified (request : Request) (w : World) (v : JVal) (D : string)
    (shop : Shop) (id name : JVal) (rid : string) (rest : list bool) :
  authentic SHOPIFY_API_SECRET request ->
  JSON_parse (req_body request) = Returned v ->
  nonempty (header "x-shopify-shop-domain" request) = Some D ->
  find (fun s => String.eqb (shopifyDomain s) D) (shops (tables w)) = Some shop ->
  get_prop v "role" = Returned (JStr "main") ->
  get_prop v "id" = Returned id ->
  toString_method id = Returned rid ->
  get_prop v "name" = Returned name ->
  unprintable name = false ->
  faults w = false :: false :: false :: false :: true :: rest ->
  publish request w
  = (Returned (json [ ("success", JBool true);
                      ("message", JStr "Theme publish processed successfully") ]),
     mkWorld
       (prisma.set_settings
          (prisma.upsert_setting
             (mkSetting (shop_id shop) "theme_info"
                (JsonValue (theme_info_after toISOString request id name
                              (stored_json (shop_id shop) "theme_info" w)))
                (req_now request)))
          (add_log (theme_entry toISOString request v (shop_id shop) rid) (tables w)))
       (next_id w) rest
       (queries w ++ [ QShopFindUnique D; QAuditLogCreate (shop_id shop) "theme_published";
                       QSettingUpsert (shop_id shop) "theme_info";
                       QSettingUpsert (shop_id shop) "theme_change_notification" ])).
Proof.
  intros Ha Hp Hd Hf Hrole Hid Hrid Hname Hprint Hq.
  pose proof (toString_printable id rid Hrid) as Htid.
  destruct (get_prop_total v _ "created_at" _ Hrole) as (created & Hc).
  destruct (get_prop_total v _ "updated_at" _ Hrole) as (updated & Hu).
  destruct w as [t n f q]. cbn [tables faults queries next_id] in *. subst f.
  unfold POST_themes_publish, try_catch.
  rewrite verified_authentic by exact Ha.
  unfold db_getShopSettings, prisma_setting_findUnique, client_call_unlisted.
  unfold_store. rewrite Hp. cbn. rewrite Hd. cbn. rewrite Hf. cbn.
  rewrite Hrole. cbn. rewrite Hid. cbn. rewrite Hrid. cbn. rewrite Hname. cbn.
  rewrite Hc. cbn. rewrite Hu. cbn.
  unfold template at 1. rewrite Hprint. cbn. rewrite Htid. cbn.
  unfold theme_entry, theme_info_after, stored_json, stored_setting, add_log.
  rewrite Hrole, Hid, Hname, Hc, Hu. cbn.
  rewrite <- !app_assoc.
  destruct (find _ (settings t)); reflexivity.
Qed.

Lemma patch_run (loadSession : Completion (option Session)) (request : Request)
    (w : World) (shop : string) (session : Session) (shopRecord : Shop) :
  nonempty (req_shop request) = Some shop ->
  loadSession = Returned (Some session) ->
  find (fun r => String.eqb (shopifyDomain r) shop) (shops (tables w)) = Some shopRecord ->
  faults w = [] ->
  patch loadSession (Some "acknowledge-theme-change") request w
  = (Returned (json [ ("success", JBool true);
                      ("message", JStr "Theme change notification acknowledged") ]),
     let current := stored_json (shop_id shopRecord) "theme_change_notification" w in
     if truthy current
     then mkWorld
            (prisma.set_settings
               (prisma.upsert_setting
                  (mkSetting (shop_id shopRecord) "theme_change_notification"
                     (JsonValue
                        (JObj (spread current
                               ++ [ ("acknowledged", JBool true);
                                    ("acknowledgedAt", JStr (toISOString (req_now request))) ])))
                     (req_now request)))
               (tables w))
            (next_id w) []
            (queries w ++ [ QShopFindUnique shop;
                            QSettingUpsert (shop_id shopRecord) "theme_change_notification" ])
     else mkWorld (tables w) (next_id w) [] (queries w ++ [QShopFindUnique shop])).
Proof.
  intros Hshop -> Hfind Hq.
  destruct w as [t n f q]. cbn [tables faults next_id queries] in *. subst f.
  unfold PATCH_settings, with_shop, stored_json, stored_setting. rewrite Hshop.
  unfold db_getShopSettings, prisma_setting_findUnique, client_call_unlisted.
  unfold_store. cbn. rewrite Hfind. cbn.
  destruct (find _ (settings t)) as [s|]; cbn.
  - destruct (truthy (value_json (set_value s))); cbn; [|reflexivity].
    rewrite <- !app_assoc. reflexivity.
  - reflexivity.
Qed.

(** X7.  A theme delivery that is not the verified publication of a
    main theme writes nothing.  A delivery that is not authentic leaves
    the world as it was and is answered 401 or 500.  A verified one
    without the [x-shopify-shop-domain] header is answered 400 and the
    store is not asked; for a domain that no shop row has the answer is
    [{ success: true }]; for a theme whose [role] is not [main] the
    delivery is acknowledged as processed; in the last two cases no
    table changes. *)
Theorem theme_publish_without_main_theme (request : Request) (w : World) :
  (~ authentic SHOPIFY_API_SECRET request ->
     snd (publish request w) = w
     /\ exists r, fst (publish request w) = Returned r
                  /\ (res_status r = 401 \/ res_status r = 500))
  /\
  (forall v,
     authentic SHOPIFY_API_SECRET request ->
     JSON_parse (req_body request) = Returned v ->
     (nonempty (header "x-shopify-shop-domain" request) = None ->
        publish request w = refused 400 "Missing shop domain in webhook headers" w)
     /\
     (forall D,
        nonempty (header "x-shopify-shop-domain" request) = Some D ->
        find (fun s => String.eqb (shopifyDomain s) D) (shops (tables w)) = None ->
        faults w = [] ->
        fst (publish request w) = Returned (json [("success", JBool true)])
        /\ tables (snd (publish request w)) = tables w)
     /\
     (forall D shop role,
        nonempty (header "x-shopify-shop-domain" request) = Some D ->
        find (fun s => String.eqb (shopifyDomain s) D) (shops (tables w)) = Some shop ->
        get_prop v "role" = Returned role ->
        is_main role = false ->
        faults w = [] ->
        fst (publish request w)
          = Returned (json [ ("success", JBool true);
                             ("message", JStr "Theme publish processed successfully") ])
        /\ tables (snd (publish request w)) = tables w)).
Proof.
  split.
  - intros Hna.
    unfold POST_themes_publish, try_catch, verified, bind, lift, ret.
    destruct (nonempty (header "x-shopify-hmac-sha256" request)) as [signature|] eqn:Hh.
    + destruct (verifyWebhookSignature SHOPIFY_API_SECRET (req_body request) signature)
        as [[|]|e] eqn:Hv.
      * exfalso. apply Hna. exists signature. split; [now apply nonempty_some | exact Hv].
      * cbn. split; [reflexivity|]. eexists. split; [reflexivity | left; reflexivity].
      * cbn. split; [reflexivity|]. eexists. split; [reflexivity | right; reflexivity].
    + cbn. split; [reflexivity|]. eexists. split; [reflexivity | left; reflexivity].
  - intros v Ha Hp.
    destruct w as [t n f q]. cbn [tables faults queries next_id] in *.
    split; [|split].
    + intros Hd. unfold refused, POST_themes_publish, try_catch.
      rewrite verified_authentic by exact Ha.
      unfold bind, lift, ret. rewrite Hp, Hd. reflexivity.
    + intros D Hd Hf ->. unfold POST_themes_publish, try_catch.
      rewrite verified_authentic by exact Ha.
      unfold_store. rewrite Hp. cbn. rewrite Hd. cbn. rewrite Hf. split; reflexivity.
    + intros D shop role Hd Hf Hrole Hmain ->. unfold POST_themes_publish, try_catch.
      rewrite verified_authentic by exact Ha.
      unfold_store. rewrite Hp. cbn. rewrite Hd. cbn. rewrite Hf. cbn.
      rewrite Hrole. cbn. rewrite Hmain. split; reflexivity.
Qed.

(** X8.  A verified delivery for a published main theme, every store
    call succeeding: one [theme_published] entry is appended, with the
    theme id's text ([themeData.id.toString()]) as its resource id; the setting [theme_info] becomes
    what was stored (or the empty object) with [mainThemeId],
    [mainThemeName] and [lastPublished] set, every other key reading as
    before; and the setting [theme_change_notification] is replaced by
    an unacknowledged notification for the theme. *)
Theorem theme_publish_records_main_theme (request : Request) (w : World) (v : JVal)
    (D : string) (shop : Shop) (id name : JVal) (rid : string) :
  authentic SHOPIFY_API_SECRET request ->
  JSON_parse (req_body request) = Returned v ->
  nonempty (header "x-shopify-shop-domain" request) = Some D ->
  find (fun s => String.eqb (shopifyDomain s) D) (shops (tables w)) = Some shop ->
  get_prop v "role" = Returned (JStr "main") ->
  get_prop v "id" = Returned id ->
  toString_method id = Returned rid ->
  get_prop v "name" = Returned name ->
  unprintable name = false ->
  faults w = [] ->
  fst (publish request w)
    = Returned (json [ ("success", JBool true);
                       ("message", JStr "Theme publish processed successfully") ])
  /\ (exists entry,
        auditLogs (tables (snd (publish request w))) = auditLogs (tables w) ++ [entry]
        /\ action entry = "theme_published"
        /\ log_shopId entry = shop_id shop
        /\ resourceId entry = Some rid)
  /\ stored_json (shop_id shop) "theme_info" (snd (publish request w))
     = JObj (spread (js_or (stored_json (shop_id shop) "theme_info" w) (JObj []))
             ++ [ ("mainThemeId", id); ("mainThemeName", name);
                  ("lastPublished", JStr (toISOString (req_now request))) ])
  /\ (forall k,
        ~ In k ["mainThemeId"; "mainThemeName"; "lastPublished"] ->
        field (stored_json (shop_id shop) "theme_info" (snd (publish request w))) k
        = field (JObj (spread (js_or (stored_json (shop_id shop) "theme_info" w) (JObj [])))) k)
  /\ stored_json (shop_id shop) "theme_change_notification" (snd (publish request w))
     = JObj [ ("themeId", id); ("themeName", name);
              ("changedAt", JStr (toISOString (req_now request)));
              ("acknowledged", JBool false) ].
Proof.
  intros Ha Hp Hd Hf Hrole Hid Hrid Hname Hprint Hq.
  rewrite (publish_run_ok request w v D shop id name rid Ha Hp Hd Hf Hrole Hid Hrid Hname
             Hprint Hq).
  cbn [fst snd].
  assert (stored_json (shop_id shop) "theme_info"
            (mkWorld
               (prisma.set_settings
                  (prisma.upsert_setting
                     (mkSetting (shop_id shop) "theme_change_notification"
                        (JsonValue (notification_after toISOString request id name))
                        (req_now request)))
                  (prisma.set_settings
                     (prisma.upsert_setting
                        (mkSetting (shop_id shop) "theme_info"
                           (JsonValue (theme_info_after toISOString request id name
                                         (stored_json (shop_id shop) "theme_info" w)))
                           (req_now request)))
                     (add_log (theme_entry toISOString request v (shop_id shop) rid)
                        (tables w))))
               (next_id w) []
               (queries w ++ [ QShopFindUnique D; QAuditLogCreate (shop_id shop) "theme_published";
                               QSettingUpsert (shop_id shop) "theme_info";
                               QSettingUpsert (shop_id shop) "theme_change_notification" ]))
          = theme_info_after toISOString request id name
              (stored_json (shop_id shop) "theme_info" w)) as Hinfo.
  { rewrite (stored_json_upsert_other _ _ _ _ _ _ _ (next_id w) _ [] _ (queries w))
      by reflexivity.
    apply stored_json_upsert. }
  split; [reflexivity|]. split; [|split; [|split]].
  - eexists. cbn. repeat split; reflexivity.
  - exact Hinfo.
  - intros k Hk. rewrite Hinfo. unfold theme_info_after. cbn [field].
    rewrite own_property_app; [reflexivity|].
    cbn. cbn in Hk.
    destruct (String.eqb_spec k "mainThemeId") as [->|_]; [exfalso; apply Hk; auto|].
    destruct (String.eqb_spec k "mainThemeName") as [->|_]; [exfalso; apply Hk; auto|].
    destruct (String.eqb_spec k "lastPublished") as [->|_]; [exfalso; apply Hk; auto|].
    reflexivity.
  - apply stored_json_upsert.
Qed.

(** X9.  The notification is best effort.  When the store rejects the
    write of [theme_change_notification] (the fifth call) the delivery
    is still answered as processed, [theme_info] holds the new theme,
    and the notification stored before is unchanged. *)
Theorem theme_notification_failure_tolerated (request : Request) (w : World) (v : JVal)
    (D : string) (shop : Shop) (id name : JVal) (rid : string) (rest : list bool) :
  authentic SHOPIFY_API_SECRET request ->
  JSON_parse (req_body request) = Returned v ->
  nonempty (header "x-shopify-shop-domain" request) = Some D ->
  find (fun s => String.eqb (shopifyDomain s) D) (shops (tables w)) = Some shop ->
  get_prop v "role" = Returned (JStr "main") ->
  get_prop v "id" = Returned id ->
  toString_method id = Returned rid ->
  get_prop v "name" = Returned name ->
  unprintable name = false ->
  faults w = false :: false :: false :: false :: true :: rest ->
  fst (publish request w)
    = Returned (json [ ("success", JBool true);
                       ("message", JStr "Theme publish processed successfully") ])
  /\ stored_json (shop_id shop) "theme_info" (snd (publish request w))
     = JObj (spread (js_or (stored_json (shop_id shop) "theme_info" w) (JObj []))
             ++ [ ("mainThemeId", id); ("mainThemeName", name);
                  ("lastPublished", JStr (toISOString (req_now request))) ])
  /\ stored_json (shop_id shop) "theme_change_notification" (snd (publish request w))
     = stored_json (shop_id shop) "theme_change_notification" w.
Proof.
  intros Ha Hp Hd Hf Hrole Hid Hrid Hname Hprint Hq.
  rewrite (publish_run_unnotified request w v D shop id name rid rest Ha Hp Hd Hf Hrole Hid
             Hrid Hname Hprint Hq).
  cbn [fst snd].
  split; [reflexivity|]. split.
  - apply stored_json_upsert.
  - destruct w as [t n f q].
    rewrite (stored_json_upsert_other _ _ _ _ _ _ _ n _ f _ q) by reflexivity.
    reflexivity.
Qed.

(** X10.  Publication, then acknowledgement.  After a processed
    main-theme delivery the stored notification is unacknowledged; a
    PATCH with the action [acknowledge-theme-change] for the same shop
    then marks it acknowledged, keeps its theme id and name, and leaves
    [theme_info] as the delivery wrote it. *)
Theorem acknowledge_after_publish (loadSession : Completion (option Session))
    (request request' : Request) (w : World) (v : JVal)
    (D : string) (session : Session) (shop : Shop) (id name : JVal) (rid : string) :
  authentic SHOPIFY_API_SECRET request ->
  JSON_parse (req_body request) = Returned v ->
  nonempty (header "x-shopify-shop-domain" request) = Some D ->
  find (fun s => String.eqb (shopifyDomain s) D) (shops (tables w)) = Some shop ->
  get_prop v "role" = Returned (JStr "main") ->
  get_prop v "id" = Returned id ->
  toString_method id = Returned rid ->
  get_prop v "name" = Returned name ->
  unprintable name = false ->
  faults w = [] ->
  nonempty (req_shop request') = Some D ->
  loadSession = Returned (Some session) ->
  field (stored_json (shop_id shop) "theme_change_notification" (snd (publish request w)))
        "acknowledged"
    = JBool false
  /\ field (stored_json (shop_id shop) "theme_change_notification"
              (snd (patch loadSession (Some "acknowledge-theme-change") request'
                      (snd (publish request w)))))
           "acknowledged"
     = JBool true
  /\ field (stored_json (shop_id shop) "theme_change_notification"
              (snd (patch loadSession (Some "acknowledge-theme-change") request'
                      (snd (publish request w)))))
           "themeId"
     = id
  /\ field (stored_json (shop_id shop) "theme_change_notification"
              (snd (patch loadSession (Some "acknowledge-theme-change") request'
                      (snd (publish request w)))))
           "themeName"
     = name
  /\ stored_json (shop_id shop) "theme_info"
       (snd (patch loadSession (Some "acknowledge-theme-change") request'
               (snd (publish request w))))
     = stored_json (shop_id shop) "theme_info" (snd (publish request w)).
Proof.
  intros Ha Hp Hd Hf Hrole Hid Hrid Hname Hprint Hq Hshop' Hsess.
  rewrite (publish_run_ok request w v D shop id name rid Ha Hp Hd Hf Hrole Hid Hrid Hname
             Hprint Hq).
  cbn [snd].
  rewrite (patch_run loadSession request' _ D session shop Hshop' Hsess);
    [|exact Hf|reflexivity].
  cbn [snd]. cbv zeta. rewrite stored_json_upsert. cbn [value_json notification_after truthy].
  rewrite stored_json_upsert.
  split; [reflexivity|]. split; [reflexivity|]. split; [reflexivity|]. split; [reflexivity|].
  now rewrite (stored_json_upsert_other _ _ _ _ _ _ _ (next_id w) _ [] _ (queries w))
    by reflexivity.
Qed.

(** X11.  The PATCH route checks its action before it loads the
    session: any other action (or none) is answered 400 [Invalid
    action] with the world unchanged.  With the right action and no
    notification stored (or a falsy one) it answers success and changes
    no table. *)
Theorem patch_refuses_or_keeps (loadSession : Completion (option Session))
    (action : option string) (request : Request) (w : World) :
  (forall shop,
     nonempty (req_shop request) = Some shop ->
     action <> Some "acknowledge-theme-change" ->
     patch loadSession action request w = refused 400 "Invalid action" w)
  /\
  (forall shop session shopRecord,
     nonempty (req_shop request) = Some shop ->
     action = Some "acknowledge-theme-change" ->
     loadSession = Returned (Some session) ->
     find (fun r => String.eqb (shopifyDomain r) shop) (shops (tables w)) = Some shopRecord ->
     truthy (stored_json (shop_id shopRecord) "theme_change_notification" w) = false ->
     faults w = [] ->
     fst (patch loadSession action request w)
       = Returned (json [ ("success", JBool true);
                          ("message", JStr "Theme change notification acknowledged") ])
     /\ tables (snd (patch loadSession action request w)) = tables w).
Proof.
  split.
  - intros shop Hshop Hact. unfold refused, PATCH_settings, try_catch, ret. rewrite Hshop.
    destruct action as [a|]; [|reflexivity].
    destruct (String.eqb_spec a "acknowledge-theme-change") as [->|_]; [now elim Hact|].
    reflexivity.
  - intros shop session shopRecord Hshop -> Hsess Hfind Hnone Hq.
    rewrite (patch_run loadSession request w shop session shopRecord Hshop Hsess Hfind Hq).
    cbv zeta. rewrite Hnone. split; reflexivity.
Qed.

End WebhookProperties.

(** ** The admin routes *)

Section AdminProperties.

Variable JSON_parse : string -> Completion JVal.
Variable URL_valid : string -> bool.
Variable zod : ZodReports.

Local Abbreviation save := (POST_settings JSON_parse URL_valid zod).
Local Abbreviation subscribe := (POST_billing_subscribe JSON_parse zod).
Local Abbreviation cancel := (POST_billing_cancel).

(** X12.  The admin routes ask for the shop and the session before
    anything else.  Without a [shop] parameter (or with an empty one)
    the settings, subscribe and cancel routes answer 400; with a shop
    but no stored session they answer 401; in both cases the world is
    unchanged, query log included. *)
Theorem admin_requests_need_shop_and_session
    (loadSession : Completion (option Session))
    (cancelAppSubscription : string -> Completion CancelResult)
    (createAppSubscription : option Plan -> bool -> Completion CreateResult)
    (request : Request) (w : World) :
  (nonempty (req_shop request) = None ->
     save loadSession request w = refused 400 "Missing shop parameter" w
     /\ subscribe loadSession createAppSubscription request w
        = refused 400 "Missing shop parameter" w
     /\ cancel loadSession cancelAppSubscription request w
        = refused 400 "Missing shop parameter" w)
  /\
  (forall shop,
     nonempty (req_shop request) = Some shop ->
     loadSession = Returned None ->
     save loadSession request w = refused 401 "No active session found" w
     /\ subscribe loadSession createAppSubscription request w
        = refused 401 "No active session found" w
     /\ cancel loadSession cancelAppSubscription request w
        = refused 401 "No active session found" w).
Proof.
  unfold refused, POST_settings, POST_billing_subscribe, POST_billing_cancel, authenticated,
    try_catch, bind, lift, ret.
  split.
  - intros ->. repeat split; reflexivity.
  - intros shop -> ->. repeat split; reflexivity.
Qed.

(** *** [api/settings] *)

(** X13.  A payload that the schema refuses is answered 400 [Invalid
    settings data], with one entry under [details] for each issue of the
    [ZodError], in order: the issue's path joined by dots as [field],
    and its message.  The only store call made is the lookup of the
    shop, and no table changes. *)
Theorem settings_invalid_payload_rejected
    (loadSession : Completion (option Session)) (request : Request) (w : World)
    (shop : string) (session : Session) (shopRecord : Shop) (body : JVal) (m : string)
    (issues : list ZodIssue) :
  nonempty (req_shop request) = Some shop ->
  loadSession = Returned (Some session) ->
  find (fun r => String.eqb (shopifyDomain r) shop) (shops (tables w)) = Some shopRecord ->
  JSON_parse (req_body request) = Returned body ->
  popupSettingsSchema_parse URL_valid zod body = Thrown (ZodError m issues) ->
  faults w = [] ->
  fst (save loadSession request w)
    = Returned (json_status
                  [ ("error", JStr "Invalid settings data");
                    ("details",
                     JArr (map (fun err =>
                                  JObj [ ("field", JStr (array_join "." (issue_path err)));
                                         ("message", JStr (issue_message err)) ])
                               issues)) ]
                  400)
  /\ tables (snd (save loadSession request w)) = tables w
  /\ queries (snd (save loadSession request w)) = queries w ++ [QShopFindUnique shop].
Proof.
  intros Hshop -> Hfind Hparse Hschema Hq.
  destruct w as [t n f q]. cbn [tables faults next_id queries] in *. subst f.
  unfold POST_settings, authenticated, with_shop. rewrite Hshop.
  unfold_store. cbn. rewrite Hfind. cbn. rewrite Hparse. cbn. rewrite Hschema. cbn.
  repeat split; reflexivity.
Qed.

(** X15.  The settings the route answers under [data] can be sent
    back.  Accepted settings, written out as JSON, are accepted again
    and parse to themselves; so are the settings the gate restricts them
    to. *)
Theorem schema_round_trip (body : JVal) (s : PopupSettings) :
  popupSettingsSchema_parse URL_valid zod body = Returned s ->
  popupSettingsSchema_parse URL_valid zod (json_of_settings s) = Returned s
  /\ popupSettingsSchema_parse URL_valid zod (json_of_settings (restrict s)) = Returned (restrict s).
Proof.
  unfold popupSettingsSchema_parse at 1.
  destruct (is_object body); [|discriminate].
  destruct (z_string _ (field body "message")) as [m|] eqn:E1; [|discriminate].
  destruct (z_string _ (field body "linkUrl")) as [u|] eqn:E2; [|discriminate].
  destruct (z_string _ (field body "position")) as [p|] eqn:E3; [|discriminate].
  destruct (z_number _ _ (field body "maxWidth")) as [mw|] eqn:E4; [|discriminate].
  destruct (z_number _ _ (field body "padding")) as [pd|] eqn:E5; [|discriminate].
  destruct (z_number _ _ (field body "zIndex")) as [z|] eqn:E6; [|discriminate].
  destruct (z_boolean (field body "dismissible")) as [d|] eqn:E7; [|discriminate].
  destruct (z_string _ (field body "bgColor")) as [bg|] eqn:E8; [|discriminate].
  destruct (z_string _ (field body "textColor")) as [tx|] eqn:E9; [|discriminate].
  destruct (z_string _ (field body "linkColor")) as [lk|] eqn:E10; [|discriminate].
  intros [= <-].
  apply z_string_ok in E1, E2, E3, E8, E9, E10.
  apply z_number_ok in E4, E5, E6.
  unfold popupSettingsSchema_parse, restrict, json_of_settings, field, own_property.
  cbn [message linkUrl position maxWidth padding zIndex dismissible bgColor textColor linkColor
       is_object rev app assoc String.eqb Ascii.eqb Bool.eqb z_boolean].
  rewrite (z_string_intro _ m E1), (z_string_intro _ u E2), (z_string_intro _ p E3).
  rewrite (z_number_intro _ _ mw E4), (z_number_intro _ _ pd E5), (z_number_intro _ _ z E6).
  rewrite (z_string_intro _ bg E8), (z_string_intro _ tx E9), (z_string_intro _ lk E10).
  split; reflexivity.
Qed.

(** X16.  The settings write and its audit entry are two calls, not one
    transaction.  When the store rejects the audit write (the fourth
    call) the route answers 500 [Failed to update settings], yet the
    settings are stored: as sent for an entitled shop, restricted
    otherwise. *)
Theorem settings_saved_though_answer_500
    (loadSession : Completion (option Session)) (request : Request)
    (w : World) (shop : string) (session : Session) (shopRecord : Shop)
    (body : JVal) (s : PopupSettings) (rest : list bool) :
  nonempty (req_shop request) = Some shop ->
  loadSession = Returned (Some session) ->
  find (fun r => String.eqb (shopifyDomain r) shop) (shops (tables w)) = Some shopRecord ->
  JSON_parse (req_body request) = Returned body ->
  popupSettingsSchema_parse URL_valid zod body = Returned s ->
  faults w = false :: false :: false :: true :: rest ->
  fst (save loadSession request w)
    = Returned (json_status [("error", JStr "Failed to update settings")] 500)
  /\ stored_setting (shop_id shopRecord) "popup_settings" (snd (save loadSession request w))
     = Some (PopupValue (if entitled (shop_id shopRecord) w then s else restrict s))
  /\ auditLogs (tables (snd (save loadSession request w))) = auditLogs (tables w).
Proof.
  intros Hshop -> Hfind Hparse Hschema Hq.
  destruct w as [t n f q]. cbn [tables faults] in *. subst f.
  destruct (entitled (shop_id shopRecord) (mkWorld t n (false :: false :: false :: true :: rest) q))
    eqn:He.
  - destruct (entitled_latest _ _ He) as (x & Hl & Hx). cbn [tables] in Hl.
    unfold POST_settings, authenticated, with_shop, stored_setting. rewrite Hshop.
    unfold_store. cbn. rewrite Hfind. cbn. rewrite Hparse. cbn. rewrite Hschema. cbn.
    rewrite Hl. cbn. rewrite Hx. cbn.
    split; [reflexivity|]. split; [|reflexivity].
    rewrite (find_upsert_setting
               (mkSetting (shop_id shopRecord) "popup_settings" (PopupValue s) (req_now request))).
    reflexivity.
  - pose proof (not_entitled_latest _ _ He) as Hl. cbn [tables] in Hl.
    unfold POST_settings, authenticated, with_shop, stored_setting. rewrite Hshop.
    unfold_store. cbn. rewrite Hfind. cbn. rewrite Hparse. cbn. rewrite Hschema. cbn.
    rewrite Hl. cbn.
    split; [reflexivity|]. split; [|reflexivity].
    rewrite (find_upsert_setting
               (mkSetting (shop_id shopRecord) "popup_settings" (PopupValue (restrict s))
                          (req_now request))).
    reflexivity.
Qed.

Lemma save_run_ok
    (loadSession : Completion (option Session)) (request : Request)
    (w : World) (shop : string) (session : Session) (shopRecord : Shop)
    (body : JVal) (s : PopupSettings) :
  nonempty (req_shop request) = Some shop ->
  loadSession = Returned (Some session) ->
  find (fun r => String.eqb (shopifyDomain r) shop) (shops (tables w)) = Some shopRecord ->
  JSON_parse (req_body request) = Returned body ->
  popupSettingsSchema_parse URL_valid zod body = Returned s ->
  faults w = [] ->
  exists entry,
    snd (save loadSession request w)
    = mkWorld (prisma.set_auditLogs (fun l => l ++ [entry])
                 (prisma.set_settings
                    (prisma.upsert_setting
                       (mkSetting (shop_id shopRecord) "popup_settings"
                          (PopupValue (if entitled (shop_id shopRecord) w then s else restrict s))
                          (req_now request)))
                    (tables w)))
              (next_id w) []
              (queries w ++ [ QShopFindUnique shop; QSubscriptionFindFirst (shop_id shopRecord);
                              QSettingUpsert (shop_id shopRecord) "popup_settings";
                              QAuditLogCreate (shop_id shopRecord) "settings_updated" ]).
Proof.
  intros Hshop -> Hfind Hparse Hschema Hq.
  destruct w as [t n f q]. cbn [tables faults next_id queries] in *. subst f.
  destruct (entitled (shop_id shopRecord) (mkWorld t n [] q)) eqn:He.
  - destruct (entitled_latest _ _ He) as (x & Hl & Hx). cbn [tables] in Hl.
    unfold POST_settings, authenticated, with_shop. rewrite Hshop.
    unfold_store. cbn. rewrite Hfind. cbn. rewrite Hparse. cbn. rewrite Hschema. cbn.
    rewrite Hl. cbn. rewrite Hx. cbn.
    eexists. rewrite <- !app_assoc. reflexivity.
  - pose proof (not_entitled_latest _ _ He) as Hl. cbn [tables] in Hl.
    unfold POST_settings, authenticated, with_shop. rewrite Hshop.
    unfold_store. cbn. rewrite Hfind. cbn. rewrite Hparse. cbn. rewrite Hschema. cbn.
    rewrite Hl. cbn.
    eexists. rewrite <- !app_assoc. reflexivity.
Qed.

Lemma get_run_ok
    (loadSession : Completion (option Session)) (request : Request)
    (w : World) (shop : string) (session : Session) (shopRecord : Shop) :
  nonempty (req_shop request) = Some shop ->
  loadSession = Returned (Some session) ->
  find (fun r => String.eqb (shopifyDomain r) shop) (shops (tables w)) = Some shopRecord ->
  faults w = [] ->
  GET_settings loadSession request w
  = (Returned
       (json [ ("success", JBool true);
               ("data",
                JObj [ ("popupSettings",
                        js_or (stored_json (shop_id shopRecord) "popup_settings" w)
                              (json_of_settings default_popup_settings));
                       ("themeInfo", stored_json (shop_id shopRecord) "theme_info" w);
                       ("themeChangeNotification",
                        stored_json (shop_id shopRecord) "theme_change_notification" w) ]) ]),
     mkWorld (tables w) (next_id w) [] (queries w ++ [QShopFindUnique shop])).
Proof.
  intros Hshop -> Hfind Hq.
  destruct w as [t n f q]. cbn [tables faults next_id queries] in *. subst f.
  unfold GET_settings, authenticated, with_shop, stored_json, stored_setting. rewrite Hshop.
  unfold db_getShopSettings, prisma_setting_findUnique, client_call_unlisted.
  unfold_store. cbn. rewrite Hfind. cbn.
  repeat match goal with
         | |- context [find ?p (settings t)] =>
             let E := fresh "E" in destruct (find p (settings t)) eqn:E
         end; reflexivity.
Qed.

(** X17.  What is saved is what is read.  After a settings POST in
    which every store call succeeded, a GET for the same shop answers
    under [popupSettings] the settings the POST stored (as sent for an
    entitled shop, restricted otherwise), and under [themeInfo] and
    [themeChangeNotification] what was stored before the POST. *)
Theorem settings_get_after_post
    (loadSession : Completion (option Session)) (request request' : Request)
    (w : World) (shop : string) (session : Session) (shopRecord : Shop)
    (body : JVal) (s : PopupSettings) :
  nonempty (req_shop request) = Some shop ->
  nonempty (req_shop request') = Some shop ->
  loadSession = Returned (Some session) ->
  find (fun r => String.eqb (shopifyDomain r) shop) (shops (tables w)) = Some shopRecord ->
  JSON_parse (req_body request) = Returned body ->
  popupSettingsSchema_parse URL_valid zod body = Returned s ->
  faults w = [] ->
  fst (GET_settings loadSession request' (snd (save loadSession request w)))
  = Returned
      (json [ ("success", JBool true);
              ("data",
               JObj [ ("popupSettings",
                       json_of_settings
                         (if entitled (shop_id shopRecord) w then s else restrict s));
                      ("themeInfo", stored_json (shop_id shopRecord) "theme_info" w);
                      ("themeChangeNotification",
                       stored_json (shop_id shopRecord) "theme_change_notification" w) ]) ]).
Proof.
  intros Hshop Hshop' Hsess Hfind Hparse Hschema Hq.
  destruct (save_run_ok loadSession request w shop session shopRecord body s
              Hshop Hsess Hfind Hparse Hschema Hq) as (entry & Hrun).
  rewrite Hrun.
  rewrite (get_run_ok loadSession request' _ shop session shopRecord Hshop' Hsess);
    [|exact Hfind|reflexivity].
  cbn [fst]. unfold stored_json, stored_setting. cbn [tables settings prisma.set_settings
    prisma.set_auditLogs].
  rewrite (find_upsert_setting
             (mkSetting (shop_id shopRecord) "popup_settings"
                (PopupValue (if entitled (shop_id shopRecord) w then s else restrict s))
                (req_now request))).
  rewrite !find_upsert_setting_other by (cbn; now rewrite String.eqb_refl).
  reflexivity.
Qed.

(** X18.  The GET route only reads: whatever the request and the
    store's answers, no table changes.  For a shop that has stored no
    popup settings it answers the defaults; these pass the schema and
    are what the gate would restrict them to, so a shop without a
    subscription can save them as they are. *)
Theorem settings_get_defaults
    (loadSession : Completion (option Session)) (request : Request) (w : World) :
  tables (snd (GET_settings loadSession request w)) = tables w
  /\ (forall shop session shopRecord,
        nonempty (req_shop request) = Some shop ->
        loadSession = Returned (Some session) ->
        find (fun r => String.eqb (shopifyDomain r) shop) (shops (tables w))
          = Some shopRecord ->
        stored_setting (shop_id shopRecord) "popup_settings" w = None ->
        faults w = [] ->
        exists themeInfo themeChangeNotification,
          fst (GET_settings loadSession request w)
          = Returned
              (json [ ("success", JBool true);
                      ("data",
                       JObj [ ("popupSettings", json_of_settings default_popup_settings);
                              ("themeInfo", themeInfo);
                              ("themeChangeNotification", themeChangeNotification) ]) ]))
  /\ restrict default_popup_settings = default_popup_settings
  /\ popupSettingsSchema_parse URL_valid zod (json_of_settings default_popup_settings)
     = Returned default_popup_settings.
Proof.
  split; [|split; [|split]].
  - destruct w as [t n f q].
    unfold GET_settings, authenticated, with_shop.
    unfold db_getShopSettings, prisma_setting_findUnique, prisma_setting_findMany,
      client_call_unlisted.
    unfold_store.
    cbn [nonempty]. run_all; reflexivity.
  - intros shop session shopRecord Hshop Hsess Hfind Hnone Hq.
    rewrite (get_run_ok loadSession request w shop session shopRecord Hshop Hsess Hfind Hq).
    unfold stored_json at 1. rewrite Hnone. cbn [fst js_or truthy].
    do 2 eexists. reflexivity.
  - reflexivity.
  - vm_compute. destruct (URL_valid "/pages/privacy-policy"); reflexivity.
Qed.

(** *** [api/billing/subscribe] *)

(** X19.  A shop that has a subscription in status ACTIVE cannot
    subscribe again: the route answers 400, whatever the provider would
    have said, and no table changes. *)
Theorem subscribe_refused_when_active
    (loadSession : Completion (option Session))
    (createAppSubscription : option Plan -> bool -> Completion CreateResult)
    (request : Request) (w : World) (shop : string) (session : Session)
    (shopRecord : Shop) (body : JVal) (parsed : string * bool) :
  nonempty (req_shop request) = Some shop ->
  loadSession = Returned (Some session) ->
  JSON_parse (req_body request) = Returned body ->
  subscribeSchema_parse zod body = Returned parsed ->
  find (fun r => String.eqb (shopifyDomain r) shop) (shops (tables w)) = Some shopRecord ->
  entitled (shop_id shopRecord) w = true ->
  faults w = [] ->
  fst (subscribe loadSession createAppSubscription request w)
    = Returned (json_status [("error", JStr "Shop already has an active subscription")] 400)
  /\ tables (snd (subscribe loadSession createAppSubscription request w)) = tables w.
Proof.
  intros Hshop Hsess Hparse Hschema Hfind He Hq.
  destruct (entitled_latest _ _ He) as (x & Hl & _).
  destruct w as [t n f q]. cbn [tables faults next_id queries] in *. subst f loadSession.
  unfold POST_billing_subscribe, authenticated, with_shop. rewrite Hshop.
  unfold_store. cbn. rewrite Hparse. cbn. rewrite Hschema. cbn. rewrite Hfind. cbn.
  rewrite Hl. cbn. split; reflexivity.
Qed.

(** X20.  Nothing is stored unless the provider created the
    subscription.  When the provider answers with [userErrors] the
    route answers 400 with the messages joined by a comma and a space
    (for messages that are strings: the first, then [", "] and the next,
    and so on); when it answers without an [appSubscription], or the
    call throws, the route answers 500; in each case no table changes. *)
Theorem subscribe_provider_failure_stores_nothing
    (loadSession : Completion (option Session))
    (createAppSubscription : option Plan -> bool -> Completion CreateResult)
    (request : Request) (w : World) (shop : string) (session : Session)
    (shopRecord : Shop) (body : JVal) (planId : string) (test : bool) :
  nonempty (req_shop request) = Some shop ->
  loadSession = Returned (Some session) ->
  JSON_parse (req_body request) = Returned body ->
  subscribeSchema_parse zod body = Returned (planId, test) ->
  find (fun r => String.eqb (shopifyDomain r) shop) (shops (tables w)) = Some shopRecord ->
  entitled (shop_id shopRecord) w = false ->
  faults w = [] ->
  (forall (result : CreateResult) (e : JVal) (errors ms : list JVal),
     createAppSubscription (selectedPlan_of planId) test = Returned result ->
     create_userErrors result = Some (e :: errors) ->
     messages_of (e :: errors) = Returned ms ->
     fst (subscribe loadSession createAppSubscription request w)
       = Returned (json_status
                     [("error",
                       JStr ("Subscription creation failed: " ++ array_join ", " ms)%string)]
                     400)
     /\ tables (snd (subscribe loadSession createAppSubscription request w)) = tables w)
  /\
  (forall (result : CreateResult) (e : JVal) (errors : list JVal) (texts : list string),
     createAppSubscription (selectedPlan_of planId) test = Returned result ->
     create_userErrors result = Some (e :: errors) ->
     Forall2 (fun err text => get_prop err "message" = Returned (JStr text))
             (e :: errors) texts ->
     fst (subscribe loadSession createAppSubscription request w)
       = Returned (json_status
                     [("error",
                       JStr ("Subscription creation failed: "
                             ++ String.concat ", " texts)%string)]
                     400))
  /\
  (forall (result : CreateResult),
     createAppSubscription (selectedPlan_of planId) test = Returned result ->
     has_userErrors (create_userErrors result) = None ->
     create_appSubscription result = None ->
     fst (subscribe loadSession createAppSubscription request w)
       = Returned (json_status [("error", JStr "Failed to create subscription")] 500)
     /\ tables (snd (subscribe loadSession createAppSubscription request w)) = tables w)
  /\
  (forall (m : string),
     createAppSubscription (selectedPlan_of planId) test = Thrown (ProviderError m) ->
     fst (subscribe loadSession createAppSubscription request w)
       = Returned (json_status [("error", JStr "Failed to create subscription")] 500)
     /\ tables (snd (subscribe loadSession createAppSubscription request w)) = tables w).
Proof.
  intros Hshop Hsess Hparse Hschema Hfind He Hq.
  pose proof (not_entitled_latest _ _ He) as Hl.
  destruct w as [t n f q]. cbn [tables faults next_id queries] in *. subst f loadSession.
  split; [|split; [|split]].
  - intros result e errors ms Hres Herr Hms.
    unfold POST_billing_subscribe, authenticated, with_shop. rewrite Hshop.
    unfold_store. cbn. rewrite Hparse. cbn. rewrite Hschema. cbn. rewrite Hfind. cbn.
    rewrite Hl. cbn. rewrite Hres. cbn. rewrite Herr. cbn. rewrite Hms. cbn.
    split; reflexivity.
  - intros result e errors texts Hres Herr Htexts.
    unfold POST_billing_subscribe, authenticated, with_shop. rewrite Hshop.
    unfold_store. cbn. rewrite Hparse. cbn. rewrite Hschema. cbn. rewrite Hfind. cbn.
    rewrite Hl. cbn. rewrite Hres. cbn. rewrite Herr. cbn.
    rewrite (messages_of_texts _ _ Htexts). cbn. rewrite array_join_texts.
    reflexivity.
  - intros result Hres Hnone Happ.
    unfold POST_billing_subscribe, authenticated, with_shop. rewrite Hshop.
    unfold_store. cbn. rewrite Hparse. cbn. rewrite Hschema. cbn. rewrite Hfind. cbn.
    rewrite Hl. cbn. rewrite Hres. cbn. rewrite Hnone, Happ. cbn.
    split; reflexivity.
  - intros m Hres.
    unfold POST_billing_subscribe, authenticated, with_shop. rewrite Hshop.
    unfold_store. cbn. rewrite Hparse. cbn. rewrite Hschema. cbn. rewrite Hfind. cbn.
    rewrite Hl. cbn. rewrite Hres. cbn.
    split; reflexivity.
Qed.

Lemma subscribe_run_ok
    (loadSession : Completion (option Session))
    (createAppSubscription : option Plan -> bool -> Completion CreateResult)
    (request : Request) (w : World) (shop : string) (session : Session)
    (shopRecord : Shop) (body : JVal) (planId : string) (test : bool) (plan : Plan)
    (result : CreateResult) (app : AppSubscription) :
  nonempty (req_shop request) = Some shop ->
  loadSession = Returned (Some session) ->
  JSON_parse (req_body request) = Returned body ->
  subscribeSchema_parse zod body = Returned (planId, test) ->
  find (fun r => String.eqb (shopifyDomain r) shop) (shops (tables w)) = Some shopRecord ->
  entitled (shop_id shopRecord) w = false ->
  selectedPlan_of planId = Some plan ->
  createAppSubscription (Some plan) test = Returned result ->
  has_userErrors (create_userErrors result) = None ->
  create_appSubscription result = Some app ->
  existsb (fun s => String.eqb (shopifySubscriptionId s) (as_id app))
          (subscriptions (tables w)) = false ->
  faults w = [] ->
  let row :=
    mkSubscription ("sub_" ++ NilZero.string_of_uint (Nat.to_uint (next_id w)))%string
      (shop_id shopRecord) (as_id app) (as_name app) PENDING (plan_price plan)
      (plan_currency plan) (plan_interval plan)
      (trialEnd_of (req_now request) (as_trialDays app)) None test
      (req_now request) (req_now request) in
  let entry :=
    mkAuditLog (shop_id shopRecord) "subscription_created" (Some "subscription")
      (Some (sub_id row))
      [ ("planId", DJson (JStr planId)); ("price", DJson (JStr (plan_price plan)));
        ("currency", DJson (JStr (plan_currency plan)));
        ("trialDays", DJson (JNum (plan_trialDays plan))); ("test", DJson (JBool test));
        ("shopifySubscriptionId", DJson (JStr (as_id app))) ]
      (userAgent_of request) (ipAddress_of request) in
    subscribe loadSession createAppSubscription request w
    = (Returned
         (json [ ("success", JBool true);
                 ("subscription",
                  JObj [ ("id", JStr (sub_id row)); ("name", JStr (as_name app));
                         ("status", JStr "PENDING"); ("price", JStr (plan_price plan));
                         ("currency", JStr (plan_currency plan));
                         ("trialEnd", json_of_time (sub_trialEnd row)) ]);
                 ("confirmationUrl", create_confirmationUrl result) ]),
       mkWorld (prisma.set_auditLogs (fun l => l ++ [entry])
                  (prisma.set_subscriptions (fun l => l ++ [row]) (tables w)))
               (S (next_id w)) []
               (queries w ++ [ QShopFindUnique shop; QSubscriptionFindFirst (shop_id shopRecord);
                               QSubscriptionCreate (as_id app);
                               QAuditLogCreate (shop_id shopRecord) "subscription_created" ])).
Proof.
  intros Hshop Hsess Hparse Hschema Hfind He Hplan Hres Hnone Happ Hfresh Hq.
  pose proof (not_entitled_latest _ _ He) as Hl.
  destruct w as [t n f q]. cbn [tables faults next_id queries] in *. subst f loadSession.
  unfold POST_billing_subscribe, authenticated, with_shop. rewrite Hshop.
  unfold_store. cbn. rewrite Hparse. cbn. rewrite Hschema. cbn. rewrite Hfind. cbn.
  rewrite Hl. cbn. rewrite Hplan, Hres. cbn. rewrite Hnone, Happ. cbn.
  rewrite Hfresh. cbn.
  rewrite <- !app_assoc. reflexivity.
Qed.

(** X21.  A granted subscribe request, every store call succeeding:
    the answer is 200; exactly one subscription row is appended, in
    status PENDING, for the shop, under the provider's id, at the
    selected plan's price; its trial ends [trialDays] days of 86400000
    ms after the request when the provider names a number of trial days
    other than zero, and it has no trial end otherwise; the answer
    carries the row's id, name, status, price, currency and trial end
    and the provider's confirmation URL; one [subscription_created]
    entry naming the new row is appended; and the shop is no more
    entitled than before: the row does not count until it is
    activated. *)
Theorem subscribe_stores_pending_row
    (loadSession : Completion (option Session))
    (createAppSubscription : option Plan -> bool -> Completion CreateResult)
    (request : Request) (w : World) (shop : string) (session : Session)
    (shopRecord : Shop) (body : JVal) (planId : string) (test : bool) (plan : Plan)
    (result : CreateResult) (app : AppSubscription) :
  nonempty (req_shop request) = Some shop ->
  loadSession = Returned (Some session) ->
  JSON_parse (req_body request) = Returned body ->
  subscribeSchema_parse zod body = Returned (planId, test) ->
  find (fun r => String.eqb (shopifyDomain r) shop) (shops (tables w)) = Some shopRecord ->
  entitled (shop_id shopRecord) w = false ->
  selectedPlan_of planId = Some plan ->
  createAppSubscription (Some plan) test = Returned result ->
  has_userErrors (create_userErrors result) = None ->
  create_appSubscription result = Some app ->
  existsb (fun s => String.eqb (shopifySubscriptionId s) (as_id app))
          (subscriptions (tables w)) = false ->
  faults w = [] ->
  res_status_of (fst (subscribe loadSession createAppSubscription request w)) = Some 200
  /\ (exists (row : Subscription) (entry : AuditLog),
        subscriptions (tables (snd (subscribe loadSession createAppSubscription request w)))
          = subscriptions (tables w) ++ [row]
        /\ sub_status row = PENDING
        /\ sub_shopId row = shop_id shopRecord
        /\ shopifySubscriptionId row = as_id app
        /\ sub_price row = plan_price plan
        /\ (forall days, as_trialDays app = Some days -> days <> 0 ->
            sub_trialEnd row = Some (req_now request + days * 86400000))
        /\ (as_trialDays app = None \/ as_trialDays app = Some 0 -> sub_trialEnd row = None)
        /\ fst (subscribe loadSession createAppSubscription request w)
           = Returned
               (json [ ("success", JBool true);
                       ("subscription",
                        JObj [ ("id", JStr (sub_id row)); ("name", JStr (as_name app));
                               ("status", JStr "PENDING"); ("price", JStr (plan_price plan));
                               ("currency", JStr (plan_currency plan));
                               ("trialEnd",
                                match sub_trialEnd row with
                                | Some ms => JNum ms
                                | None => JNull
                                end) ]);
                       ("confirmationUrl", create_confirmationUrl result) ])
        /\ auditLogs (tables (snd (subscribe loadSession createAppSubscription request w)))
           = auditLogs (tables w) ++ [entry]
        /\ action entry = "subscription_created"
        /\ resourceId entry = Some (sub_id row))
  /\ entitled (shop_id shopRecord) (snd (subscribe loadSession createAppSubscription request w))
     = false.
Proof.
  intros Hshop Hsess Hparse Hschema Hfind He Hplan Hres Hnone Happ Hfresh Hq.
  rewrite (subscribe_run_ok loadSession createAppSubscription request w shop session
             shopRecord body planId test plan result app
             Hshop Hsess Hparse Hschema Hfind He Hplan Hres Hnone Happ Hfresh Hq).
  cbn [fst snd res_status_of].
  split; [reflexivity|]. split.
  - do 2 eexists. cbn [tables subscriptions auditLogs prisma.set_auditLogs
                        prisma.set_subscriptions].
    split; [reflexivity|]. split; [reflexivity|]. split; [reflexivity|].
    split; [reflexivity|]. split; [reflexivity|].
    cbn [sub_trialEnd sub_id].
    split; [|split; [|split; [|split; [|split]]]]; try reflexivity.
    + intros days Hdays Hnz. rewrite Hdays. unfold trialEnd_of.
      destruct (Z.eqb_spec days 0) as [?|_]; [contradiction|]. f_equal. lia.
    + intros [Hnone'|Hzero]; [rewrite Hnone' | rewrite Hzero]; reflexivity.
  - unfold entitled in *. cbn. rewrite existsb_app_one, He. cbn. apply andb_false_r.
Qed.

(** X22.  The provider's subscription and the store row are not one
    transaction.  After the provider has created the subscription, a
    rejected [subscription.create] (the third call) gives 500 with no
    row stored; a rejected audit write (the fourth call) gives 500 with
    the row stored and no entry. *)
Theorem subscribe_store_failures
    (loadSession : Completion (option Session))
    (createAppSubscription : option Plan -> bool -> Completion CreateResult)
    (request : Request) (w : World) (shop : string) (session : Session)
    (shopRecord : Shop) (body : JVal) (planId : string) (test : bool) (plan : Plan)
    (result : CreateResult) (app : AppSubscription) :
  nonempty (req_shop request) = Some shop ->
  loadSession = Returned (Some session) ->
  JSON_parse (req_body request) = Returned body ->
  subscribeSchema_parse zod body = Returned (planId, test) ->
  find (fun r => String.eqb (shopifyDomain r) shop) (shops (tables w)) = Some shopRecord ->
  entitled (shop_id shopRecord) w = false ->
  selectedPlan_of planId = Some plan ->
  createAppSubscription (Some plan) test = Returned result ->
  has_userErrors (create_userErrors result) = None ->
  create_appSubscription result = Some app ->
  existsb (fun s => String.eqb (shopifySubscriptionId s) (as_id app))
          (subscriptions (tables w)) = false ->
  (forall rest,
     faults w = false :: false :: true :: rest ->
     fst (subscribe loadSession createAppSubscription request w)
       = Returned (json_status [("error", JStr "Failed to create subscription")] 500)
     /\ tables (snd (subscribe loadSession createAppSubscription request w)) = tables w)
  /\
  (forall rest,
     faults w = false :: false :: false :: true :: rest ->
     fst (subscribe loadSession createAppSubscription request w)
       = Returned (json_status [("error", JStr "Failed to create subscription")] 500)
     /\ (exists row,
           subscriptions (tables (snd (subscribe loadSession createAppSubscription request w)))
             = subscriptions (tables w) ++ [row]
           /\ shopifySubscriptionId row = as_id app)
     /\ auditLogs (tables (snd (subscribe loadSession createAppSubscription request w)))
        = auditLogs (tables w)).
Proof.
  intros Hshop Hsess Hparse Hschema Hfind He Hplan Hres Hnone Happ Hfresh.
  pose proof (not_entitled_latest _ _ He) as Hl.
  destruct w as [t n f q]. cbn [tables faults next_id queries] in *. subst loadSession.
  split; intros rest ->.
  - unfold POST_billing_subscribe, authenticated, with_shop. rewrite Hshop.
    unfold_store. cbn. rewrite Hparse. cbn. rewrite Hschema. cbn. rewrite Hfind. cbn.
    rewrite Hl. cbn. rewrite Hplan, Hres. cbn. rewrite Hnone, Happ. cbn.
    split; reflexivity.
  - unfold POST_billing_subscribe, authenticated, with_shop. rewrite Hshop.
    unfold_store. cbn. rewrite Hparse. cbn. rewrite Hschema. cbn. rewrite Hfind. cbn.
    rewrite Hl. cbn. rewrite Hplan, Hres. cbn. rewrite Hnone, Happ. cbn.
    rewrite Hfresh. cbn.
    split; [reflexivity|]. split; [|reflexivity].
    eexists. split; reflexivity.
Qed.

(** *** [api/billing/cancel] *)

(** X23.  A shop without a subscription in status ACTIVE has nothing to
    cancel: the route answers 404, whatever the provider would have
    said, and no table changes. *)
Theorem cancel_without_active_subscription
    (loadSession : Completion (option Session))
    (cancelAppSubscription : string -> Completion CancelResult)
    (request : Request) (w : World) (shop : string) (session : Session) (shopRecord : Shop) :
  nonempty (req_shop request) = Some shop ->
  loadSession = Returned (Some session) ->
  find (fun r => String.eqb (shopifyDomain r) shop) (shops (tables w)) = Some shopRecord ->
  entitled (shop_id shopRecord) w = false ->
  faults w = [] ->
  fst (cancel loadSession cancelAppSubscription request w)
    = Returned (json_status [("error", JStr "No active subscription found")] 404)
  /\ tables (snd (cancel loadSession cancelAppSubscription request w)) = tables w.
Proof.
  intros Hshop -> Hfind He Hq.
  pose proof (not_entitled_latest _ _ He) as Hl.
  destruct w as [t n f q]. cbn [tables faults next_id queries] in *. subst f.
  unfold POST_billing_cancel, authenticated, with_shop. rewrite Hshop.
  unfold_store. cbn. rewrite Hfind. cbn. rewrite Hl. cbn. split; reflexivity.
Qed.

Lemma cancel_run_ok
    (loadSession : Completion (option Session))
    (cancelAppSubscription : string -> Completion CancelResult)
    (request : Request) (w : World) (shop : string) (session : Session)
    (shopRecord : Shop) (active : Subscription) (result : CancelResult) :
  nonempty (req_shop request) = Some shop ->
  loadSession = Returned (Some session) ->
  find (fun r => String.eqb (shopifyDomain r) shop) (shops (tables w)) = Some shopRecord ->
  prisma.latest (filter (fun s => String.eqb (sub_shopId s) (shop_id shopRecord)
                                  && status_eqb (sub_status s) ACTIVE)
                        (subscriptions (tables w))) = Some active ->
  cancelAppSubscription (shopifySubscriptionId active) = Returned result ->
  has_userErrors (cancel_userErrors result) = None ->
  faults w = [] ->
  exists entry,
    snd (cancel loadSession cancelAppSubscription request w)
    = mkWorld (prisma.set_auditLogs (fun l => l ++ [entry])
                 (prisma.set_subscriptions
                    (prisma.update_where (shopifySubscriptionId active)
                       (cancelled (req_now request)))
                    (tables w)))
              (next_id w) []
              (queries w ++ [ QShopFindUnique shop; QSubscriptionFindFirst (shop_id shopRecord);
                              QSubscriptionUpdate (shopifySubscriptionId active);
                              QAuditLogCreate (shop_id shopRecord) "subscription_cancelled" ]).
Proof.
  intros Hshop -> Hfind Hactive Hres Hnone Hq.
  destruct w as [t n f q]. cbn [tables faults next_id queries] in *. subst f.
  assert (exists y, find (fun s => String.eqb (shopifySubscriptionId s)
                                     (shopifySubscriptionId active))
                         (subscriptions t) = Some y) as (y & Hy).
  { apply find_present with (x := active).
    - apply latest_in in Hactive. apply filter_In in Hactive. exact (proj1 Hactive).
    - apply String.eqb_refl. }
  unfold POST_billing_cancel, authenticated, with_shop. rewrite Hshop.
  unfold_store. cbn. rewrite Hfind. cbn. rewrite Hactive. cbn. rewrite Hres. cbn.
  rewrite Hnone. cbn. rewrite Hy. cbn.
  eexists. rewrite <- !app_assoc. reflexivity.
Qed.

Lemma save_run_restricted
    (loadSession : Completion (option Session)) (request : Request)
    (w : World) (shop : string) (session : Session) (shopRecord : Shop)
    (body : JVal) (s : PopupSettings) :
  nonempty (req_shop request) = Some shop ->
  loadSession = Returned (Some session) ->
  find (fun r => String.eqb (shopifyDomain r) shop) (shops (tables w)) = Some shopRecord ->
  JSON_parse (req_body request) = Returned body ->
  popupSettingsSchema_parse URL_valid zod body = Returned s ->
  entitled (shop_id shopRecord) w = false ->
  faults w = [] ->
  stored_setting (shop_id shopRecord) "popup_settings" (snd (save loadSession request w))
  = Some (PopupValue (restrict s)).
Proof.
  intros Hshop -> Hfind Hparse Hschema He Hq.
  pose proof (not_entitled_latest _ _ He) as Hl.
  destruct w as [t n f q]. cbn [tables faults] in *. subst f.
  unfold POST_settings, authenticated, with_shop, stored_setting. rewrite Hshop.
  unfold_store. cbn. rewrite Hfind. cbn. rewrite Hparse. cbn. rewrite Hschema. cbn.
  rewrite Hl. cbn.
  rewrite (find_upsert_setting
             (mkSetting (shop_id shopRecord) "popup_settings" (PopupValue (restrict s))
                        (req_now request))).
  reflexivity.
Qed.

(** X24.  Cancelling gives up the custom colours.  When the shop's only
    ACTIVE subscription is cancelled (subscription ids being unique),
    the shop is no longer entitled, and the settings it saves next are
    stored restricted to the default colours. *)
Theorem cancel_then_settings_restricted
    (loadSession : Completion (option Session))
    (cancelAppSubscription : string -> Completion CancelResult)
    (request request' : Request) (w : World) (shop : string) (session : Session)
    (shopRecord : Shop) (active : Subscription) (result : CancelResult)
    (body : JVal) (s : PopupSettings) :
  nonempty (req_shop request) = Some shop ->
  nonempty (req_shop request') = Some shop ->
  loadSession = Returned (Some session) ->
  find (fun r => String.eqb (shopifyDomain r) shop) (shops (tables w)) = Some shopRecord ->
  prisma.latest (filter (fun s => String.eqb (sub_shopId s) (shop_id shopRecord)
                                  && status_eqb (sub_status s) ACTIVE)
                        (subscriptions (tables w))) = Some active ->
  active_count (shop_id shopRecord) w = 1%nat ->
  NoDup (map shopifySubscriptionId (subscriptions (tables w))) ->
  cancelAppSubscription (shopifySubscriptionId active) = Returned result ->
  has_userErrors (cancel_userErrors result) = None ->
  JSON_parse (req_body request') = Returned body ->
  popupSettingsSchema_parse URL_valid zod body = Returned s ->
  faults w = [] ->
  entitled (shop_id shopRecord) (snd (cancel loadSession cancelAppSubscription request w))
    = false
  /\ stored_setting (shop_id shopRecord) "popup_settings"
       (snd (save loadSession request'
               (snd (cancel loadSession cancelAppSubscription request w))))
     = Some (PopupValue (restrict s)).
Proof.
  intros Hshop Hshop' Hsess Hfind Hactive Hcount Hnd Hres Hnone Hparse Hschema Hq.
  destruct (cancel_run_ok loadSession cancelAppSubscription request w shop session shopRecord
              active result Hshop Hsess Hfind Hactive Hres Hnone Hq) as (entry & Hrun).
  assert (entitled (shop_id shopRecord)
            (snd (cancel loadSession cancelAppSubscription request w)) = false) as He.
  { rewrite Hrun. unfold entitled. cbn.
    apply (update_where_last_active (shop_id shopRecord) _ _ _ active Hnd); [|reflexivity].
    apply latest_singleton; [exact Hactive | exact Hcount]. }
  split; [exact He|].
  apply (save_run_restricted loadSession request' _ shop session shopRecord body s);
    try assumption.
  - rewrite Hrun. cbn. exact Hfind.
  - rewrite Hrun. reflexivity.
Qed.

(** X25.  The provider's cancellation and the store are not one
    transaction.  After the provider has cancelled, a rejected status
    update (the third call) gives 500 with no table changed, so the
    store still has the subscription ACTIVE; a rejected audit write (the
    fourth call) gives 500 with the status CANCELLED and no entry. *)
Theorem cancel_store_failures
    (loadSession : Completion (option Session))
    (cancelAppSubscription : string -> Completion CancelResult)
    (request : Request) (w : World) (shop : string) (session : Session)
    (shopRecord : Shop) (active : Subscription) (result : CancelResult) :
  nonempty (req_shop request) = Some shop ->
  loadSession = Returned (Some session) ->
  find (fun r => String.eqb (shopifyDomain r) shop) (shops (tables w)) = Some shopRecord ->
  prisma.latest (filter (fun s => String.eqb (sub_shopId s) (shop_id shopRecord)
                                  && status_eqb (sub_status s) ACTIVE)
                        (subscriptions (tables w))) = Some active ->
  cancelAppSubscription (shopifySubscriptionId active) = Returned result ->
  has_userErrors (cancel_userErrors result) = None ->
  (forall rest,
     faults w = false :: false :: true :: rest ->
     fst (cancel loadSession cancelAppSubscription request w)
       = Returned (json_status [("error", JStr "Failed to cancel subscription")] 500)
     /\ tables (snd (cancel loadSession cancelAppSubscription request w)) = tables w)
  /\
  (forall rest,
     faults w = false :: false :: false :: true :: rest ->
     fst (cancel loadSession cancelAppSubscription request w)
       = Returned (json_status [("error", JStr "Failed to cancel subscription")] 500)
     /\ status_view (snd (cancel loadSession cancelAppSubscription request w))
        = overwrite (shopifySubscriptionId active) CANCELLED (status_view w)
     /\ auditLogs (tables (snd (cancel loadSession cancelAppSubscription request w)))
        = auditLogs (tables w)).
Proof.
  intros Hshop -> Hfind Hactive Hres Hnone.
  destruct w as [t n f q]. cbn [tables faults next_id queries] in *.
  assert (exists y, find (fun s => String.eqb (shopifySubscriptionId s)
                                     (shopifySubscriptionId active))
                         (subscriptions t) = Some y) as (y & Hy).
  { apply find_present with (x := active).
    - apply latest_in in Hactive. apply filter_In in Hactive. exact (proj1 Hactive).
    - apply String.eqb_refl. }
  split; intros rest ->.
  - unfold POST_billing_cancel, authenticated, with_shop. rewrite Hshop.
    unfold_store. cbn. rewrite Hfind. cbn. rewrite Hactive. cbn. rewrite Hres. cbn.
    rewrite Hnone. cbn. split; reflexivity.
  - unfold POST_billing_cancel, authenticated, with_shop, status_view. rewrite Hshop.
    unfold_store. cbn. rewrite Hfind. cbn. rewrite Hactive. cbn. rewrite Hres. cbn.
    rewrite Hnone. cbn. rewrite Hy. cbn.
    split; [reflexivity|]. split; [|reflexivity].
    apply view_update_where; intros; split; reflexivity.
Qed.

(** X26.  The billing portal only reads: whatever the request and the
    answers of the store and the provider, no table changes.  On a
    request that gets through it reports [hasActiveSubscription] exactly
    when the shop is entitled, hands on the provider's list, and for an
    active subscription with a trial end [e] reports [daysRemaining] as
    the number of started days from now to [e]: never negative, zero
    once [e] has passed, and otherwise the least [d] with [e] at most
    [d] days ahead. *)
Theorem billing_portal_reads_only
    (loadSession : Completion (option Session)) (getAppSubscriptions : Completion JVal)
    (request : Request) (w : World) :
  tables (snd (GET_billing loadSession getAppSubscriptions request w)) = tables w
  /\ forall shop session shopRecord subs,
       nonempty (req_shop request) = Some shop ->
       loadSession = Returned (Some session) ->
       find (fun r => String.eqb (shopifyDomain r) shop) (shops (tables w))
         = Some shopRecord ->
       getAppSubscriptions = Returned subs ->
       faults w = [] ->
       exists data,
         fst (GET_billing loadSession getAppSubscriptions request w)
           = Returned (json [ ("success", JBool true); ("data", JObj data) ])
         /\ assoc "hasActiveSubscription" data
            = Some (JBool (entitled (shop_id shopRecord) w))
         /\ assoc "shopifySubscriptions" data = Some subs
         /\ forall active e,
              prisma.latest (filter (fun s => String.eqb (sub_shopId s) (shop_id shopRecord)
                                              && status_eqb (sub_status s) ACTIVE)
                                    (subscriptions (tables w))) = Some active ->
              sub_trialEnd active = Some e ->
              exists d,
                assoc "trialInfo" data
                  = Some (JObj [ ("trialEnd", JNum e); ("daysRemaining", JNum d) ])
                /\ 0 <= d
                /\ (e <= req_now request -> d = 0)
                /\ (req_now request < e ->
                    (d - 1) * 86400000 < e - req_now request <= d * 86400000).
Proof.
  split.
  - destruct w as [t n f q].
    unfold GET_billing, authenticated, with_shop. unfold_store.
    repeat (run_step; cbn [fst snd tables]); reflexivity.
  - intros shop session shopRecord subs Hshop -> Hfind -> Hq.
    destruct w as [t n f q]. cbn [tables faults] in *. subst f.
    unfold GET_billing, authenticated, with_shop. rewrite Hshop.
    unfold_store. cbn. rewrite Hfind. cbn.
    destruct (entitled (shop_id shopRecord) (mkWorld t n [] q)) eqn:He.
    + destruct (entitled_latest _ _ He) as (x & Hl & _). cbn [tables] in Hl.
      rewrite Hl. cbn. eexists. split; [reflexivity|].
      split; [reflexivity|]. split; [reflexivity|].
      intros active e [= <-] He'. cbn. unfold trialInfo_of. rewrite He'.
      eexists. split; [reflexivity|]. apply daysRemaining_bounds.
    + pose proof (not_entitled_latest _ _ He) as Hl. cbn [tables] in Hl.
      rewrite Hl. cbn. eexists. split; [reflexivity|].
      split; [reflexivity|]. split; [reflexivity|].
      intros active e Habs. discriminate.
Qed.

(** X27.  The admin routes never delete.  Whatever the request, the
    answers of the session store and the provider, and the calls the
    store rejects: the settings, subscribe and cancel routes leave the
    shop rows and the sessions as they were and only append to the audit
    log; the settings route leaves the subscriptions alone, the billing
    routes leave the settings alone; subscribing only appends
    subscription rows and cancelling keeps every row's id. *)
Theorem admin_handlers_never_delete
    (loadSession : Completion (option Session))
    (cancelAppSubscription : string -> Completion CancelResult)
    (createAppSubscription : option Plan -> bool -> Completion CreateResult)
    (request : Request) (w : World) :
  (kept_and_logged w (snd (save loadSession request w))
   /\ subscriptions (tables (snd (save loadSession request w))) = subscriptions (tables w))
  /\
  (kept_and_logged w (snd (subscribe loadSession createAppSubscription request w))
   /\ settings (tables (snd (subscribe loadSession createAppSubscription request w)))
      = settings (tables w)
   /\ exists more,
        subscriptions (tables (snd (subscribe loadSession createAppSubscription request w)))
        = subscriptions (tables w) ++ more)
  /\
  (kept_and_logged w (snd (cancel loadSession cancelAppSubscription request w))
   /\ settings (tables (snd (cancel loadSession cancelAppSubscription request w)))
      = settings (tables w)
   /\ map sub_id (subscriptions (tables (snd (cancel loadSession cancelAppSubscription
                                                request w))))
      = map sub_id (subscriptions (tables w))).
Proof.
  destruct w as [t n f q]. unfold kept_and_logged. cbn [tables].
  assert (forall (A : Type) (l : list A), exists more, l = l ++ more) as Hsame
    by (intros A l; exists []; now rewrite app_nil_r).
  split; [|split].
  - unfold POST_settings, authenticated, with_shop. unfold_store.
    run_all; repeat split; try reflexivity; try apply Hsame; eexists; reflexivity.
  - unfold POST_billing_subscribe, authenticated, with_shop. unfold_store.
    run_all; repeat split; try reflexivity; try apply Hsame; eexists; reflexivity.
  - unfold POST_billing_cancel, authenticated, with_shop. unfold_store.
    run_all; repeat split; try reflexivity; try apply Hsame;
      try (apply update_where_ids; reflexivity); eexists; reflexivity.
Qed.

End AdminProperties.

(** ** The settings store, the cleanup job and the environment *)

(** X28.  Insert, then look up.  After [db.updateShopSettings] has
    stored a value under a non-empty key, [db.getShopSettings] for that
    shop and key hands out that value, and for every other shop or key
    it hands out what it did before the write. *)
Theorem settings_read_after_write (now : Z) (shopId key : string) (value : SettingValue)
    (w : World) :
  key <> EmptyString ->
  faults w = [] ->
  fst ((db.updateShopSettings now shopId key value ;;;
        db_getShopSettings shopId (Some key)) w)
    = Returned (value_json value)
  /\ forall shopId' key',
       key' <> EmptyString ->
       (shopId', key') <> (shopId, key) ->
       fst ((db.updateShopSettings now shopId key value ;;;
             db_getShopSettings shopId' (Some key')) w)
       = fst (db_getShopSettings shopId' (Some key') w).
Proof.
  intros Hkey Hq. destruct w as [t n f q]. cbn [faults] in Hq. subst f.
  split.
  - unfold db_getShopSettings, prisma_setting_findUnique, client_call_unlisted.
    unfold_store. unfold nonempty.
    destruct (String.eqb_spec key EmptyString) as [E|_]; [contradiction|].
    cbn.
    rewrite (find_upsert_setting (mkSetting shopId key value now)). reflexivity.
  - intros shopId' key' Hkey' Hne.
    unfold db_getShopSettings, prisma_setting_findUnique, client_call_unlisted.
    unfold_store. unfold nonempty.
    destruct (String.eqb_spec key' EmptyString) as [E|_]; [contradiction|].
    cbn.
    rewrite (find_upsert_setting_other (mkSetting shopId key value now)); [reflexivity|].
    cbn. destruct (String.eqb_spec shopId shopId') as [->|_]; [|reflexivity].
    destruct (String.eqb_spec key key') as [->|_]; [|reflexivity].
    now elim Hne.
Qed.

Section CleanupProperties.

Variable toISOString : Z -> string.
Variable CRON_SECRET : option string.
Variable session_expires : Session -> option Z.
Variable log_createdAt : AuditLog -> Z.

Local Abbreviation cleanup :=
  (GET_cron_cleanup toISOString CRON_SECRET session_expires log_createdAt db_ts).

(** X29.  The cleanup job, bound to the object that [src/lib/db.ts]
    exports, never completes.  A request whose [authorization] header is
    not [Bearer] followed by the secret is answered 401 with the world
    unchanged; with the secret unset the header [Bearer undefined] is
    not among those.  An authorized request deletes the expired
    sessions and then stops at [db.prisma.auditLog]: the answer is 500
    with the TypeError's message.  On every request the audit log and
    the settings are as they were, and the answer is never 200. *)
Theorem cron_cleanup_stops_at_db_prisma (request : Request) (w : World) :
  (header "authorization" request <> Some (bearer CRON_SECRET) ->
     cleanup request w = refused 401 "Unauthorized" w)
  /\
  (CRON_SECRET = None ->
   header "authorization" request = Some "Bearer undefined" ->
   res_status_of (fst (cleanup request w)) = Some 500)
  /\
  (header "authorization" request = Some (bearer CRON_SECRET) ->
   (faults w = [] \/ exists rest, faults w = false :: rest) ->
   fst (cleanup request w)
     = Returned (json_status
                   [ ("success", JBool false);
                     ("error",
                      JStr "Cannot read properties of undefined (reading 'auditLog')");
                     ("timestamp", JStr (toISOString (req_now request))) ] 500)
   /\ sessions (tables (snd (cleanup request w)))
      = filter (fun s => negb (is_expired session_expires (req_now request) s))
               (sessions (tables w)))
  /\ auditLogs (tables (snd (cleanup request w))) = auditLogs (tables w)
  /\ settings (tables (snd (cleanup request w))) = settings (tables w)
  /\ res_status_of (fst (cleanup request w)) <> Some 200.
Proof.
  destruct w as [t n f q]. cbn [tables faults].
  unfold refused, GET_cron_cleanup, db_cleanupExpiredSessions, db_prisma_auditLog,
    client_call_unlisted.
  unfold_store.
  split; [|split; [|split; [|split; [|split]]]].
  - intros Hne.
    destruct (header "authorization" request) as [a|]; [|reflexivity].
    destruct (String.eqb_spec a (bearer CRON_SECRET)) as [->|_]; [now elim Hne|].
    reflexivity.
  - intros -> ->. cbn. destruct f as [|[|] f]; reflexivity.
  - intros -> Hq. rewrite String.eqb_refl.
    destruct Hq as [-> | (rest & ->)]; cbn; split; reflexivity.
  - destruct (header "authorization" request) as [a|]; [|reflexivity].
    destruct (String.eqb a (bearer CRON_SECRET)); [|reflexivity].
    destruct f as [|[|] f]; reflexivity.
  - destruct (header "authorization" request) as [a|]; [|reflexivity].
    destruct (String.eqb a (bearer CRON_SECRET)); [|reflexivity].
    destruct f as [|[|] f]; reflexivity.
  - destruct (header "authorization" request) as [a|]; [|discriminate].
    destruct (String.eqb a (bearer CRON_SECRET)); [|discriminate].
    destruct f as [|[|] f]; discriminate.
Qed.

End CleanupProperties.

(** X30.  The check of the environment at the load of
    [src/lib/shopify.ts] passes exactly when each of the four variables
    is set and not empty.  When it fails, the message lists after its
    prefix the names of the unset or empty variables, in the order of
    the declaration, joined by a comma.  And once it has passed,
    [verifyWebhookSignature] answers every signature of the MAC's length
    with a boolean: the TypeError of a missing key cannot occur. *)
Theorem check_env_passes_iff_all_set (env : Env) :
  (check_env env = inr tt <->
   Forall (fun entry => exists value, snd entry = Some value /\ value <> EmptyString)
          (requiredEnvVars env))
  /\ (forall message,
        check_env env = inl message ->
        message = ("Missing required environment variables: "
                   ++ join ", " (missingEnvVars env))%string
        /\ missingEnvVars env <> []
        /\ forall name, In name (missingEnvVars env) <->
                        exists value, In (name, value) (requiredEnvVars env)
                                      /\ nonempty value = None)
  /\ (check_env env = inr tt ->
      forall data signature,
        String.length signature = 44%nat ->
        exists verdict,
          verifyWebhookSignature (env_SHOPIFY_API_SECRET env) data signature
          = Returned verdict).
Proof.
  assert (forall o : option string,
            nonempty o = None <-> ~ exists value, o = Some value /\ value <> EmptyString) as Hn.
  { intros [x|]; cbn.
    - destruct (String.eqb_spec x EmptyString) as [->|N]; split; intros H.
      + intros (v & [= <-] & Hv). now apply Hv.
      + reflexivity.
      + discriminate.
      + elim H. eauto.
    - split; [intros _ (v & Hv & _); discriminate | reflexivity]. }
  assert (check_env env = inr tt <-> missingEnvVars env = []) as Hc.
  { unfold check_env. destruct (missingEnvVars env); split; intros H;
      try reflexivity; discriminate. }
  assert (missingEnvVars env = [] <->
          Forall (fun entry => exists value, snd entry = Some value /\ value <> EmptyString)
                 (requiredEnvVars env)) as Hm.
  { unfold missingEnvVars. generalize (requiredEnvVars env). intros l.
    induction l as [|[k v] l IH]; cbn.
    - split; [constructor | reflexivity].
    - destruct (nonempty v) eqn:E; cbn.
      + rewrite IH. split; intros H.
        * constructor; [|exact H]. cbn.
          destruct v as [x|]; cbn in E; [|discriminate].
          destruct (String.eqb_spec x EmptyString); [discriminate|]. eauto.
        * now inversion H.
      + split; [discriminate|]. intros H. inversion H as [|? ? Hv _]; subst.
        apply Hn in E. now elim E. }
  split; [now rewrite Hc|]. split.
  - intros message H. unfold check_env in H.
    destruct (missingEnvVars env) as [|m ms] eqn:E; [discriminate|].
    injection H as <-. split; [reflexivity|]. split; [discriminate|].
    intros name. rewrite <- E. unfold missingEnvVars. rewrite in_map_iff. split.
    + intros ([k v] & <- & Hin). apply filter_In in Hin. destruct Hin as [Hin Hv].
      exists v. split; [exact Hin|]. cbn in Hv. now destruct (nonempty v).
    + intros (v & Hin & Hv). exists (name, v). split; [reflexivity|].
      apply filter_In. split; [exact Hin|]. cbn. now rewrite Hv.
  - intros H data signature Hlen. apply Hc, Hm in H.
    unfold requiredEnvVars in H.
    inversion H as [|? ? _ H']; subst. inversion H' as [|? ? (K & HK & _) _]; subst.
    cbn in HK. rewrite HK, verifyWebhookSignature_spec, Hlen. cbn. eauto.
Qed.

(** ** The further theorems at concrete inputs *)

Lemma theme_authentic (body : string) (now : Z) :
  authentic (Some Demo.secret) (Cases.theme_webhook body now).
Proof.
  exists (sign Demo.secret body). split; [reflexivity|].
  apply verify_own_mac.
Defined.

(** X1 at a concrete input: the uninstall event sent without a
    signature header. *)
Lemma unverified_delivery_changes_nothing_witness :
  ~ authentic (Some Demo.secret) (Cases.unsigned Demo.uninstall_event 5000)
  /\ snd (POST_app_uninstalled Demo.demo_parse (Some Demo.secret)
            (Cases.unsigned Demo.uninstall_event 5000) (Demo.world ACTIVE []))
     = Demo.world ACTIVE [].
Proof.
  assert (~ authentic (Some Demo.secret) (Cases.unsigned Demo.uninstall_event 5000)) as H.
  { intros (signature & Hh & _). cbn in Hh. discriminate Hh. }
  split; [exact H|].
  exact (proj1 (proj1 (unverified_delivery_changes_nothing Demo.demo_parse Demo.demo_date
                         (Some Demo.secret) db_ts
                         (Cases.unsigned Demo.uninstall_event 5000) (Demo.world ACTIVE []) H))).
Defined.

(** X3 at a concrete input: the uninstall event for a shop the store
    does not know. *)
Lemma uninstall_nothing_to_purge_witness :
  authentic (Some Demo.secret) (Demo.webhook Demo.secret Demo.uninstall_event 5000)
  /\ Demo.demo_parse (req_body (Demo.webhook Demo.secret Demo.uninstall_event 5000))
     = Returned Demo.uninstall_event_json
  /\ fst (Demo.uninstall 5000 Cases.empty_world) = Returned (json [("success", JBool true)]).
Proof.
  split; [apply demo_authentic|]. split; [reflexivity|].
  exact (proj1 (proj2 (uninstall_nothing_to_purge Demo.demo_parse (Some Demo.secret)
                         (Demo.webhook Demo.secret Demo.uninstall_event 5000)
                         Cases.empty_world Demo.uninstall_event_json
                         (demo_authentic _ _) eq_refl)
                      "demo.myshopify.com" eq_refl eq_refl eq_refl)).
Defined.

(** X4 at a concrete input: the demo shop's uninstall event delivered
    twice. *)
Lemma uninstall_redelivery_acknowledged_witness :
  NoDup (map shopifyDomain (shops (tables (Demo.world ACTIVE []))))
  /\ faults (Demo.world ACTIVE []) = []
  /\ fst (Demo.uninstall 5000 (snd (Demo.uninstall 5000 (Demo.world ACTIVE []))))
     = Returned (json [("success", JBool true)]).
Proof.
  assert (NoDup (map shopifyDomain (shops (tables (Demo.world ACTIVE []))))) as Hnd.
  { constructor; [intros [] | constructor]. }
  split; [exact Hnd|]. split; [reflexivity|].
  exact (proj1 (uninstall_redelivery_acknowledged Demo.demo_parse (Some Demo.secret)
                  (Demo.webhook Demo.secret Demo.uninstall_event 5000)
                  (Demo.world ACTIVE []) Demo.uninstall_event_json
                  "demo.myshopify.com" Demo.shop
                  (demo_authentic _ _) eq_refl eq_refl eq_refl Hnd eq_refl)).
Defined.

(** X5 at a concrete input: the store rejects the lookup of the demo
    shop. *)
Lemma uninstall_needs_its_audit_entry_witness :
  faults (Demo.world ACTIVE [true]) = [true]
  /\ tables (snd (Demo.uninstall 5000 (Demo.world ACTIVE [true])))
     = tables (Demo.world ACTIVE [true]).
Proof.
  split; [reflexivity|].
  exact (proj2 (uninstall_needs_its_audit_entry Demo.demo_parse (Some Demo.secret)
                  (Demo.webhook Demo.secret Demo.uninstall_event 5000)
                  (Demo.world ACTIVE [true]) Demo.uninstall_event_json
                  "demo.myshopify.com" Demo.shop []
                  (demo_authentic _ _) eq_refl eq_refl eq_refl (or_introl eq_refl))).
Defined.

(** X6 at a concrete input: the demo shop is uninstalled while the
    store rejects the last purge call. *)
Lemma uninstall_spares_other_shops_witness :
  find (fun s => String.eqb (shopifyDomain s) "demo.myshopify.com")
       (shops (tables (Demo.world ACTIVE [false; false; false; false; false; false; true])))
    = Some Demo.shop
  /\ filter (fun s => negb (String.eqb (shop_id s) (shop_id Demo.shop)))
            (shops (tables (snd (Demo.uninstall 5000
               (Demo.world ACTIVE [false; false; false; false; false; false; true])))))
     = filter (fun s => negb (String.eqb (shop_id s) (shop_id Demo.shop)))
              (shops (tables (Demo.world ACTIVE
                                [false; false; false; false; false; false; true]))).
Proof.
  split; [reflexivity|].
  exact (proj1 (uninstall_spares_other_shops Demo.demo_parse (Some Demo.secret)
                  (Demo.webhook Demo.secret Demo.uninstall_event 5000)
                  (Demo.world ACTIVE [false; false; false; false; false; false; true])
                  Demo.uninstall_event_json "demo.myshopify.com" Demo.shop
                  (demo_authentic _ _) eq_refl eq_refl eq_refl)).
Defined.

(** X7 at a concrete input: a delivery for an unpublished theme of the
    demo shop. *)
Lemma theme_publish_without_main_theme_witness :
  authentic (Some Demo.secret) (Cases.theme_webhook Cases.draft_event 5000)
  /\ Cases.parse (req_body (Cases.theme_webhook Cases.draft_event 5000))
     = Returned Cases.draft_event_json
  /\ tables (snd (POST_themes_publish Cases.parse (Some Demo.secret) Cases.iso
                    (Cases.theme_webhook Cases.draft_event 5000) (Demo.world ACTIVE [])))
     = tables (Demo.world ACTIVE []).
Proof.
  split; [apply theme_authentic|]. split; [reflexivity|].
  exact (proj2 (proj2 (proj2 (proj2 (theme_publish_without_main_theme Cases.parse
                                       (Some Demo.secret) Cases.iso
                                       (Cases.theme_webhook Cases.draft_event 5000)
                                       (Demo.world ACTIVE []))
                                    Cases.draft_event_json (theme_authentic _ _) eq_refl))
                      "demo.myshopify.com" Demo.shop (JStr "unpublished")
                      eq_refl eq_refl eq_refl eq_refl eq_refl)).
Defined.

(** X8 at concrete inputs: the demo shop publishes the theme 77, and a
    theme whose id, 12345678901234567890, is beyond 2^53: the parsed
    number is the double 12345678901234567168, whose text, and so the
    resource id, is 12345678901234567000. *)
Lemma theme_publish_records_main_theme_witness :
  Cases.parse (req_body (Cases.theme_webhook Cases.theme_event 5000))
    = Returned Cases.theme_event_json
  /\ toString_method (JNum 77) = Returned "77"
  /\ stored_json (shop_id Demo.shop) "theme_change_notification"
       (snd (POST_themes_publish Cases.parse (Some Demo.secret) Cases.iso
               (Cases.theme_webhook Cases.theme_event 5000) (Demo.world ACTIVE [])))
     = JObj [ ("themeId", JNum 77); ("themeName", JStr "Dawn");
              ("changedAt", JStr (Cases.iso (req_now (Cases.theme_webhook Cases.theme_event 5000))));
              ("acknowledged", JBool false) ]
  /\ nearest_double 12345678901234567890 = 12345678901234567168
  /\ toString_method (JNum 12345678901234567168) = Returned "12345678901234567000"
  /\ (exists entry,
        auditLogs (tables (snd (POST_themes_publish Cases.parse (Some Demo.secret) Cases.iso
                                  (Cases.theme_webhook Cases.large_theme_event 5000)
                                  (Demo.world ACTIVE []))))
        = auditLogs (tables (Demo.world ACTIVE [])) ++ [entry]
        /\ action entry = "theme_published"
        /\ log_shopId entry = shop_id Demo.shop
        /\ resourceId entry = Some "12345678901234567000").
Proof.
  assert (toString_method (JNum 12345678901234567168) = Returned "12345678901234567000")
    as Hlarge by (vm_compute; reflexivity).
  split; [reflexivity|]. split; [reflexivity|].
  split.
  - exact (proj2 (proj2 (proj2 (proj2
             (theme_publish_records_main_theme Cases.parse (Some Demo.secret) Cases.iso
                (Cases.theme_webhook Cases.theme_event 5000) (Demo.world ACTIVE [])
                Cases.theme_event_json "demo.myshopify.com" Demo.shop (JNum 77) (JStr "Dawn")
                "77"
                (theme_authentic _ _) eq_refl eq_refl eq_refl eq_refl eq_refl eq_refl eq_refl
                eq_refl eq_refl))))).
  - split; [vm_compute; reflexivity|]. split; [exact Hlarge|].
    exact (proj1 (proj2
             (theme_publish_records_main_theme Cases.parse (Some Demo.secret) Cases.iso
                (Cases.theme_webhook Cases.large_theme_event 5000) (Demo.world ACTIVE [])
                Cases.large_theme_event_json "demo.myshopify.com" Demo.shop
                (JNum 12345678901234567168) (JStr "Dawn") "12345678901234567000"
                (theme_authentic _ _) eq_refl eq_refl eq_refl eq_refl eq_refl Hlarge eq_refl
                eq_refl eq_refl))).
Defined.

(** X9 at a concrete input: the store rejects the notification write of
    that delivery. *)
Lemma theme_notification_failure_tolerated_witness :
  faults (Demo.world ACTIVE [false; false; false; false; true])
    = [false; false; false; false; true]
  /\ fst (POST_themes_publish Cases.parse (Some Demo.secret) Cases.iso
            (Cases.theme_webhook Cases.theme_event 5000)
            (Demo.world ACTIVE [false; false; false; false; true]))
     = Returned (json [ ("success", JBool true);
                        ("message", JStr "Theme publish processed successfully") ]).
Proof.
  split; [reflexivity|].
  exact (proj1
           (theme_notification_failure_tolerated Cases.parse (Some Demo.secret) Cases.iso
              (Cases.theme_webhook Cases.theme_event 5000)
              (Demo.world ACTIVE [false; false; false; false; true])
              Cases.theme_event_json "demo.myshopify.com" Demo.shop (JNum 77) (JStr "Dawn") "77"
              []
              (theme_authentic _ _) eq_refl eq_refl eq_refl eq_refl eq_refl eq_refl eq_refl
              eq_refl eq_refl)).
Defined.

(** X10 at a concrete input: the demo shop publishes the theme 77 and
    then acknowledges the notification. *)
Lemma acknowledge_after_publish_witness :
  nonempty (req_shop (Demo.admin EmptyString 6000)) = Some "demo.myshopify.com"
  /\ field (stored_json (shop_id Demo.shop) "theme_change_notification"
              (snd (PATCH_settings Cases.iso (Returned (Some Demo.session))
                      (Some "acknowledge-theme-change") (Demo.admin EmptyString 6000)
                      (snd (POST_themes_publish Cases.parse (Some Demo.secret) Cases.iso
                              (Cases.theme_webhook Cases.theme_event 5000)
                              (Demo.world ACTIVE []))))))
           "acknowledged"
     = JBool true.
Proof.
  split; [reflexivity|].
  exact (proj1 (proj2
           (acknowledge_after_publish Cases.parse (Some Demo.secret) Cases.iso
              (Returned (Some Demo.session))
              (Cases.theme_webhook Cases.theme_event 5000) (Demo.admin EmptyString 6000)
              (Demo.world ACTIVE [])
              Cases.theme_event_json "demo.myshopify.com" Demo.session Demo.shop
              (JNum 77) (JStr "Dawn") "77"
              (theme_authentic _ _) eq_refl eq_refl eq_refl eq_refl eq_refl eq_refl eq_refl
              eq_refl eq_refl eq_refl eq_refl))).
Defined.

(** X13 at a concrete input: the demo shop sends the empty object, and
    zod reports each of the ten keys as required. *)
Lemma settings_invalid_payload_rejected_witness :
  Demo.demo_parse (req_body (Demo.admin "{}" 6000)) = Returned (JObj [])
  /\ popupSettingsSchema_parse Demo.demo_url Demo.demo_zod (JObj [])
     = Thrown (ZodError_of Demo.demo_zod (map Demo.required settings_keys))
  /\ fst (POST_settings Demo.demo_parse Demo.demo_url Demo.demo_zod
            (Returned (Some Demo.session)) (Demo.admin "{}" 6000) (Demo.world ACTIVE []))
     = Returned
         (json_status
            [ ("error", JStr "Invalid settings data");
              ("details",
               JArr [ JObj [("field", JStr "message"); ("message", JStr "Required")];
                      JObj [("field", JStr "linkUrl"); ("message", JStr "Required")];
                      JObj [("field", JStr "position"); ("message", JStr "Required")];
                      JObj [("field", JStr "maxWidth"); ("message", JStr "Required")];
                      JObj [("field", JStr "padding"); ("message", JStr "Required")];
                      JObj [("field", JStr "zIndex"); ("message", JStr "Required")];
                      JObj [("field", JStr "dismissible"); ("message", JStr "Required")];
                      JObj [("field", JStr "bgColor"); ("message", JStr "Required")];
                      JObj [("field", JStr "textColor"); ("message", JStr "Required")];
                      JObj [("field", JStr "linkColor"); ("message", JStr "Required")] ]) ]
            400)
  /\ tables (snd (POST_settings Demo.demo_parse Demo.demo_url Demo.demo_zod
                    (Returned (Some Demo.session)) (Demo.admin "{}" 6000)
                    (Demo.world ACTIVE [])))
     = tables (Demo.world ACTIVE []).
Proof.
  split; [reflexivity|]. split; [reflexivity|].
  pose proof (settings_invalid_payload_rejected Demo.demo_parse Demo.demo_url Demo.demo_zod
                (Returned (Some Demo.session)) (Demo.admin "{}" 6000) (Demo.world ACTIVE [])
                "demo.myshopify.com" Demo.session Demo.shop (JObj []) _
                (map Demo.required settings_keys)
                eq_refl eq_refl eq_refl eq_refl eq_refl eq_refl) as H.
  split; [exact (proj1 H) | exact (proj1 (proj2 H))].
Defined.

(** X15 at a concrete input: the demo settings. *)
Lemma schema_round_trip_witness :
  popupSettingsSchema_parse Demo.demo_url Demo.demo_zod Demo.settings_json = Returned Demo.custom_settings
  /\ popupSettingsSchema_parse Demo.demo_url Demo.demo_zod (json_of_settings (restrict Demo.custom_settings))
     = Returned (restrict Demo.custom_settings).
Proof.
  split; [reflexivity|].
  exact (proj2 (schema_round_trip Demo.demo_url Demo.demo_zod Demo.settings_json Demo.custom_settings
                  eq_refl)).
Defined.

(** X16 at a concrete input: the store rejects the audit write of the
    demo shop's settings POST. *)
Lemma settings_saved_though_answer_500_witness :
  faults (Demo.world PENDING [false; false; false; true]) = [false; false; false; true]
  /\ fst (Demo.save_settings 6000 (Demo.world PENDING [false; false; false; true]))
     = Returned (json_status [("error", JStr "Failed to update settings")] 500)
  /\ stored_setting (shop_id Demo.shop) "popup_settings"
       (snd (Demo.save_settings 6000 (Demo.world PENDING [false; false; false; true])))
     = Some (PopupValue
               (if entitled (shop_id Demo.shop)
                     (Demo.world PENDING [false; false; false; true])
                then Demo.custom_settings else restrict Demo.custom_settings)).
Proof.
  split; [reflexivity|].
  pose proof (settings_saved_though_answer_500 Demo.demo_parse Demo.demo_url Demo.demo_zod
                (Returned (Some Demo.session)) (Demo.admin Demo.settings_text 6000)
                (Demo.world PENDING [false; false; false; true])
                "demo.myshopify.com" Demo.session Demo.shop
                Demo.settings_json Demo.custom_settings []
                eq_refl eq_refl eq_refl eq_refl eq_refl eq_refl) as H.
  exact (conj (proj1 H) (proj1 (proj2 H))).
Defined.

(** X17 at a concrete input: the demo shop, its subscription PENDING,
    saves custom colours and reads the settings back. *)
Lemma settings_get_after_post_witness :
  entitled (shop_id Demo.shop) (Demo.world PENDING []) = false
  /\ fst (GET_settings (Returned (Some Demo.session)) (Demo.admin EmptyString 7000)
            (snd (Demo.save_settings 6000 (Demo.world PENDING []))))
     = Returned
         (json [ ("success", JBool true);
                 ("data",
                  JObj [ ("popupSettings",
                          json_of_settings
                            (if entitled (shop_id Demo.shop) (Demo.world PENDING [])
                             then Demo.custom_settings else restrict Demo.custom_settings));
                         ("themeInfo",
                          stored_json (shop_id Demo.shop) "theme_info" (Demo.world PENDING []));
                         ("themeChangeNotification",
                          stored_json (shop_id Demo.shop) "theme_change_notification"
                            (Demo.world PENDING [])) ]) ]).
Proof.
  split; [reflexivity|].
  exact (settings_get_after_post Demo.demo_parse Demo.demo_url Demo.demo_zod
           (Returned (Some Demo.session)) (Demo.admin Demo.settings_text 6000)
           (Demo.admin EmptyString 7000) (Demo.world PENDING [])
           "demo.myshopify.com" Demo.session Demo.shop
           Demo.settings_json Demo.custom_settings
           eq_refl eq_refl eq_refl eq_refl eq_refl eq_refl eq_refl).
Defined.

(** X19 at a concrete input: the demo shop, already ACTIVE, asks to
    subscribe. *)
Lemma subscribe_refused_when_active_witness :
  subscribeSchema_parse Demo.demo_zod (JObj []) = Returned ("basic", false)
  /\ entitled (shop_id Demo.shop) (Demo.world ACTIVE []) = true
  /\ tables (snd (Demo.subscribe "gid://shopify/AppSubscription/43" 6000
                    (Demo.world ACTIVE [])))
     = tables (Demo.world ACTIVE []).
Proof.
  split; [reflexivity|]. split; [reflexivity|].
  exact (proj2 (subscribe_refused_when_active Demo.demo_parse Demo.demo_zod
                  (Returned (Some Demo.session))
                  (Demo.grant "gid://shopify/AppSubscription/43") (Demo.admin "{}" 6000)
                  (Demo.world ACTIVE []) "demo.myshopify.com" Demo.session Demo.shop
                  (JObj []) ("basic", false)
                  eq_refl eq_refl eq_refl eq_refl eq_refl eq_refl eq_refl)).
Defined.

(** X20 at a concrete input: the provider refuses the demo shop's
    subscribe request. *)
Lemma subscribe_provider_failure_stores_nothing_witness :
  entitled (shop_id Demo.shop) Demo.fresh_world = false
  /\ fst (POST_billing_subscribe Demo.demo_parse Demo.demo_zod (Returned (Some Demo.session))
            Cases.refuse (Demo.admin "{}" 6000) Demo.fresh_world)
     = Returned (json_status
                   [("error",
                     JStr "Subscription creation failed: Shop is frozen, Plan is not available")]
                   400)
  /\ tables (snd (POST_billing_subscribe Demo.demo_parse Demo.demo_zod
                    (Returned (Some Demo.session)) Cases.refuse (Demo.admin "{}" 6000)
                    Demo.fresh_world))
     = tables Demo.fresh_world.
Proof.
  split; [reflexivity|].
  pose proof (subscribe_provider_failure_stores_nothing Demo.demo_parse Demo.demo_zod
                (Returned (Some Demo.session)) Cases.refuse (Demo.admin "{}" 6000)
                Demo.fresh_world "demo.myshopify.com" Demo.session Demo.shop
                (JObj []) "basic" false
                eq_refl eq_refl eq_refl eq_refl eq_refl eq_refl eq_refl) as H.
  assert (Forall2 (fun err text => get_prop err "message" = Returned (JStr text))
                  [ JObj [("field", JNull); ("message", JStr "Shop is frozen")];
                    JObj [("field", JNull); ("message", JStr "Plan is not available")] ]
                  ["Shop is frozen"; "Plan is not available"]) as Hm
    by (repeat constructor).
  split.
  - exact (proj1 (proj2 H) _ _ _ _ eq_refl eq_refl Hm).
  - exact (proj2 (proj1 H _ _ _ [JStr "Shop is frozen"; JStr "Plan is not available"]
                    eq_refl eq_refl eq_refl)).
Defined.

(** X21 at a concrete input: the provider grants the demo shop's
    subscribe request, made at time 6000, with seven trial days: the
    trial ends at 6000 + 7 * 86400000. *)
Lemma subscribe_stores_pending_row_witness :
  selectedPlan_of "basic" = Some plans_basic
  /\ faults Demo.fresh_world = []
  /\ res_status_of (fst (Demo.subscribe "gid://shopify/AppSubscription/42" 6000
                           Demo.fresh_world)) = Some 200
  /\ (exists row,
        subscriptions (tables (snd (Demo.subscribe "gid://shopify/AppSubscription/42" 6000
                                      Demo.fresh_world))) = [row]
        /\ sub_trialEnd row = Some 604806000
        /\ fst (Demo.subscribe "gid://shopify/AppSubscription/42" 6000 Demo.fresh_world)
           = Returned
               (json [ ("success", JBool true);
                       ("subscription",
                        JObj [ ("id", JStr (sub_id row));
                               ("name", JStr "Privacy Popup Basic");
                               ("status", JStr "PENDING"); ("price", JStr "4.99");
                               ("currency", JStr "USD"); ("trialEnd", JNum 604806000) ]);
                       ("confirmationUrl",
                        JStr "https://demo.myshopify.com/admin/charges/confirm") ]))
  /\ entitled (shop_id Demo.shop)
       (snd (Demo.subscribe "gid://shopify/AppSubscription/42" 6000 Demo.fresh_world))
     = false.
Proof.
  split; [reflexivity|]. split; [reflexivity|].
  pose proof (subscribe_stores_pending_row Demo.demo_parse Demo.demo_zod
                (Returned (Some Demo.session))
                (Demo.grant "gid://shopify/AppSubscription/42") (Demo.admin "{}" 6000)
                Demo.fresh_world "demo.myshopify.com" Demo.session Demo.shop
                (JObj []) "basic" false plans_basic
                (mkCreateResult (Some [])
                   (Some (mkAppSubscription "gid://shopify/AppSubscription/42"
                            "Privacy Popup Basic" (Some 7)))
                   (JStr "https://demo.myshopify.com/admin/charges/confirm"))
                (mkAppSubscription "gid://shopify/AppSubscription/42"
                   "Privacy Popup Basic" (Some 7))
                eq_refl eq_refl eq_refl eq_refl eq_refl eq_refl eq_refl eq_refl eq_refl
                eq_refl eq_refl eq_refl) as H.
  destruct H as (Hstatus & (row & entry & Hrows & _ & _ & _ & _ & Hdays & _ & Hanswer & _)
                 & Hentitled).
  split; [exact Hstatus|]. split; [|exact Hentitled].
  exists row. split; [exact Hrows|].
  pose proof (Hdays 7 eq_refl ltac:(discriminate)) as Hend.
  split; [exact Hend|]. rewrite Hend in Hanswer. exact Hanswer.
Defined.

(** X22 at a concrete input: the store rejects the creation of the row
    for the granted request. *)
Lemma subscribe_store_failures_witness :
  entitled (shop_id Demo.shop)
    (mkWorld (tables Demo.fresh_world) 1 [false; false; true] []) = false
  /\ tables (snd (Demo.subscribe "gid://shopify/AppSubscription/42" 6000
                    (mkWorld (tables Demo.fresh_world) 1 [false; false; true] [])))
     = tables Demo.fresh_world.
Proof.
  split; [reflexivity|].
  exact (proj2 (proj1 (subscribe_store_failures Demo.demo_parse Demo.demo_zod
                  (Returned (Some Demo.session))
                  (Demo.grant "gid://shopify/AppSubscription/42") (Demo.admin "{}" 6000)
                  (mkWorld (tables Demo.fresh_world) 1 [false; false; true] [])
                  "demo.myshopify.com" Demo.session Demo.shop
                  (JObj []) "basic" false plans_basic
                  (mkCreateResult (Some [])
                     (Some (mkAppSubscription "gid://shopify/AppSubscription/42"
                              "Privacy Popup Basic" (Some 7)))
                     (JStr "https://demo.myshopify.com/admin/charges/confirm"))
                  (mkAppSubscription "gid://shopify/AppSubscription/42"
                     "Privacy Popup Basic" (Some 7))
                  eq_refl eq_refl eq_refl eq_refl eq_refl eq_refl eq_refl eq_refl eq_refl
                  eq_refl eq_refl)
                [] eq_refl)).
Defined.

(** X23 at a concrete input: the demo shop, its subscription PENDING,
    asks to cancel. *)
Lemma cancel_without_active_subscription_witness :
  entitled (shop_id Demo.shop) (Demo.world PENDING []) = false
  /\ fst (Demo.cancel Demo.cancel_done 7000 (Demo.world PENDING []))
     = Returned (json_status [("error", JStr "No active subscription found")] 404).
Proof.
  split; [reflexivity|].
  exact (proj1 (cancel_without_active_subscription (Returned (Some Demo.session))
                  Demo.cancel_done (Demo.admin EmptyString 7000) (Demo.world PENDING [])
                  "demo.myshopify.com" Demo.session Demo.shop
                  eq_refl eq_refl eq_refl eq_refl eq_refl)).
Defined.

(** X24 at a concrete input: the demo shop cancels its one ACTIVE
    subscription and then saves custom colours. *)
Lemma cancel_then_settings_restricted_witness :
  active_count (shop_id Demo.shop) (Demo.world ACTIVE []) = 1%nat
  /\ NoDup (map shopifySubscriptionId (subscriptions (tables (Demo.world ACTIVE []))))
  /\ stored_setting (shop_id Demo.shop) "popup_settings"
       (snd (Demo.save_settings 8000
               (snd (Demo.cancel Demo.cancel_done 7000 (Demo.world ACTIVE [])))))
     = Some (PopupValue (restrict Demo.custom_settings)).
Proof.
  assert (NoDup (map shopifySubscriptionId (subscriptions (tables (Demo.world ACTIVE [])))))
    as Hnd.
  { constructor; [intros [] | constructor]. }
  split; [reflexivity|]. split; [exact Hnd|].
  exact (proj2 (cancel_then_settings_restricted Demo.demo_parse Demo.demo_url Demo.demo_zod
                  (Returned (Some Demo.session)) Demo.cancel_done
                  (Demo.admin EmptyString 7000) (Demo.admin Demo.settings_text 8000)
                  (Demo.world ACTIVE []) "demo.myshopify.com" Demo.session Demo.shop
                  (Demo.subscription ACTIVE) (mkCancelResult (Some []))
                  Demo.settings_json Demo.custom_settings
                  eq_refl eq_refl eq_refl eq_refl eq_refl eq_refl Hnd eq_refl eq_refl
                  eq_refl eq_refl eq_refl)).
Defined.

(** X25 at a concrete input: the store rejects the status update after
    the provider has cancelled. *)
Lemma cancel_store_failures_witness :
  Demo.cancel_done (shopifySubscriptionId (Demo.subscription ACTIVE))
    = Returned (mkCancelResult (Some []))
  /\ tables (snd (Demo.cancel Demo.cancel_done 7000 (Demo.world ACTIVE [false; false; true])))
     = tables (Demo.world ACTIVE [false; false; true]).
Proof.
  split; [reflexivity|].
  exact (proj2 (proj1 (cancel_store_failures (Returned (Some Demo.session)) Demo.cancel_done
                         (Demo.admin EmptyString 7000)
                         (Demo.world ACTIVE [false; false; true])
                         "demo.myshopify.com" Demo.session Demo.shop
                         (Demo.subscription ACTIVE) (mkCancelResult (Some []))
                         eq_refl eq_refl eq_refl eq_refl eq_refl eq_refl)
                      [] eq_refl)).
Defined.

(** X28 at a concrete input: a theme setting written and read in the
    fresh demo store. *)
Lemma settings_read_after_write_witness :
  "theme_info" <> EmptyString
  /\ faults Demo.fresh_world = []
  /\ fst ((db.updateShopSettings 1000 "shop_1" "theme_info" (JsonValue (JNum 1)) ;;;
           db_getShopSettings "shop_1" (Some "theme_info")) Demo.fresh_world)
     = Returned (value_json (JsonValue (JNum 1))).
Proof.
  assert ("theme_info" <> EmptyString) as Hk by discriminate.
  split; [exact Hk|]. split; [reflexivity|].
  exact (proj1 (settings_read_after_write 1000 "shop_1" "theme_info" (JsonValue (JNum 1))
                  Demo.fresh_world Hk eq_refl)).
Defined.

(** X2 at a concrete input: the uninstall event sent without a
    signature header. *)
Lemma webhook_head_rejections_witness :
  POST_app_uninstalled Demo.demo_parse (Some Demo.secret)
    (Cases.unsigned Demo.uninstall_event 5000) (Demo.world ACTIVE [])
  = refused 401 "Missing webhook signature" (Demo.world ACTIVE []).
Proof.
  exact (proj1 (proj1 (webhook_head_rejections Demo.demo_parse Demo.demo_date
                         (Some Demo.secret) db_ts
                         (Cases.unsigned Demo.uninstall_event 5000) (Demo.world ACTIVE []))
                      eq_refl)).
Defined.

(** X11 at a concrete input: a PATCH of the demo shop without an
    action. *)
Lemma patch_refuses_or_keeps_witness :
  PATCH_settings Cases.iso (Returned (Some Demo.session)) None (Demo.admin EmptyString 6000)
    (Demo.world ACTIVE [])
  = refused 400 "Invalid action" (Demo.world ACTIVE []).
Proof.
  assert (@None string <> Some "acknowledge-theme-change") as H by discriminate.
  exact (proj1 (patch_refuses_or_keeps Cases.iso (Returned (Some Demo.session)) None
                  (Demo.admin EmptyString 6000) (Demo.world ACTIVE []))
               "demo.myshopify.com" eq_refl H).
Defined.

(** X12 at a concrete input: a settings POST without the [shop]
    parameter. *)
Lemma admin_requests_need_shop_and_session_witness :
  POST_settings Demo.demo_parse Demo.demo_url Demo.demo_zod (Returned (Some Demo.session))
    (Cases.no_shop 6000) (Demo.world ACTIVE [])
  = refused 400 "Missing shop parameter" (Demo.world ACTIVE []).
Proof.
  exact (proj1 (proj1 (admin_requests_need_shop_and_session Demo.demo_parse Demo.demo_url Demo.demo_zod
                         (Returned (Some Demo.session)) Demo.cancel_done
                         (Demo.grant "gid://shopify/AppSubscription/42")
                         (Cases.no_shop 6000) (Demo.world ACTIVE []))
                      eq_refl)).
Defined.

(** X18 at a concrete input: the freshly installed demo shop reads its
    settings. *)
Lemma settings_get_defaults_witness :
  exists themeInfo themeChangeNotification,
    fst (GET_settings (Returned (Some Demo.session)) (Demo.admin EmptyString 6000)
           Demo.fresh_world)
    = Returned
        (json [ ("success", JBool true);
                ("data",
                 JObj [ ("popupSettings", json_of_settings default_popup_settings);
                        ("themeInfo", themeInfo);
                        ("themeChangeNotification", themeChangeNotification) ]) ]).
Proof.
  exact (proj1 (proj2 (settings_get_defaults Demo.demo_url Demo.demo_zod (Returned (Some Demo.session))
                         (Demo.admin EmptyString 6000) Demo.fresh_world))
               "demo.myshopify.com" Demo.session Demo.shop
               eq_refl eq_refl eq_refl eq_refl eq_refl).
Defined.

(** X26 at a concrete input: the demo shop, two and a half days before
    the end of its trial, opens the billing portal. *)
Lemma billing_portal_reads_only_witness :
  exists data,
    fst (GET_billing (Returned (Some Demo.session)) (Returned (JArr []))
           (Demo.admin EmptyString 1000) Cases.trial_world)
      = Returned (json [ ("success", JBool true); ("data", JObj data) ])
    /\ exists d,
         assoc "trialInfo" data
           = Some (JObj [ ("trialEnd", JNum 216001000); ("daysRemaining", JNum d) ])
         /\ (d - 1) * 86400000 < 216001000 - 1000 <= d * 86400000.
Proof.
  destruct (proj2 (billing_portal_reads_only (Returned (Some Demo.session))
                     (Returned (JArr [])) (Demo.admin EmptyString 1000) Cases.trial_world)
                  "demo.myshopify.com" Demo.session Demo.shop (JArr [])
                  eq_refl eq_refl eq_refl eq_refl eq_refl)
    as (data & Hrun & _ & _ & Htrial).
  exists data. split; [exact Hrun|].
  destruct (Htrial Cases.trial_subscription 216001000 eq_refl eq_refl)
    as (d & Hd & _ & _ & Hbounds).
  exists d. split; [exact Hd|].
  apply Hbounds. reflexivity.
Defined.

(** X29 at a concrete input: no secret is configured and the request
    carries [Bearer undefined]. *)
Lemma cron_cleanup_stops_at_db_prisma_witness :
  res_status_of
    (fst (GET_cron_cleanup Cases.iso None Cases.no_expiry Cases.created_at db_ts
            (Cases.cron_request 9000) (Demo.world ACTIVE [])))
  = Some 500.
Proof.
  exact (proj1 (proj2 (cron_cleanup_stops_at_db_prisma Cases.iso None Cases.no_expiry
                         Cases.created_at (Cases.cron_request 9000) (Demo.world ACTIVE [])))
               eq_refl eq_refl).
Defined.

(** X30 at a concrete input: an environment that lacks the key and has
    empty scopes. *)
Lemma check_env_passes_iff_all_set_witness :
  check_env Cases.poor_env
    = inl "Missing required environment variables: SHOPIFY_API_KEY, SCOPES"
  /\ missingEnvVars Cases.poor_env <> [].
Proof.
  split; [reflexivity|].
  exact (proj1 (proj2 (proj1 (proj2 (check_env_passes_iff_all_set Cases.poor_env))
                         "Missing required environment variables: SHOPIFY_API_KEY, SCOPES"
                         eq_refl))).
Defined.
